(** * pdfxpert-file-converter: a shallow embedding of [utils.py] and of the
    split route of [app.py], with the properties of the conversion pipeline.

    What is embedded: all of [utils.py] ([ensure_dir], [random_filename],
    [convert_office_to_pdf], [image_to_pdf], [merge_pdfs], [split_pdf],
    [allowed_file], [compress_pdf]); from [app.py], [login_required] and
    every route under it (dashboard, the four conversions, merge, split,
    unlock, ocr), the three pages with the methods their [@app.route] lines
    let through.  The register, login and logout routes are left out: they
    rest on a table whose schema is not in the sources, on werkzeug's salted
    hashes and on changes to the session.  The library
    calls they make ([os.path], [uuid], [str] and [int] methods, [range],
    pypdf's reader and writer, Pillow's [open], [convert] and [save],
    [subprocess.run], flask's [route], [flash], [redirect] and
    [send_file]) are
    modelled next to them, by what they do to the values the sources hand
    them.

    Conventions of the embedding.
    - A Python [str] is a Rocq [string]; a text that is not pure ASCII is
      represented by its UTF-8 encoding, so that [bytes.decode()] is the
      identity on the byte sequences it accepts.  Unicode digits and Unicode
      white space outside ASCII are not interpreted: a character above 127
      is neither a digit nor a space here, and no statement below depends
      on how Python reads one.
    - Python integers are unbounded: [Z].  The limits of the interpreter
      (memory, the cap on the number of digits [int] accepts) are left out.
    - Python exceptions are values of [exn]; a computation that touches the
      file system, the entropy source or the flash queue lives in the state
      and exception monad [M].
    - A PDF file is the list of its page objects, an image file the image
      Pillow decodes from it; writing to a path always succeeds. *)

From Stdlib Require Import ZArith NArith Ascii String List Lia Bool.
From stdpp Require Import base list gmap strings.

Local Open Scope Z_scope.

(* ===================================================================== *)
(** * Python values shared by both source files *)
(* ===================================================================== *)

(** The exceptions the modelled code can raise or let through. *)
Inductive exn : Type :=
| IndexError (msg : string)
| ValueError (msg : string)
| RuntimeError (msg : string)
| UnicodeDecodeError
| FileNotFoundError (path : string)
| FileExistsError (path : string)
| PdfReadError (path : string)
| UnidentifiedImageError (path : string)
| OSError (msg : string).

Inductive result (A : Type) : Type :=
| Ok (a : A)
| Raise (e : exn).
Arguments Ok {A} a.
Arguments Raise {A} e.

Definition is_ValueError (e : exn) : bool :=
  match e with ValueError _ => true | _ => false end.

(* ===================================================================== *)
(** * Builtins of [str], [int] and [range] used by the sources *)
(* ===================================================================== *)

Module Py.

Definition ord (c : ascii) : N := N_of_ascii c.

(** [Py_UNICODE_ISSPACE] on ASCII: what [str.strip()] removes. *)
Definition unicode_isspace (c : ascii) : bool :=
  let n := ord c in
  (((9 <=? n) && (n <=? 13)) || ((28 <=? n) && (n <=? 32)))%N.

(** [Py_ISSPACE]: the white space [int()] skips around a literal. *)
Definition c_isspace (c : ascii) : bool :=
  let n := ord c in
  (((9 <=? n) && (n <=? 13)) || (n =? 32))%N.

Definition isdigit (c : ascii) : bool :=
  let n := ord c in ((48 <=? n) && (n <=? 57))%N.

Definition digit_value (c : ascii) : Z := Z.of_N (ord c) - 48.

Fixpoint drop_while (f : ascii -> bool) (s : string) : string :=
  match s with
  | EmptyString => EmptyString
  | String c r => if f c then drop_while f r else s
  end.

(** The text with its trailing [f]-characters removed. *)
Fixpoint drop_while_end (f : ascii -> bool) (s : string) : string :=
  match s with
  | EmptyString => EmptyString
  | String c r =>
      match drop_while_end f r with
      | EmptyString => if f c then EmptyString else String c EmptyString
      | r' => String c r'
      end
  end.

(** [s.strip()] *)
Definition strip (s : string) : string :=
  drop_while_end unicode_isspace (drop_while unicode_isspace s).

(** [c in s] for a one-character [c]. *)
Fixpoint contains (c : ascii) (s : string) : bool :=
  match s with
  | EmptyString => false
  | String a r => if Ascii.eqb a c then true else contains c r
  end.

(** [s.split(c)] for a one-character separator: never the empty list. *)
Fixpoint split (c : ascii) (s : string) : list string :=
  match s with
  | EmptyString => [EmptyString]
  | String a r =>
      if Ascii.eqb a c then EmptyString :: split c r
      else match split c r with
           | h :: t => String a h :: t
           | [] => [String a EmptyString]
           end
  end.

(** The digits of a base-10 literal, a single underscore being allowed
    between two digits.  [seen] tells whether the previous character was
    a digit. *)
Fixpoint int_digits (s : string) (acc : Z) (seen : bool) : option Z :=
  match s with
  | EmptyString => if seen then Some acc else None
  | String c r =>
      if isdigit c then int_digits r (10 * acc + digit_value c) true
      else if Ascii.eqb c "_" && seen then int_digits r acc false
      else None
  end.

Definition invalid_literal : exn :=
  ValueError "invalid literal for int() with base 10".

(** [int(s)]: white space around, an optional sign, then the digits. *)
Definition int (s : string) : result Z :=
  let t := drop_while_end c_isspace (drop_while c_isspace s) in
  let '(neg, body) :=
    match t with
    | String a r =>
        if Ascii.eqb a "-" then (true, r)
        else if Ascii.eqb a "+" then (false, r)
        else (false, t)
    | EmptyString => (false, t)
    end in
  match int_digits body 0 false with
  | Some n => Ok (if neg : bool then - n else n)
  | None => Raise invalid_literal
  end.

(** [list(range(start, stop))] *)
Definition range (start stop : Z) : list Z := seqZ start (stop - start).

(** [len(l)] *)
Definition len {A} (l : list A) : Z := Z.of_nat (length l).

(** [l[i]], with Python's negative indices. *)
Definition getitem {A} (l : list A) (i : Z) : result A :=
  let j := if i <? 0 then i + len l else i in
  if j <? 0 then Raise (IndexError "list index out of range")
  else match l !! Z.to_nat j with
       | Some x => Ok x
       | None => Raise (IndexError "list index out of range")
       end.

End Py.

(* ===================================================================== *)
(** * [os.path]: the part of [genericpath], [posixpath] and [ntpath] in use *)
(* ===================================================================== *)

Module OsPath.

Definition chars (s : string) : list ascii := list_ascii_of_string s.
Definition text (l : list ascii) : string := string_of_list_ascii l.

(** [s[:i]] and [s[i:]] for [0 <= i]. *)
Definition slice_to (s : string) (i : Z) : string :=
  text (take (Z.to_nat i) (chars s)).
Definition slice_from (s : string) (i : Z) : string :=
  text (drop (Z.to_nat i) (chars s)).

(** Index of the last [c] in [l], counted from [i]; [-1] when absent. *)
Fixpoint rfind_from (c : ascii) (l : list ascii) (i : Z) : Z :=
  match l with
  | [] => -1
  | a :: r =>
      let k := rfind_from c r (i + 1) in
      if 0 <=? k then k else if Ascii.eqb a c then i else -1
  end.

(** [s.rfind(c)] *)
Definition rfind (c : ascii) (s : string) : Z := rfind_from c (chars s) 0.

(** The [while filenameIndex < dotIndex] loop of [genericpath._splitext]:
    [true] when it leaves through its [return], that is when some
    character in the scanned stretch is not the extension separator. *)
Fixpoint splitext_scan (p : list ascii) (extsep : ascii)
    (filenameIndex : Z) (todo : nat) : bool :=
  match todo with
  | O => false
  | S todo' =>
      match p !! Z.to_nat filenameIndex with
      | Some c =>
          if Ascii.eqb c extsep
          then splitext_scan p extsep (filenameIndex + 1) todo'
          else true
      | None => true
      end
  end.

(** [genericpath._splitext(p, sep, altsep, extsep)] *)
Definition genericpath_splitext (p : string) (sep : ascii)
    (altsep : option ascii) (extsep : ascii) : string * string :=
  let sepIndex :=
    match altsep with
    | Some a => Z.max (rfind sep p) (rfind a p)
    | None => rfind sep p
    end in
  let dotIndex := rfind extsep p in
  if (sepIndex <? dotIndex)
     && splitext_scan (chars p) extsep (sepIndex + 1)
          (Z.to_nat (dotIndex - (sepIndex + 1)))
  then (slice_to p dotIndex, slice_from p dotIndex)
  else (p, EmptyString).

(** The two implementations of [os.path]. *)
Inductive flavour : Type := Posix | Nt.

Definition sep (fl : flavour) : ascii :=
  match fl with Posix => "/" | Nt => "\" end.
Definition altsep (fl : flavour) : option ascii :=
  match fl with Posix => None | Nt => Some "/"%char end.

Definition is_sep (fl : flavour) (c : ascii) : bool :=
  Ascii.eqb c (sep fl)
  || match altsep fl with Some a => Ascii.eqb c a | None => false end.

(** [os.path.splitext(p)] *)
Definition splitext (fl : flavour) (p : string) : string * string :=
  genericpath_splitext p (sep fl) (altsep fl) ".".

(** [posixpath.basename(p)] *)
Definition posix_basename (p : string) : string :=
  slice_from p (rfind "/" p + 1).

Definition startswith (c : ascii) (s : string) : bool :=
  match s with String a _ => Ascii.eqb a c | EmptyString => false end.
Definition endswith (c : ascii) (s : string) : bool :=
  match last (chars s) with Some a => Ascii.eqb a c | None => false end.

(** [posixpath.join(a, b)] *)
Definition posix_join (a b : string) : string :=
  if startswith "/" b then b
  else if String.eqb a EmptyString || endswith "/" a then a +:+ b
  else a +:+ "/" +:+ b.

(** An [os.path] module.  [ntpath]'s [basename] and [join] look at drive
    letters and UNC prefixes; they are taken as the fields of this record,
    and only their results are used by the sources. *)
Record module : Type := Module_ {
  kind : flavour;
  basename : string -> string;
  join : string -> string -> string
}.

Definition posixpath : module :=
  {| kind := Posix; basename := posix_basename; join := posix_join |}.

End OsPath.

(* ===================================================================== *)
(** * Documents, images and the state of the machine *)
(* ===================================================================== *)

(** A decoded raster image: what [Image.open] returns, or the result of
    [convert] on an image.  [mode] is Pillow's pixel format name. *)
Inductive image : Type :=
| Decoded (mode : string) (raster : N)
| Converted (src : image) (mode : string).

Definition image_mode (img : image) : string :=
  match img with Decoded m _ => m | Converted _ m => m end.

(** A page object: a page read from a PDF file, or the page Pillow's PDF
    writer makes of an image at a resolution. *)
Inductive page : Type :=
| PageObject (obj : N)
| ImagePage (img : image) (resolution : Z).

(** File contents, as the libraries that read them see them. *)
Inductive file : Type :=
| PdfFile (pages : list page)
| ImageFile (img : image)
| BlobFile (data : list Byte.byte).

Record world : Type := World {
  fs : gmap string file;          (* regular files, by path *)
  dirs : gset string;             (* directories created so far *)
  urandom : nat -> N;             (* the successive draws of os.urandom *)
  drawn : nat;                    (* how many draws were consumed *)
  flashes : list (string * string)  (* flask's flash queue: message, category *)
}.

Definition set_fs (f : gmap string file) (w : world) : world :=
  {| fs := f; dirs := dirs w; urandom := urandom w; drawn := drawn w;
     flashes := flashes w |}.
Definition set_dirs (d : gset string) (w : world) : world :=
  {| fs := fs w; dirs := d; urandom := urandom w; drawn := drawn w;
     flashes := flashes w |}.
Definition set_drawn (n : nat) (w : world) : world :=
  {| fs := fs w; dirs := dirs w; urandom := urandom w; drawn := n;
     flashes := flashes w |}.
Definition set_flashes (l : list (string * string)) (w : world) : world :=
  {| fs := fs w; dirs := dirs w; urandom := urandom w; drawn := drawn w;
     flashes := l |}.

(** State and exception monad: the state survives a raised exception. *)
Definition M (A : Type) : Type := world -> result A * world.

Definition ret {A} (a : A) : M A := fun w => (Ok a, w).
Definition raise {A} (e : exn) : M A := fun w => (Raise e, w).
Definition bind {A B} (m : M A) (k : A -> M B) : M B :=
  fun w => match m w with
           | (Ok a, w') => k a w'
           | (Raise e, w') => (Raise e, w')
           end.
Definition lift {A} (r : result A) : M A := fun w => (r, w).

Declare Scope py_scope.
Delimit Scope py_scope with py.
Notation "'let*' x ':=' m 'in' k" := (bind m (fun x => k))
  (at level 10, x pattern, m at level 100, k at level 200) : py_scope.
Local Open Scope py_scope.

(** [open(path, "wb")] followed by writing [content]. *)
Definition write_file (path : string) (content : file) : M unit :=
  fun w => (Ok tt, set_fs (<[path := content]> (fs w)) w).

(** [os.path.exists(path)] *)
Definition os_path_exists (path : string) : M bool :=
  fun w => (Ok (bool_decide (is_Some (fs w !! path))
                || bool_decide (path ∈ dirs w)), w).

Record CompletedProcess : Type := {
  returncode : Z;
  stdout : list Byte.byte;
  stderr : list Byte.byte
}.

(** Strict UTF-8, as [bytes.decode()] checks it: shortest forms only, no
    surrogates, nothing above U+10FFFF. *)
Definition between (lo hi b : N) : bool := ((lo <=? b) && (b <=? hi))%N.

Fixpoint utf8_valid (l : list N) : bool :=
  match l with
  | [] => true
  | b0 :: r =>
      if (b0 <=? 0x7f)%N then utf8_valid r
      else
        match r with
        | [] => false
        | b1 :: r1 =>
            if between 0xc2 0xdf b0
            then between 0x80 0xbf b1 && utf8_valid r1
            else
              match r1 with
              | [] => false
              | b2 :: r2 =>
                  if between 0xe0 0xef b0
                  then between (if (b0 =? 0xe0)%N then 0xa0 else 0x80)
                               (if (b0 =? 0xed)%N then 0x9f else 0xbf) b1
                       && between 0x80 0xbf b2 && utf8_valid r2
                  else
                    match r2 with
                    | [] => false
                    | b3 :: r3 =>
                        between 0xf0 0xf4 b0
                        && between (if (b0 =? 0xf0)%N then 0x90 else 0x80)
                                   (if (b0 =? 0xf4)%N then 0x8f else 0xbf) b1
                        && between 0x80 0xbf b2 && between 0x80 0xbf b3
                        && utf8_valid r3
                    end
              end
        end
  end.

(** [b.decode()] *)
Definition bytes_decode (b : list Byte.byte) : result string :=
  if utf8_valid (map Byte.to_N b) then Ok (string_of_list_byte b)
  else Raise UnicodeDecodeError.

(** What the sources take from the machine they run on. *)
Record platform : Type := Platform {
  os_path : OsPath.module;
  (* subprocess.run(cmd, stdout=PIPE, stderr=PIPE) *)
  subprocess_run : list string -> M CompletedProcess;
  (* the pixel formats Pillow's PDF writer accepts *)
  pdf_mode_supported : string -> bool;
  (* os.path.abspath(os.path.dirname(__file__)) *)
  BASE_DIR : string
}.

(* ===================================================================== *)
(** * [uuid.uuid4().hex] *)
(* ===================================================================== *)

Module Uuid.

(** [int.from_bytes(os.urandom(16))], consuming one draw. *)
Definition urandom16 : M Z :=
  fun w => (Ok (Z.of_N (urandom w (drawn w)) mod 2 ^ 128),
            set_drawn (S (drawn w)) w).

(** The variant and version bits [UUID(bytes=..., version=4)] forces. *)
Definition set_version4 (i : Z) : Z :=
  let i := Z.land i (Z.lnot (Z.shiftl 0xc000 48)) in
  let i := Z.lor i (Z.shiftl 0x8000 48) in
  let i := Z.land i (Z.lnot (Z.shiftl 0xf000 64)) in
  Z.lor i (Z.shiftl 4 76).

(** [uuid.uuid4()], as the integer of the identifier. *)
Definition uuid4 : M Z :=
  let* i := urandom16 in
  ret (set_version4 i).

Definition hex_char (d : Z) : ascii :=
  if d <? 10 then ascii_of_N (Z.to_N (48 + d)) else ascii_of_N (Z.to_N (87 + d)).

Fixpoint hex_digits (width : nat) (v : Z) (acc : string) : string :=
  match width with
  | O => acc
  | S width' => hex_digits width' (v / 16) (String (hex_char (v mod 16)) acc)
  end.

(** ['%032x' % i] for [0 <= i < 2^128]. *)
Definition hex (i : Z) : string := hex_digits 32 i EmptyString.

End Uuid.

(* ===================================================================== *)
(** * utils.py *)
(* ===================================================================== *)

Module Utils.
Section WithPlatform.

Variable env : platform.

Definition os_path_splitext (p : string) : string * string :=
  OsPath.splitext (OsPath.kind (os_path env)) p.
Definition os_path_basename : string -> string := OsPath.basename (os_path env).
Definition os_path_join : string -> string -> string := OsPath.join (os_path env).

(** [os.makedirs(path, exist_ok=True)] *)
Definition ensure_dir (path : string) : M unit :=
  fun w => match fs w !! path with
           | Some _ => (Raise (FileExistsError path), w)
           | None => (Ok tt, set_dirs ({[path]} ∪ dirs w) w)
           end.

Definition random_filename (filename : string) : M string :=
  let ext := snd (os_path_splitext filename) in
  let* u := Uuid.uuid4 in
  ret (Uuid.hex u +:+ ext).

Definition soffice_cmd (input_path output_dir : string) : list string :=
  [ "C:\\Program Files\\LibreOffice\\program\\soffice.exe";
    "--headless"; "--convert-to"; "pdf"; "--outdir"; output_dir; input_path ].

Definition convert_office_to_pdf (input_path output_dir : string) : M string :=
  let* _ := ensure_dir output_dir in
  let cmd := soffice_cmd input_path output_dir in
  let* proc := subprocess_run env cmd in
  if negb (returncode proc =? 0) then
    let* err := lift (bytes_decode (stderr proc)) in
    raise (RuntimeError ("LibreOffice conversion failed: " +:+ err))
  else
    let base := fst (os_path_splitext (os_path_basename input_path)) in
    let output_file := os_path_join output_dir (base +:+ ".pdf") in
    let* found := os_path_exists output_file in
    if negb found then raise (RuntimeError "Converted PDF not found!")
    else ret output_file.

(** [Image.open(path)] *)
Definition Image_open (path : string) : M image :=
  fun w => match fs w !! path with
           | Some (ImageFile img) => (Ok img, w)
           | Some _ => (Raise (UnidentifiedImageError path), w)
           | None => (Raise (FileNotFoundError path), w)
           end.

(** [img.convert(mode)] *)
Definition Image_convert (img : image) (mode : string) : image :=
  Converted img mode.

(** [img.save(path, "PDF", resolution=r)]: a one-page document, or the
    [ValueError] of Pillow's PDF writer for a pixel format it does not
    encode.  What a refused save leaves at [path] is not modelled. *)
Definition Image_save_pdf (img : image) (path : string) (resolution : Z) : M unit :=
  if pdf_mode_supported env (image_mode img)
  then write_file path (PdfFile [ImagePage img resolution])
  else raise (ValueError ("cannot save mode " +:+ image_mode img)).

Definition image_to_pdf (input_path output_path : string) : M unit :=
  let* img := Image_open input_path in
  let img :=
    if String.eqb (image_mode img) "RGBA" || String.eqb (image_mode img) "P"
    then Image_convert img "RGB"
    else img in
  Image_save_pdf img output_path 100.

(** [PdfReader(path)], as the list [reader.pages]. *)
Definition PdfReader (path : string) : M (list page) :=
  fun w => match fs w !! path with
           | Some (PdfFile pages) => (Ok pages, w)
           | Some _ => (Raise (PdfReadError path), w)
           | None => (Raise (FileNotFoundError path), w)
           end.

(** [writer.add_page(page)] on the page list of a [PdfWriter]. *)
Definition add_page (writer : list page) (pg : page) : list page :=
  writer ++ [pg].

(** The outer [for fp in file_paths] loop of [merge_pdfs]; the inner loop
    over [reader.pages] is the [fold_left]. *)
Fixpoint merge_loop (file_paths : list string) (writer : list page)
    : M (list page) :=
  match file_paths with
  | [] => ret writer
  | fp :: rest =>
      let* reader_pages := PdfReader fp in
      merge_loop rest (fold_left add_page reader_pages writer)
  end.

Definition merge_pdfs (file_paths : list string) (out_path : string) : M unit :=
  let* writer := merge_loop file_paths [] in
  write_file out_path (PdfFile writer).

(** The [for p in pages] loop of [split_pdf]. *)
Fixpoint split_loop (reader_pages : list page) (pages : list Z)
    (writer : list page) : result (list page) :=
  match pages with
  | [] => Ok writer
  | p :: rest =>
      let idx := p - 1 in
      if (idx <? 0) || (Py.len reader_pages <=? idx)
      then Raise (IndexError "Page index out of range")
      else match Py.getitem reader_pages idx with
           | Ok pg => split_loop reader_pages rest (add_page writer pg)
           | Raise e => Raise e
           end
  end.

Definition split_pdf (pdf_path : string) (pages : list Z) (out_path : string)
    : M unit :=
  let* reader_pages := PdfReader pdf_path in
  let* writer := lift (split_loop reader_pages pages []) in
  write_file out_path (PdfFile writer).

End WithPlatform.
End Utils.

(* ===================================================================== *)
(** * app.py: the request, the login gate and the split route *)
(* ===================================================================== *)

Module App.

(** werkzeug's [FileStorage]: the client's file name and the upload. *)
Record FileStorage : Type := {
  filename : string;
  stream : file
}.

Record request : Type := {
  method : string;
  session : gmap string Z;
  files : list (string * FileStorage);
  form : list (string * string)
}.

Inductive response : Type :=
| Redirect (location : string)
| Template (name : string)
| Attachment (path : string) (body : file).

(** What the client gets: the view's response, or the answer to an
    exception no handler caught (status 500). *)
Inductive outcome : Type :=
| Responded (r : response)
| ServerError (e : exn).

(** [MultiDict.get(key)]: the first value under the key. *)
Fixpoint multidict_get {A} (d : list (string * A)) (key : string) : option A :=
  match d with
  | [] => None
  | (k, v) :: rest => if String.eqb k key then Some v else multidict_get rest key
  end.

(** [bool(f)] for a [FileStorage]: its file name is not empty. *)
Definition FileStorage_bool (f : FileStorage) : bool :=
  negb (String.eqb (filename f) EmptyString).

(** [url_for(endpoint)] for the routes declared in app.py. *)
Definition url_for (endpoint : string) : string :=
  if String.eqb endpoint "dashboard" then "/"
  else if String.eqb endpoint "convert_word" then "/convert/word"
  else if String.eqb endpoint "convert_ppt" then "/convert/ppt"
  else if String.eqb endpoint "convert_image" then "/convert/image"
  else if String.eqb endpoint "convert_excel" then "/convert/excel"
  else "/" +:+ endpoint.

Definition redirect (location : string) : M response := ret (Redirect location).
Definition render_template (name : string) : M response := ret (Template name).

Definition flash (message category : string) : M unit :=
  fun w => (Ok tt, set_flashes (flashes w ++ [(message, category)]) w).

(** [f.save(dst)] *)
Definition FileStorage_save (f : FileStorage) (dst : string) : M unit :=
  write_file dst (stream f).

(** [send_file(path, as_attachment=True)] *)
Definition send_file (path : string) : M response :=
  fun w => match fs w !! path with
           | Some body => (Ok (Attachment path body), w)
           | None => (Raise (FileNotFoundError path), w)
           end.

(** [start, end = map(int, items)]: [int] is applied as the unpacking
    asks for the next item, a third item included. *)
Definition unpack_two_ints (items : list string) : result (Z * Z) :=
  match items with
  | [] => Raise (ValueError "not enough values to unpack (expected 2, got 0)")
  | a :: r =>
      match Py.int a with
      | Raise e => Raise e
      | Ok start =>
          match r with
          | [] => Raise (ValueError "not enough values to unpack (expected 2, got 1)")
          | b :: r' =>
              match Py.int b with
              | Raise e => Raise e
              | Ok end_ =>
                  match r' with
                  | [] => Ok (start, end_)
                  | c :: _ =>
                      match Py.int c with
                      | Raise e => Raise e
                      | Ok _ => Raise (ValueError "too many values to unpack (expected 2)")
                      end
                  end
              end
          end
      end
  end.

(** The [for part in pages.split(",")] loop of the split route. *)
Fixpoint page_list_loop (parts : list string) (page_list : list Z)
    : result (list Z) :=
  match parts with
  | [] => Ok page_list
  | part :: rest =>
      let part := Py.strip part in
      if Py.contains "-" part then
        match unpack_two_ints (Py.split "-" part) with
        | Ok (start, end_) =>
            page_list_loop rest (page_list ++ Py.range start (end_ + 1))
        | Raise e => Raise e
        end
      else
        match Py.int part with
        | Ok n => page_list_loop rest (page_list ++ [n])
        | Raise e => Raise e
        end
  end.

Definition parse_pages (pages : string) : result (list Z) :=
  page_list_loop (Py.split "," pages) [].

Section WithPlatform.

Variable env : platform.

Definition UPLOAD_DIR : string := Utils.os_path_join env (BASE_DIR env) "uploads".
Definition CONVERTED_DIR : string := Utils.os_path_join env (BASE_DIR env) "converted".

Definition login_required (fn : request -> M response) (req : request)
    : M response :=
  if bool_decide (session req !! "user_id" = None)
  then redirect (url_for "login")
  else fn req.

(** The function under [@login_required] at the route [/split]. *)
Definition split_view (req : request) : M response :=
  if String.eqb (method req) "POST" then
    match multidict_get (files req) "file", multidict_get (form req) "pages" with
    | Some pdf, Some pages =>
        if negb (FileStorage_bool pdf) || String.eqb pages EmptyString then
          let* _ := flash "Upload PDF and enter pages!" "danger" in
          redirect (url_for "split")
        else
          let* filename := Utils.random_filename env (filename pdf) in
          let path := Utils.os_path_join env UPLOAD_DIR filename in
          let* _ := FileStorage_save pdf path in
          let* page_list := lift (parse_pages pages) in
          let* name := Utils.random_filename env "split.pdf" in
          let output_path := Utils.os_path_join env CONVERTED_DIR name in
          let* _ := Utils.split_pdf path page_list output_path in
          send_file output_path
    | _, _ =>
        let* _ := flash "Upload PDF and enter pages!" "danger" in
        redirect (url_for "split")
    end
  else render_template "split.html".

Definition split : request -> M response := login_required split_view.

(** Flask around a view: an exception leaving the view is a server error. *)
Definition dispatch (view : request -> M response) (req : request)
    : world -> outcome * world :=
  fun w => match view req w with
           | (Ok r, w') => (Responded r, w')
           | (Raise e, w') => (ServerError e, w')
           end.

End WithPlatform.
End App.

(* ===================================================================== *)
(** * The rest of utils.py: [allowed_file] and [compress_pdf] *)
(* ===================================================================== *)

(** [str.lower] and [str.endswith].  On the names the sources test, Python's
    [lower] differs from the one below only on characters above 127, and
    none of those lowers to a letter of the suffixes and extensions the
    sources compare with (only U+0130 and U+212A lower to ASCII, to "i" and
    "k"). *)
Module PyStr.

Definition lower_char (c : ascii) : ascii :=
  let n := Py.ord c in
  if ((65 <=? n) && (n <=? 90))%N then ascii_of_N (n + 32) else c.

(** [s.lower()] *)
Fixpoint lower (s : string) : string :=
  match s with
  | EmptyString => EmptyString
  | String c r => String (lower_char c) (lower r)
  end.

(** [s.endswith(suffix)] *)
Fixpoint endswith (s suffix : string) : bool :=
  String.eqb s suffix
  || match s with
     | EmptyString => false
     | String _ r => endswith r suffix
     end.

(** [s.endswith((suffix, ...))] *)
Definition endswith_any (s : string) (suffixes : list string) : bool :=
  existsb (endswith s) suffixes.

End PyStr.

Module UtilsRest.

(** The set [ALLOWED_IN]. *)
Definition ALLOWED_IN : gset string :=
  {[ ".doc"; ".docx"; ".ppt"; ".pptx"; ".xls"; ".xlsx"; ".pdf"; ".jpg";
     ".jpeg"; ".png" ]}.

Definition allowed_file (env : platform) (filename : string) : bool :=
  let ext := PyStr.lower (snd (Utils.os_path_splitext env filename)) in
  bool_decide (ext ∈ ALLOWED_IN).

Section Compress.

(** [page.compress_content_streams()], as the page it leaves behind, or the
    exception pypdf raises on a page it cannot rewrite. *)
Variable compress_content_streams : page -> result page.

(** The dictionary [quality_map]. *)
Definition quality_map : gmap string Z :=
  <["low" := 50]> (<["medium" := 70]> (<["high" := 85]> ∅)).

(** The [for page in reader.pages] loop of [compress_pdf]. *)
Fixpoint compress_loop (reader_pages : list page) (writer : list page)
    : result (list page) :=
  match reader_pages with
  | [] => Ok writer
  | pg :: rest =>
      match compress_content_streams pg with
      | Ok pg' => compress_loop rest (Utils.add_page writer pg')
      | Raise e => Raise e
      end
  end.

Definition compress_pdf (input_path output_path quality : string) : M unit :=
  let* reader_pages := Utils.PdfReader input_path in
  let jpeg_quality := default 70 (quality_map !! quality) in
  let* writer := lift (compress_loop reader_pages []) in
  write_file output_path (PdfFile writer).

End Compress.

(** [page.compress_content_streams()] on a page that belongs to a
    [PdfReader], as pypdf answers now that it swaps the stream inside the
    writer that owns the page: the page without a content stream is left
    as it is, any other is refused.  [blank] tells which page objects read
    from a file have no content stream; the page Pillow makes of an image
    has one. *)
Definition reader_page_compress (blank : N -> bool) (pg : page) : result page :=
  match pg with
  | PageObject obj =>
      if blank obj then Ok pg
      else Raise (ValueError "Page must be part of a PdfWriter")
  | ImagePage _ _ => Raise (ValueError "Page must be part of a PdfWriter")
  end.

End UtilsRest.

(* ===================================================================== *)
(** * Flask's URL map: what [@app.route] lets through to a view *)
(* ===================================================================== *)

Module Flask.

(** What the client gets from a rule its path matches. *)
Inductive answer : Type :=
| Dispatched (o : App.outcome)    (* the view function was called *)
| AutomaticOptions                (* flask's own answer to OPTIONS *)
| MethodNotAllowed.               (* status 405: the rule does not list the method *)

(** The methods of a rule declared without [methods=]. *)
Definition default_methods : list string := ["GET"].

(** The methods a rule hands to its view: werkzeug adds HEAD to GET. *)
Definition rule_methods (methods : list string) : list string :=
  if bool_decide ("GET" ∈ methods) then methods ++ ["HEAD"] else methods.

(** [@app.route(rule, methods=methods)] over a view function, on a request
    for that rule; [App.method] is [request.method], in upper case. *)
Definition route (methods : list string)
    (view_func : App.request -> M App.response) (req : App.request)
    : world -> answer * world :=
  fun w =>
    if bool_decide (App.method req ∈ rule_methods methods) then
      match App.dispatch view_func req w with
      | (o, w') => (Dispatched o, w')
      end
    else if String.eqb (App.method req) "OPTIONS" then (AutomaticOptions, w)
    else (MethodNotAllowed, w).

End Flask.

(* ===================================================================== *)
(** * The other routes of app.py behind the login gate *)
(* ===================================================================== *)

Module Routes.

(** [MultiDict.getlist(key)]: every value under the key, in order. *)
Fixpoint multidict_getlist {A} (d : list (string * A)) (key : string) : list A :=
  match d with
  | [] => []
  | (k, v) :: rest =>
      if String.eqb k key then v :: multidict_getlist rest key
      else multidict_getlist rest key
  end.

Section WithPlatform.

Variable env : platform.

(** The route [/]: declared without [methods=], so only GET and HEAD
    reach the gate and the view. *)
Definition dashboard : App.request -> world -> Flask.answer * world :=
  Flask.route Flask.default_methods
    (App.login_required (fun _ => App.render_template "dashboard.html")).

Definition convert_word_view (req : App.request) : M App.response :=
  if String.eqb (App.method req) "POST" then
    match App.multidict_get (App.files req) "file" with
    | Some file =>
        if App.FileStorage_bool file
           && PyStr.endswith (PyStr.lower (App.filename file)) ".docx"
        then
          let* filename := Utils.random_filename env (App.filename file) in
          let save_path := Utils.os_path_join env (App.UPLOAD_DIR env) filename in
          let* _ := App.FileStorage_save file save_path in
          let* output_file :=
            Utils.convert_office_to_pdf env save_path (App.CONVERTED_DIR env) in
          App.send_file output_file
        else
          let* _ := App.flash "Upload a valid .docx file!" "danger" in
          App.render_template "word_to_pdf.html"
    | None =>
        let* _ := App.flash "Upload a valid .docx file!" "danger" in
        App.render_template "word_to_pdf.html"
    end
  else App.render_template "word_to_pdf.html".

Definition convert_word : App.request -> M App.response :=
  App.login_required convert_word_view.

Definition convert_ppt_view (req : App.request) : M App.response :=
  if String.eqb (App.method req) "POST" then
    match App.multidict_get (App.files req) "file" with
    | Some file =>
        if App.FileStorage_bool file
           && PyStr.endswith_any (PyStr.lower (App.filename file)) [".ppt"; ".pptx"]
        then
          let* filename := Utils.random_filename env (App.filename file) in
          let save_path := Utils.os_path_join env (App.UPLOAD_DIR env) filename in
          let* _ := App.FileStorage_save file save_path in
          let* output_file :=
            Utils.convert_office_to_pdf env save_path (App.CONVERTED_DIR env) in
          App.send_file output_file
        else
          let* _ := App.flash "Upload a valid PPT or PPTX file!" "danger" in
          App.render_template "ppt_to_pdf.html"
    | None =>
        let* _ := App.flash "Upload a valid PPT or PPTX file!" "danger" in
        App.render_template "ppt_to_pdf.html"
    end
  else App.render_template "ppt_to_pdf.html".

Definition convert_ppt : App.request -> M App.response :=
  App.login_required convert_ppt_view.

Definition convert_image_view (req : App.request) : M App.response :=
  if String.eqb (App.method req) "POST" then
    match App.multidict_get (App.files req) "file" with
    | Some file =>
        if App.FileStorage_bool file
           && PyStr.endswith_any (PyStr.lower (App.filename file))
                [".jpg"; ".jpeg"; ".png"]
        then
          let* filename := Utils.random_filename env (App.filename file) in
          let save_path := Utils.os_path_join env (App.UPLOAD_DIR env) filename in
          let* _ := App.FileStorage_save file save_path in
          let* name := Utils.random_filename env "image.pdf" in
          let output_path := Utils.os_path_join env (App.CONVERTED_DIR env) name in
          let* _ := Utils.image_to_pdf env save_path output_path in
          App.send_file output_path
        else
          let* _ := App.flash "Upload a JPG, JPEG, or PNG image!" "danger" in
          App.render_template "image_to_pdf.html"
    | None =>
        let* _ := App.flash "Upload a JPG, JPEG, or PNG image!" "danger" in
        App.render_template "image_to_pdf.html"
    end
  else App.render_template "image_to_pdf.html".

Definition convert_image : App.request -> M App.response :=
  App.login_required convert_image_view.

Definition convert_excel_view (req : App.request) : M App.response :=
  if String.eqb (App.method req) "POST" then
    match App.multidict_get (App.files req) "file" with
    | Some file =>
        if App.FileStorage_bool file
           && PyStr.endswith_any (PyStr.lower (App.filename file)) [".xls"; ".xlsx"]
        then
          let* filename := Utils.random_filename env (App.filename file) in
          let save_path := Utils.os_path_join env (App.UPLOAD_DIR env) filename in
          let* _ := App.FileStorage_save file save_path in
          let* output_file :=
            Utils.convert_office_to_pdf env save_path (App.CONVERTED_DIR env) in
          App.send_file output_file
        else
          let* _ := App.flash "Upload a valid XLS or XLSX file!" "danger" in
          App.render_template "excel_to_pdf.html"
    | None =>
        let* _ := App.flash "Upload a valid XLS or XLSX file!" "danger" in
        App.render_template "excel_to_pdf.html"
    end
  else App.render_template "excel_to_pdf.html".

Definition convert_excel : App.request -> M App.response :=
  App.login_required convert_excel_view.

(** The [for f in files] loop of the merge route. *)
Fixpoint merge_save_loop (files : list App.FileStorage) (file_paths : list string)
    : M (list string) :=
  match files with
  | [] => ret file_paths
  | f :: rest =>
      let* fname := Utils.random_filename env (App.filename f) in
      let path := Utils.os_path_join env (App.UPLOAD_DIR env) fname in
      let* _ := App.FileStorage_save f path in
      merge_save_loop rest (file_paths ++ [path])
  end.

Definition merge_view (req : App.request) : M App.response :=
  if String.eqb (App.method req) "POST" then
    let files := multidict_getlist (App.files req) "files" in
    if Py.len files <? 2 then
      let* _ := App.flash "Upload at least 2 PDFs" "danger" in
      App.redirect (App.url_for "merge")
    else
      let* file_paths := merge_save_loop files [] in
      let* name := Utils.random_filename env "merged.pdf" in
      let output_path := Utils.os_path_join env (App.CONVERTED_DIR env) name in
      let* _ := Utils.merge_pdfs file_paths output_path in
      App.send_file output_path
  else App.render_template "merge.html".

Definition merge : App.request -> M App.response :=
  App.login_required merge_view.

(** The routes [/unlock] and [/ocr], declared without [methods=] too. *)
Definition unlock : App.request -> world -> Flask.answer * world :=
  Flask.route Flask.default_methods
    (App.login_required (fun _ => App.render_template "unlock.html")).

Definition ocr : App.request -> world -> Flask.answer * world :=
  Flask.route Flask.default_methods
    (App.login_required (fun _ => App.render_template "ocr.html")).

End WithPlatform.
End Routes.

(* ===================================================================== *)
(** * The vocabulary of the specification *)
(* ===================================================================== *)

(** Pages strings written as the specification describes them: single
    numbers and inclusive ranges, separated by commas. *)
Module PagesText.

Inductive digit : Type := D0 | D1 | D2 | D3 | D4 | D5 | D6 | D7 | D8 | D9.

Definition digit_char (d : digit) : ascii :=
  match d with
  | D0 => "0" | D1 => "1" | D2 => "2" | D3 => "3" | D4 => "4"
  | D5 => "5" | D6 => "6" | D7 => "7" | D8 => "8" | D9 => "9"
  end.

Definition digit_Z (d : digit) : Z :=
  match d with
  | D0 => 0 | D1 => 1 | D2 => 2 | D3 => 3 | D4 => 4
  | D5 => 5 | D6 => 6 | D7 => 7 | D8 => 8 | D9 => 9
  end.

(** A number: one digit at least. *)
Record numeral : Type := Numeral { lead : digit; more : list digit }.

Fixpoint digits_text (ds : list digit) : string :=
  match ds with
  | [] => EmptyString
  | d :: r => String (digit_char d) (digits_text r)
  end.

Definition numeral_text (n : numeral) : string :=
  digits_text (lead n :: more n).

(** The number a digit sequence denotes, most significant digit first. *)
Definition digits_value (ds : list digit) : Z :=
  fold_left (fun acc d => 10 * acc + digit_Z d) ds 0.

Definition numeral_value (n : numeral) : Z :=
  digits_value (lead n :: more n).

Inductive item : Type :=
| Single (n : numeral)
| Span (a b : numeral).

Definition item_text (i : item) : string :=
  match i with
  | Single n => numeral_text n
  | Span a b => numeral_text a +:+ String "-" (numeral_text b)
  end.

Fixpoint join_comma (first : string) (rest : list string) : string :=
  match rest with
  | [] => first
  | x :: r => first +:+ String "," (join_comma x r)
  end.

(** The pages string of a non-empty list of items. *)
Definition pages_text (first : item) (rest : list item) : string :=
  join_comma (item_text first) (map item_text rest).

(** [a, a+1, ...], [n] numbers in all. *)
Fixpoint count_up (a : Z) (n : nat) : list Z :=
  match n with
  | O => []
  | S n' => a :: count_up (a + 1) n'
  end.

(** What an item contributes: itself, or [a, a+1, ..., b]. *)
Definition item_pages (i : item) : list Z :=
  match i with
  | Single n => [numeral_value n]
  | Span a b =>
      count_up (numeral_value a) (Z.to_nat (numeral_value b - numeral_value a + 1))
  end.

Definition expansion (first : item) (rest : list item) : list Z :=
  item_pages first ++ concat (map item_pages rest).

Definition descending (i : item) : Prop :=
  match i with
  | Single _ => False
  | Span a b => numeral_value b < numeral_value a
  end.

Fixpoint count_char (c : ascii) (s : string) : nat :=
  match s with
  | EmptyString => O
  | String a r => (if Ascii.eqb a c then 1 else 0)%nat + count_char c r
  end.

(** An ASCII character that occurs in no integer literal. *)
Definition foreign (c : ascii) : bool :=
  (Py.ord c <? 128)%N
  && negb (Py.isdigit c || Py.c_isspace c || Ascii.eqb c "_"
           || Ascii.eqb c "+" || Ascii.eqb c "-").

(** The tokens the page parser rejects: the empty token, a token without
    hyphen that holds a character foreign to integers, a token with two
    hyphens or more, a token that starts with a hyphen. *)
Inductive malformed : string -> Prop :=
| malformed_empty : malformed EmptyString
| malformed_foreign t c :
    Py.contains "-" t = false -> In c (OsPath.chars t) -> foreign c = true ->
    malformed t
| malformed_hyphens t : (2 <= count_char "-" t)%nat -> malformed t
| malformed_leading_hyphen r : malformed (String "-" r).

End PagesText.

(** Pillow's pixel formats, from its documentation of modes. *)
Module Mode.

Definition has_alpha (mode : string) : bool :=
  bool_decide (mode ∈ ["LA"; "PA"; "RGBA"; "RGBa"; "La"]).

Definition has_palette (mode : string) : bool :=
  bool_decide (mode ∈ ["P"; "PA"]).

End Mode.

(** A 1-based page number that names a page of [src]. *)
Definition in_range (src : list page) (p : Z) : Prop :=
  1 <= p <= Py.len src.

(** The token the next call of [uuid.uuid4().hex] returns in [w]. *)
Definition fresh_token (w : world) : string :=
  Uuid.hex (Uuid.set_version4 (Z.of_N (urandom w (drawn w)) mod 2 ^ 128)).

(** A logged-in POST that carries the upload [pdf] and the field [pages]. *)
Definition split_post (req : App.request) (pdf : App.FileStorage) (pages : string)
    : Prop :=
  App.method req = "POST"
  /\ is_Some (App.session req !! "user_id")
  /\ App.multidict_get (App.files req) "file" = Some pdf
  /\ App.filename pdf <> EmptyString
  /\ App.multidict_get (App.form req) "pages" = Some pages.

(** The characters of a token. *)
Definition hex_alphabet : list ascii := OsPath.chars "0123456789abcdef".

(** The image an [image_to_pdf] output document was encoded from. *)
Definition encoded_image (f : option file) : option image :=
  match f with
  | Some (PdfFile [ImagePage img _]) => Some img
  | _ => None
  end.

(* ===================================================================== *)
(** * A small machine to run the definitions on *)
(* ===================================================================== *)

Module Demo.

(** A stand-in for the office binary: exit status 0, nothing written. *)
Definition idle_office (cmd : list string) : M CompletedProcess :=
  ret {| returncode := 0; stdout := []; stderr := [] |}.

(** An office binary that fails and complains in Latin-1: "Datei
    beschädigt" has the byte E4, which is not UTF-8 here. *)
Definition latin1_office (cmd : list string) : M CompletedProcess :=
  ret {| returncode := 1; stdout := [];
         stderr := [Byte.x44; Byte.x61; Byte.x74; Byte.x65; Byte.x69;
                    Byte.x20; Byte.x62; Byte.x65; Byte.x73; Byte.x63;
                    Byte.x68; Byte.xe4; Byte.x64; Byte.x69; Byte.x67;
                    Byte.x74] |}.

(** An office binary that writes the converted file it is asked for. *)
Definition obedient_office (cmd : list string) : M CompletedProcess :=
  fun w =>
    match cmd with
    | [_; _; _; _; _; outdir; input] =>
        let base := fst (OsPath.splitext OsPath.Posix (OsPath.posix_basename input)) in
        let out := OsPath.posix_join outdir (base +:+ ".pdf") in
        (Ok {| returncode := 0; stdout := []; stderr := [] |},
         set_fs (<[out := PdfFile [PageObject 0] ]> (fs w)) w)
    | _ => (Ok {| returncode := 1; stdout := []; stderr := [] |}, w)
    end.

Definition pillow_pdf_modes (mode : string) : bool :=
  bool_decide (mode ∈ ["1"; "L"; "LA"; "P"; "RGB"; "RGBA"; "CMYK"]).

Definition machine (office : list string -> M CompletedProcess) : platform :=
  {| os_path := OsPath.posixpath;
     subprocess_run := office;
     pdf_mode_supported := pillow_pdf_modes;
     BASE_DIR := "/srv/app" |}.

Definition env : platform := machine idle_office.

Definition five_pages : list page :=
  [PageObject 1; PageObject 2; PageObject 3; PageObject 4; PageObject 5].

Definition disk : gmap string file :=
  <["in/a.pdf" := PdfFile five_pages]>
  (<["in/b.pdf" := PdfFile [PageObject 6; PageObject 7] ]>
  (<["in/grey.png" := ImageFile (Decoded "LA" 7)]>
  (<["in/logo.png" := ImageFile (Decoded "RGBA" 8)]> ∅))).

Definition world0 : world :=
  {| fs := disk; dirs := ∅; urandom := fun n => (1000 + N.of_nat n)%N;
     drawn := 0; flashes := [] |}.

(** A logged-in POST to /split with an upload and a pages field. *)
Definition split_request (name : string) (upload : file) (pages : string)
    : App.request :=
  {| App.method := "POST";
     App.session := {["user_id" := 1]};
     App.files := [("file", {| App.filename := name; App.stream := upload |})];
     App.form := [("pages", pages)] |}.

End Demo.

(* ===================================================================== *)
(** * Vocabulary for the routes *)
(* ===================================================================== *)

(** The session of the request names a user. *)
Definition logged_in (req : App.request) : Prop :=
  is_Some (App.session req !! "user_id").

(** The routes of app.py under [@login_required], as they are registered:
    the three pages, whose rules list no methods, and the six forms, whose
    rules list GET and POST. *)
Definition page_routes : list (App.request -> world -> Flask.answer * world) :=
  [ Routes.dashboard; Routes.unlock; Routes.ocr ].

Definition form_methods : list string := ["GET"; "POST"].

Definition form_routes (env : platform)
    : list (App.request -> world -> Flask.answer * world) :=
  map (Flask.route form_methods)
    [ Routes.convert_word env; Routes.convert_ppt env; Routes.convert_image env;
      Routes.convert_excel env; Routes.merge env; App.split env ].

Definition gated_routes (env : platform)
    : list (App.request -> world -> Flask.answer * world) :=
  page_routes ++ form_routes env.

(** What the gate answers, seen from the client. *)
Definition to_login : Flask.answer :=
  Flask.Dispatched (App.Responded (App.Redirect "/login")).

(** The office binary, run from [w1] to [w2], left the file at [path] as
    it was. *)
Definition untouched (path : string) (w1 w2 : world) : Prop :=
  fs w2 !! path = fs w1 !! path.

(** The token made of the [n]-th draw of an entropy source. *)
Definition token_at (rnd : nat -> N) (n : nat) : string :=
  Uuid.hex (Uuid.set_version4 (Z.of_N (rnd n) mod 2 ^ 128)).

(** Where a route stores an upload in [w], and the machine afterwards. *)
Definition upload_path (env : platform) (f : App.FileStorage) (w : world) : string :=
  Utils.os_path_join env (App.UPLOAD_DIR env)
    (fresh_token w +:+ snd (Utils.os_path_splitext env (App.filename f))).

Definition after_upload (env : platform) (f : App.FileStorage) (w : world) : world :=
  set_fs (<[upload_path env f w := App.stream f]> (fs w))
    (set_drawn (S (drawn w)) w).

(** The paths the merge route stores its uploads under, from draw [n] on. *)
Fixpoint stored_paths (env : platform) (files : list App.FileStorage)
    (rnd : nat -> N) (n : nat) : list string :=
  match files with
  | [] => []
  | f :: rest =>
      Utils.os_path_join env (App.UPLOAD_DIR env)
        (token_at rnd n +:+ snd (Utils.os_path_splitext env (App.filename f)))
      :: stored_paths env rest rnd (S n)
  end.

(** The files after each upload was saved under its path, in order. *)
Fixpoint save_all (paths : list string) (files : list App.FileStorage)
    (m : gmap string file) : gmap string file :=
  match paths, files with
  | p :: paths', f :: files' => save_all paths' files' (<[p := App.stream f]> m)
  | _, _ => m
  end.

(** The three routes that hand an upload to the office binary, each with
    the suffixes it accepts, the message it flashes and its template. *)
Record office_route : Type := {
  office_view : App.request -> M App.response;
  office_suffixes : list string;
  office_message : string;
  office_template : string
}.

Definition office_routes (env : platform) : list office_route :=
  [ {| office_view := Routes.convert_word env; office_suffixes := [".docx"];
       office_message := "Upload a valid .docx file!";
       office_template := "word_to_pdf.html" |};
    {| office_view := Routes.convert_ppt env; office_suffixes := [".ppt"; ".pptx"];
       office_message := "Upload a valid PPT or PPTX file!";
       office_template := "ppt_to_pdf.html" |};
    {| office_view := Routes.convert_excel env; office_suffixes := [".xls"; ".xlsx"];
       office_message := "Upload a valid XLS or XLSX file!";
       office_template := "excel_to_pdf.html" |} ].

(** The upload a route reads under the key "file" passes its suffix test. *)
Definition accepted (suffixes : list string) (req : App.request)
    (f : App.FileStorage) : Prop :=
  App.multidict_get (App.files req) "file" = Some f
  /\ App.filename f <> EmptyString
  /\ PyStr.endswith_any (PyStr.lower (App.filename f)) suffixes = true.

(** There is no such upload. *)
Definition rejected (suffixes : list string) (req : App.request) : Prop :=
  match App.multidict_get (App.files req) "file" with
  | None => True
  | Some f =>
      App.filename f = EmptyString
      \/ PyStr.endswith_any (PyStr.lower (App.filename f)) suffixes = false
  end.

(** The split route lacks its upload or its pages field. *)
Definition split_fields_missing (req : App.request) : Prop :=
  match App.multidict_get (App.files req) "file",
        App.multidict_get (App.form req) "pages" with
  | Some pdf, Some pages => App.filename pdf = EmptyString \/ pages = EmptyString
  | _, _ => True
  end.

(** More of the small machine. *)
Module Sample.

(** Page objects 20 to 29 stand for pages without a content stream. *)
Definition blank (obj : N) : bool := (20 <=? obj)%N && (obj <? 30)%N.

(** The demo machine with a document of two such pages, and one with a
    written page between two of them. *)
Definition sheets : world :=
  set_fs (<["in/blank.pdf" := PdfFile [PageObject 20; PageObject 21] ]>
          (<["in/mixed.pdf" :=
               PdfFile ([PageObject 20] ++ PageObject 1 :: [PageObject 21]) ]>
             Demo.disk)) Demo.world0.

(** The demo machine with a palette image that has an alpha channel. *)
Definition signs : world :=
  set_fs (<["in/sign.png" := ImageFile (Decoded "PA" 9)]> Demo.disk) Demo.world0.

Definition upload (name : string) (content : file) : App.FileStorage :=
  {| App.filename := name; App.stream := content |}.

(** A logged-in POST carrying uploads under a key. *)
Definition post (key : string) (uploads : list App.FileStorage) : App.request :=
  {| App.method := "POST";
     App.session := {["user_id" := 1]};
     App.files := map (fun f => (key, f)) uploads;
     App.form := [] |}.

(** A POST without a session. *)
Definition anonymous : App.request :=
  {| App.method := "POST"; App.session := ∅;
     App.files := [("file", upload "a.docx" (BlobFile []))];
     App.form := [("pages", "1")] |}.

(** An office binary that fails with an ASCII complaint. *)
Definition failing_office (cmd : list string) : M CompletedProcess :=
  ret {| returncode := 77; stdout := [];
         stderr := [Byte.x62; Byte.x61; Byte.x64] |}.

End Sample.

(* ===================================================================== *)
(** * Properties of the PDF assembler *)
(* ===================================================================== *)

Section Assembler.

Lemma getitem_in_range {A} (l : list A) (i : Z) :
  0 <= i < Py.len l ->
  exists x, l !! Z.to_nat i = Some x /\ Py.getitem l i = Ok x.
Proof.
  unfold Py.len. intros Hi.
  destruct (lookup_lt_is_Some_2 l (Z.to_nat i)) as [x Hx]; [lia|].
  exists x. split; [exact Hx|].
  unfold Py.getitem.
  destruct (Z.ltb_spec i 0) as [?|_]; [lia|].
  destruct (Z.ltb_spec i 0) as [?|_]; [lia|].
  now rewrite Hx.
Qed.

Lemma split_loop_in_range src pages writer :
  Forall (in_range src) pages ->
  exists picked,
    Utils.split_loop src pages writer = Ok (writer ++ picked)
    /\ Forall2 (fun p pg => src !! Z.to_nat (p - 1) = Some pg) pages picked.
Proof.
  intros Hall. revert writer.
  induction Hall as [|p rest Hp _ IH]; intros writer.
  - exists []. split; [now rewrite app_nil_r | constructor].
  - unfold in_range in Hp. cbn [Utils.split_loop].
    destruct (Z.ltb_spec (p - 1) 0) as [?|_]; [lia|].
    destruct (Z.leb_spec (Py.len src) (p - 1)) as [?|_]; [lia|].
    cbn [orb].
    destruct (getitem_in_range src (p - 1)) as (pg & Hpg & ->); [lia|].
    destruct (IH (Utils.add_page writer pg)) as (picked & -> & Hpicked).
    exists (pg :: picked). split.
    + unfold Utils.add_page. now rewrite <- app_assoc.
    + now constructor.
Qed.

Lemma split_loop_out_of_range src pages writer :
  Exists (fun p => ~ in_range src p) pages ->
  Utils.split_loop src pages writer = Raise (IndexError "Page index out of range").
Proof.
  intros Hex. revert writer.
  induction pages as [|p rest IH]; intros writer; [inversion Hex|].
  cbn [Utils.split_loop].
  destruct ((p - 1 <? 0) || (Py.len src <=? p - 1)) eqn:Hguard; [reflexivity|].
  apply orb_false_elim in Hguard as [H1 H2].
  apply Z.ltb_ge in H1. apply Z.leb_gt in H2.
  destruct (getitem_in_range src (p - 1)) as (pg & _ & ->); [lia|].
  apply IH. inversion Hex as [? ? Hbad|]; subst; [|assumption].
  exfalso. apply Hbad. unfold in_range. lia.
Qed.

(** C1. On a readable source, [split_pdf] with page numbers all in range
    writes a document with one page per list entry, the n-th being the
    source page the n-th entry names: order and duplicates are kept. *)
Theorem split_pdf_mirrors_page_list
    (pdf_path out_path : string) (pages : list Z) (src : list page) (w : world) :
  fs w !! pdf_path = Some (PdfFile src) ->
  Forall (in_range src) pages ->
  exists out,
    Utils.split_pdf pdf_path pages out_path w
      = (Ok tt, set_fs (<[out_path := PdfFile out]> (fs w)) w)
    /\ length out = length pages
    /\ forall n p, pages !! n = Some p ->
         is_Some (out !! n) /\ out !! n = src !! Z.to_nat (p - 1).
Proof.
  intros Hsrc Hall.
  destruct (split_loop_in_range src pages [] Hall) as (out & Hloop & Hout).
  exists out. split; [|split].
  - unfold Utils.split_pdf, bind, Utils.PdfReader, lift, write_file.
    rewrite Hsrc, Hloop. reflexivity.
  - symmetry. eapply Forall2_length, Hout.
  - intros n p Hn.
    destruct (Forall2_lookup_l _ _ _ _ _ Hout Hn) as (pg & Hpg & Hpick).
    rewrite Hpg, Hpick. eauto.
Qed.

Lemma split_pdf_stops_at_bad_page
    (pdf_path out_path : string) (pages : list Z) (src : list page) (w : world) :
  fs w !! pdf_path = Some (PdfFile src) ->
  Exists (fun p => ~ in_range src p) pages ->
  Utils.split_pdf pdf_path pages out_path w
    = (Raise (IndexError "Page index out of range"), w).
Proof.
  intros Hsrc Hex.
  unfold Utils.split_pdf, bind, Utils.PdfReader, lift.
  now rewrite Hsrc, split_loop_out_of_range.
Qed.

(** C3. One page number below 1 or above the page count is enough for
    [split_pdf] to raise the out-of-range error with the file system left
    as it was: nothing is written at the output path. *)
Theorem split_pdf_out_of_range_writes_nothing
    (pdf_path out_path : string) (pages : list Z) (src : list page) (w : world) :
  fs w !! pdf_path = Some (PdfFile src) ->
  Exists (fun p => p < 1 \/ Py.len src < p) pages ->
  Utils.split_pdf pdf_path pages out_path w
    = (Raise (IndexError "Page index out of range"), w).
Proof.
  intros Hsrc Hex.
  apply split_pdf_stops_at_bad_page with (src := src); [exact Hsrc|].
  eapply Exists_impl; [exact Hex|]. unfold in_range. intros p ?; simpl in *. lia.
Qed.

Lemma fold_add_page (pages writer : list page) :
  fold_left Utils.add_page pages writer = writer ++ pages.
Proof.
  revert writer. induction pages as [|pg pages IH]; intros writer; cbn.
  - now rewrite app_nil_r.
  - rewrite IH. unfold Utils.add_page. now rewrite <- app_assoc.
Qed.

Lemma merge_loop_readable file_paths docs writer w :
  Forall2 (fun fp d => fs w !! fp = Some (PdfFile d)) file_paths docs ->
  Utils.merge_loop file_paths writer w = (Ok (writer ++ concat docs), w).
Proof.
  intros Hdocs. revert writer.
  induction Hdocs as [|fp d file_paths docs Hfp _ IH]; intros writer; cbn.
  - unfold ret. now rewrite app_nil_r.
  - unfold bind, Utils.PdfReader. rewrite Hfp, fold_add_page, IH.
    now rewrite <- app_assoc.
Qed.

Lemma lookup_concat_offset (docs : list (list page)) i d j pg :
  docs !! i = Some d -> d !! j = Some pg ->
  concat docs !! (length (concat (take i docs)) + j)%nat = Some pg.
Proof.
  revert i. induction docs as [|d0 docs IH]; intros [|i] Hi Hj; try discriminate.
  - injection Hi as ->. cbn. now apply lookup_app_l_Some.
  - cbn in Hi |- *. rewrite length_app, <- Nat.add_assoc.
    rewrite lookup_app_r by lia.
    replace (length d0 + _ - length d0)%nat
      with (length (concat (take i docs)) + j)%nat by lia.
    now apply IH.
Qed.

(** C2. On readable inputs, [merge_pdfs] writes the concatenation of the
    documents in the order of the path list: as many pages as the page
    counts add up to, and page j of document i sits after all the pages
    of the documents before it. *)
Theorem merge_pdfs_concatenates
    (file_paths : list string) (docs : list (list page)) (out_path : string)
    (w : world) :
  Forall2 (fun fp d => fs w !! fp = Some (PdfFile d)) file_paths docs ->
  Utils.merge_pdfs file_paths out_path w
    = (Ok tt, set_fs (<[out_path := PdfFile (concat docs)]> (fs w)) w)
  /\ length (concat docs) = sum_list (length <$> docs)
  /\ forall i d j pg, docs !! i = Some d -> d !! j = Some pg ->
       concat docs !! (sum_list (length <$> take i docs) + j)%nat = Some pg.
Proof.
  intros Hdocs. split; [|split].
  - unfold Utils.merge_pdfs, bind, write_file.
    now rewrite (merge_loop_readable _ _ _ _ Hdocs).
  - apply length_concat.
  - intros i d j pg Hi Hj. rewrite <- length_concat.
    now apply lookup_concat_offset with (d := d).
Qed.

End Assembler.

(** The example of the specification: pages 3, 1, 2 of a five-page source. *)
Example split_pdf_three_one_two :
  Utils.split_pdf "in/a.pdf" [3; 1; 2] "out/s.pdf" Demo.world0
  = (Ok tt,
     set_fs (<["out/s.pdf" := PdfFile [PageObject 3; PageObject 1; PageObject 2] ]>
               Demo.disk) Demo.world0).
Proof. reflexivity. Qed.

Lemma split_pdf_mirrors_page_list_witness :
  exists out,
    Utils.split_pdf "in/a.pdf" [3; 1; 2; 3] "out/s.pdf" Demo.world0
      = (Ok tt, set_fs (<["out/s.pdf" := PdfFile out]> (fs Demo.world0)) Demo.world0)
    /\ length out = length [3; 1; 2; 3]
    /\ forall n p, [3; 1; 2; 3] !! n = Some p ->
         is_Some (out !! n) /\ out !! n = Demo.five_pages !! Z.to_nat (p - 1).
Proof.
  apply (split_pdf_mirrors_page_list "in/a.pdf" "out/s.pdf" [3; 1; 2; 3]
           Demo.five_pages Demo.world0).
  - reflexivity.
  - repeat constructor; vm_compute; discriminate.
Defined.

Lemma split_pdf_out_of_range_writes_nothing_witness :
  Utils.split_pdf "in/a.pdf" [2; 0; 6] "out/s.pdf" Demo.world0
  = (Raise (IndexError "Page index out of range"), Demo.world0).
Proof.
  apply (split_pdf_out_of_range_writes_nothing "in/a.pdf" "out/s.pdf" [2; 0; 6]
           Demo.five_pages Demo.world0).
  - reflexivity.
  - apply Exists_cons_tl, Exists_cons_hd. left. reflexivity.
Defined.

Lemma merge_pdfs_concatenates_witness :
  let docs := [Demo.five_pages; [PageObject 6; PageObject 7]; Demo.five_pages] in
  Utils.merge_pdfs ["in/a.pdf"; "in/b.pdf"; "in/a.pdf"] "out/m.pdf" Demo.world0
    = (Ok tt, set_fs (<["out/m.pdf" := PdfFile (concat docs)]> (fs Demo.world0))
                Demo.world0)
  /\ length (concat docs) = sum_list (length <$> docs)
  /\ forall i d j pg, docs !! i = Some d -> d !! j = Some pg ->
       concat docs !! (sum_list (length <$> take i docs) + j)%nat = Some pg.
Proof.
  apply (merge_pdfs_concatenates ["in/a.pdf"; "in/b.pdf"; "in/a.pdf"]
           [Demo.five_pages; [PageObject 6; PageObject 7]; Demo.five_pages]
           "out/m.pdf" Demo.world0).
  repeat constructor.
Defined.

(* ===================================================================== *)
(** * Facts about the string builtins *)
(* ===================================================================== *)

Section StringFacts.

Implicit Types (c a : ascii) (s t : string) (f : ascii -> bool).

Lemma contains_append c s t :
  Py.contains c (s +:+ t) = Py.contains c s || Py.contains c t.
Proof.
  induction s as [|a s IH]; simpl; [reflexivity|].
  destruct (Ascii.eqb a c); [reflexivity | exact IH].
Qed.

Lemma contains_In c s :
  Py.contains c s = true <-> In c (OsPath.chars s).
Proof.
  induction s as [|a s IH]; simpl.
  - split; [discriminate | tauto].
  - destruct (Ascii.eqb_spec a c) as [->|Hne]; [tauto|].
    rewrite IH. split; [tauto | intros [?|?]; [contradiction | assumption]].
Qed.

Lemma split_without c s :
  Py.contains c s = false -> Py.split c s = [s].
Proof.
  induction s as [|a s IH]; simpl; [reflexivity|].
  destruct (Ascii.eqb a c); [discriminate|].
  intros H. now rewrite (IH H).
Qed.

Lemma split_append c s t :
  Py.contains c s = false ->
  Py.split c (s +:+ String c t) = s :: Py.split c t.
Proof.
  induction s as [|a s IH]; simpl.
  - now rewrite Ascii.eqb_refl.
  - destruct (Ascii.eqb a c); [discriminate|].
    intros H. now rewrite (IH H).
Qed.

Lemma split_length c s :
  length (Py.split c s) = S (PagesText.count_char c s).
Proof.
  induction s as [|a s IH]; simpl; [reflexivity|].
  destruct (Ascii.eqb a c); simpl; [now rewrite IH|].
  destruct (Py.split c s); simpl in *; [discriminate | exact IH].
Qed.

Lemma count_char_contains c s :
  (1 <= PagesText.count_char c s)%nat -> Py.contains c s = true.
Proof.
  induction s as [|a s IH]; simpl; [lia|].
  destruct (Ascii.eqb a c); [reflexivity | exact IH].
Qed.

Lemma drop_while_keeps f s :
  (forall c, In c (OsPath.chars s) -> f c = false) -> Py.drop_while f s = s.
Proof.
  destruct s as [|a s]; simpl; [reflexivity|].
  intros H. now rewrite (H a) by now left.
Qed.

Lemma drop_while_end_keeps f s :
  (forall c, In c (OsPath.chars s) -> f c = false) -> Py.drop_while_end f s = s.
Proof.
  induction s as [|a s IH]; simpl; [reflexivity|].
  intros H. rewrite IH by (intros; apply H; now right).
  destruct s; [|reflexivity]. now rewrite (H a) by now left.
Qed.

Lemma drop_while_In f s c :
  In c (OsPath.chars s) -> f c = false -> In c (OsPath.chars (Py.drop_while f s)).
Proof.
  intros Hin Hc. induction s as [|a s IH]; simpl in *; [assumption|].
  destruct (f a) eqn:Ha; [|exact Hin].
  destruct Hin as [->|Hin]; [congruence | now apply IH].
Qed.

Lemma drop_while_end_In f s c :
  In c (OsPath.chars s) -> f c = false ->
  In c (OsPath.chars (Py.drop_while_end f s)).
Proof.
  intros Hin Hc. induction s as [|a s IH]; simpl in *; [assumption|].
  destruct Hin as [->|Hin].
  - destruct (Py.drop_while_end f s); [rewrite Hc|]; now left.
  - specialize (IH Hin).
    destruct (Py.drop_while_end f s); [contradiction | now right].
Qed.

Lemma int_raises s e : Py.int s = Raise e -> e = Py.invalid_literal.
Proof.
  unfold Py.int.
  destruct (Py.drop_while_end _ _) as [|a r].
  - simpl. now intros [= <-].
  - destruct (Ascii.eqb a "-"); [|destruct (Ascii.eqb a "+")];
      destruct (Py.int_digits _ 0 false); now intros [= <-].
Qed.

Lemma int_digits_foreign s c acc seen :
  In c (OsPath.chars s) -> Py.isdigit c = false -> Ascii.eqb c "_" = false ->
  Py.int_digits s acc seen = None.
Proof.
  intros Hin Hd Hu. revert acc seen.
  induction s as [|a s IH]; intros acc seen; simpl in *; [contradiction|].
  destruct Hin as [->|Hin].
  - now rewrite Hd, Hu.
  - destruct (Py.isdigit a); [now apply IH|].
    destruct (Ascii.eqb a "_" && seen); [now apply IH | reflexivity].
Qed.

Lemma foreign_inv c :
  PagesText.foreign c = true ->
  Py.isdigit c = false /\ Py.c_isspace c = false /\ Ascii.eqb c "_" = false
  /\ Ascii.eqb c "+" = false /\ Ascii.eqb c "-" = false.
Proof.
  unfold PagesText.foreign. rewrite andb_true_iff, negb_true_iff, !orb_false_iff.
  tauto.
Qed.

(** A character foreign to integers makes [int] reject the text. *)
Lemma int_foreign s c :
  In c (OsPath.chars s) -> PagesText.foreign c = true ->
  Py.int s = Raise Py.invalid_literal.
Proof.
  intros Hin (Hd & Hsp & Hu & Hplus & Hminus)%foreign_inv.
  apply (drop_while_In Py.c_isspace) in Hin; [|assumption].
  apply (drop_while_end_In Py.c_isspace) in Hin; [|assumption].
  unfold Py.int.
  destruct (Py.drop_while_end _ _) as [|a r]; [contradiction|].
  assert (Htail : a <> c -> In c (OsPath.chars r)).
  { intros Hne. destruct Hin as [?|?]; [contradiction | assumption]. }
  destruct (Ascii.eqb_spec a "-") as [->|_];
    [|destruct (Ascii.eqb_spec a "+") as [->|_]].
  - rewrite (int_digits_foreign r c); [reflexivity| |assumption..].
    apply Htail. intros <-. discriminate.
  - rewrite (int_digits_foreign r c); [reflexivity| |assumption..].
    apply Htail. intros <-. discriminate.
  - now rewrite (int_digits_foreign (String a r) c).
Qed.

End StringFacts.

(* ===================================================================== *)
(** * The page parser of the split route *)
(* ===================================================================== *)

Section PageParser.

Import PagesText.

Lemma digit_char_facts (d : digit) :
  Py.isdigit (digit_char d) = true
  /\ Py.digit_value (digit_char d) = digit_Z d
  /\ Py.c_isspace (digit_char d) = false
  /\ Py.unicode_isspace (digit_char d) = false
  /\ Ascii.eqb (digit_char d) "-" = false
  /\ Ascii.eqb (digit_char d) "+" = false
  /\ Ascii.eqb (digit_char d) "," = false.
Proof. destruct d; repeat split; reflexivity. Qed.

Lemma digits_text_chars (ds : list digit) (c : ascii) :
  In c (OsPath.chars (digits_text ds)) -> exists d, c = digit_char d.
Proof.
  induction ds as [|d ds IH]; simpl; [tauto|].
  intros [<-|H]; [now exists d | now apply IH].
Qed.

Lemma digits_text_without (ds : list digit) (c : ascii) :
  (forall d, Ascii.eqb (digit_char d) c = false) ->
  Py.contains c (digits_text ds) = false.
Proof.
  intros Hc. induction ds as [|d ds IH]; simpl; [reflexivity|].
  now rewrite Hc.
Qed.

Lemma int_digits_of_digits (ds : list digit) (d : digit) (acc : Z) (seen : bool) :
  Py.int_digits (digits_text (d :: ds)) acc seen
  = Some (fold_left (fun a x => 10 * a + digit_Z x) (d :: ds) acc).
Proof.
  revert d acc seen. induction ds as [|d' ds IH]; intros d acc seen.
  - simpl. destruct (digit_char_facts d) as (-> & -> & _). reflexivity.
  - change (digits_text (d :: d' :: ds))
      with (String (digit_char d) (digits_text (d' :: ds))).
    cbn [Py.int_digits fold_left].
    destruct (digit_char_facts d) as (-> & -> & _).
    apply IH.
Qed.

(** [int] reads a numeral as the number it denotes. *)
Lemma int_numeral (n : numeral) : Py.int (numeral_text n) = Ok (numeral_value n).
Proof.
  destruct n as [d ds]. unfold Py.int, numeral_text, numeral_value, digits_value.
  cbn [lead more].
  assert (Hsp : forall c, In c (OsPath.chars (digits_text (d :: ds))) ->
                         Py.c_isspace c = false).
  { intros c [d' ->]%digits_text_chars. apply digit_char_facts. }
  rewrite (drop_while_keeps _ _ Hsp), (drop_while_end_keeps _ _ Hsp).
  change (digits_text (d :: ds)) with (String (digit_char d) (digits_text ds)) at 1.
  destruct (digit_char_facts d) as (_ & _ & _ & _ & -> & -> & _).
  rewrite int_digits_of_digits. reflexivity.
Qed.

Lemma item_text_chars (i : item) (c : ascii) :
  In c (OsPath.chars (item_text i)) -> (exists d, c = digit_char d) \/ c = "-"%char.
Proof.
  destruct i as [n|a b]; cbn [item_text]; unfold numeral_text.
  - intros H. left. exact (digits_text_chars _ _ H).
  - intros H. apply contains_In in H.
    rewrite contains_append in H.
    apply orb_true_iff in H as [H|H]; apply contains_In in H.
    + left. exact (digits_text_chars _ _ H).
    + destruct H as [<-|H]; [now right|].
      left. exact (digits_text_chars _ _ H).
Qed.

Lemma strip_item (i : item) : Py.strip (item_text i) = item_text i.
Proof.
  assert (Hsp : forall c, In c (OsPath.chars (item_text i)) ->
                         Py.unicode_isspace c = false).
  { intros c [[d ->]| ->]%item_text_chars; [apply digit_char_facts | reflexivity]. }
  unfold Py.strip.
  now rewrite (drop_while_keeps _ _ Hsp), (drop_while_end_keeps _ _ Hsp).
Qed.

Lemma item_text_no_comma (i : item) : Py.contains "," (item_text i) = false.
Proof.
  destruct (Py.contains "," (item_text i)) eqn:H; [|reflexivity].
  apply contains_In, item_text_chars in H as [[d H]|H]; [|discriminate].
  pose proof (digit_char_facts d) as (_ & _ & _ & _ & _ & _ & Hd).
  rewrite <- H in Hd. discriminate.
Qed.

Lemma numeral_text_no_hyphen (n : numeral) :
  Py.contains "-" (numeral_text n) = false.
Proof. apply digits_text_without. intros d. apply digit_char_facts. Qed.

Lemma split_pages_text (first : item) (rest : list item) :
  Py.split "," (pages_text first rest) = item_text first :: map item_text rest.
Proof.
  unfold pages_text. revert first.
  induction rest as [|x rest IH]; intros first; simpl.
  - apply split_without, item_text_no_comma.
  - rewrite split_append by apply item_text_no_comma. now rewrite IH.
Qed.

Lemma range_count_up (a b : Z) :
  Py.range a (b + 1) = count_up a (Z.to_nat (b - a + 1)).
Proof.
  unfold Py.range, seqZ.
  replace (b + 1 - a) with (b - a + 1) by lia.
  generalize (Z.to_nat (b - a + 1)) as n. intros n.
  assert (H : forall k, (fun i : nat => Z.of_nat i + a) <$> seq k n
                        = count_up (a + Z.of_nat k) n).
  { induction n as [|n IH]; intros k; simpl; [reflexivity|].
    f_equal; [lia|]. rewrite IH. f_equal. lia. }
  rewrite H. f_equal. lia.
Qed.

(** One turn of the loop on a well-formed item. *)
Lemma page_list_loop_item (i : item) (parts : list string) (page_list : list Z) :
  App.page_list_loop (item_text i :: parts) page_list
  = App.page_list_loop parts (page_list ++ item_pages i).
Proof.
  cbn [App.page_list_loop]. rewrite strip_item.
  destruct i as [n|a b]; cbn [item_text item_pages].
  - rewrite numeral_text_no_hyphen, int_numeral. reflexivity.
  - rewrite contains_append, numeral_text_no_hyphen. simpl Py.contains.
    cbn [orb].
    rewrite split_append by apply numeral_text_no_hyphen.
    rewrite split_without by apply numeral_text_no_hyphen.
    unfold App.unpack_two_ints. rewrite !int_numeral.
    now rewrite range_count_up.
Qed.

Lemma page_list_loop_items (items : list item) (page_list : list Z) :
  App.page_list_loop (map item_text items) page_list
  = Ok (page_list ++ concat (map item_pages items)).
Proof.
  revert page_list. induction items as [|i items IH]; intros page_list.
  - simpl. now rewrite app_nil_r.
  - cbn [map]. rewrite page_list_loop_item, IH. cbn [concat].
    now rewrite app_assoc.
Qed.

Lemma parse_pages_text (first : item) (rest : list item) :
  App.parse_pages (pages_text first rest) = Ok (expansion first rest).
Proof.
  unfold App.parse_pages. rewrite split_pages_text.
  exact (page_list_loop_items (first :: rest) []).
Qed.

Lemma pages_text_not_empty (first : item) (rest : list item) :
  String.eqb (pages_text first rest) EmptyString = false.
Proof.
  unfold pages_text.
  assert (H : exists c s, item_text first = String c s).
  { destruct first as [[d ds]|[d ds] b]; simpl; eauto. }
  destruct H as (c & s & H).
  destruct rest; simpl; rewrite H; reflexivity.
Qed.

Lemma pages_text_neq_empty (first : item) (rest : list item) :
  pages_text first rest <> EmptyString.
Proof.
  intros H. pose proof (pages_text_not_empty first rest) as Hne.
  rewrite H in Hne. discriminate.
Qed.

Lemma descending_pages (i : item) : descending i -> item_pages i = [].
Proof.
  destruct i as [n|a b]; simpl; [tauto|]. intros H.
  replace (Z.to_nat _) with O by lia. reflexivity.
Qed.

Lemma descending_expansion (first : item) (rest : list item) :
  Forall descending (first :: rest) -> expansion first rest = [].
Proof.
  unfold expansion. intros H. inversion H as [|? ? H1 H2]; subst. clear H.
  rewrite (descending_pages _ H1). cbn [app].
  induction H2 as [|i rest Hi _ IH]; cbn [map concat]; [reflexivity|].
  rewrite (descending_pages _ Hi). exact IH.
Qed.

End PageParser.

Section MalformedPages.

Import PagesText.

Lemma unpack_raises (items : list string) (e : exn) :
  App.unpack_two_ints items = Raise e -> is_ValueError e = true.
Proof.
  unfold App.unpack_two_ints.
  destruct items as [|a [|b [|c r]]]; try now intros [= <-].
  - destruct (Py.int a) eqn:Ha; [now intros [= <-]|].
    apply int_raises in Ha as ->. now intros [= <-].
  - destruct (Py.int a) eqn:Ha; [|apply int_raises in Ha as ->; now intros [= <-]].
    destruct (Py.int b) eqn:Hb; [|apply int_raises in Hb as ->; now intros [= <-]].
    discriminate.
  - destruct (Py.int a) eqn:Ha; [|apply int_raises in Ha as ->; now intros [= <-]].
    destruct (Py.int b) eqn:Hb; [|apply int_raises in Hb as ->; now intros [= <-]].
    destruct (Py.int c) eqn:Hc; [|apply int_raises in Hc as ->]; now intros [= <-].
Qed.

(** Three items or more never unpack into two names. *)
Lemma unpack_three (a b c : string) (r : list string) :
  exists e, App.unpack_two_ints (a :: b :: c :: r) = Raise e.
Proof.
  unfold App.unpack_two_ints.
  destruct (Py.int a); [|eauto]. destruct (Py.int b); [|eauto].
  destruct (Py.int c); eauto.
Qed.

Lemma page_list_loop_raises (parts : list string) (page_list : list Z) (e : exn) :
  App.page_list_loop parts page_list = Raise e -> is_ValueError e = true.
Proof.
  revert page_list. induction parts as [|part parts IH]; intros page_list.
  - discriminate.
  - cbn [App.page_list_loop]. destruct (Py.contains "-" (Py.strip part)).
    + destruct (App.unpack_two_ints _) as [[start end_]|e'] eqn:Hu.
      * apply IH.
      * intros [= <-]. exact (unpack_raises _ _ Hu).
    + destruct (Py.int _) as [n|e'] eqn:Hi.
      * apply IH.
      * intros [= <-]. now apply int_raises in Hi as ->.
Qed.

Lemma page_list_loop_malformed_head part (rest : list string) (page_list : list Z) :
  malformed (Py.strip part) ->
  exists e, App.page_list_loop (part :: rest) page_list = Raise e.
Proof.
  intros Hbad. cbn [App.page_list_loop].
  destruct Hbad as [|t c Hno Hin Hc|t Hcount|r].
  - simpl. eauto.
  - rewrite Hno, (int_foreign t c Hin Hc). eauto.
  - rewrite count_char_contains by lia.
    pose proof (split_length "-" t) as Hlen.
    destruct (Py.split "-" t) as [|a [|b [|c r]]]; simpl in Hlen; try lia.
    destruct (unpack_three a b c r) as [e ->]. eauto.
  - simpl. eauto.
Qed.

Lemma page_list_loop_malformed (parts : list string) (page_list : list Z) :
  Exists (fun part => malformed (Py.strip part)) parts ->
  exists e, App.page_list_loop parts page_list = Raise e /\ is_ValueError e = true.
Proof.
  intros Hex.
  assert (H : exists e, App.page_list_loop parts page_list = Raise e).
  { revert page_list.
    induction Hex as [part rest Hbad|part rest _ IH]; intros page_list.
    - now apply page_list_loop_malformed_head.
    - cbn [App.page_list_loop]. destruct (Py.contains "-" (Py.strip part)).
      + destruct (App.unpack_two_ints _) as [[start end_]|e']; [apply IH | eauto].
      + destruct (Py.int _) as [n|e']; [apply IH | eauto]. }
  destruct H as [e He]. exists e. split; [exact He|].
  exact (page_list_loop_raises _ _ _ He).
Qed.

End MalformedPages.

(* ===================================================================== *)
(** * The split route *)
(* ===================================================================== *)

Section SplitRoute.

Variable env : platform.

Import PagesText.

Lemma random_filename_run (name : string) (w : world) :
  Utils.random_filename env name w
  = (Ok (fresh_token w +:+ snd (Utils.os_path_splitext env name)),
     set_drawn (S (drawn w)) w).
Proof. reflexivity. Qed.

(** Past its guards, the route is the straight-line code after them. *)
Lemma split_post_runs req pdf pages :
  split_post req pdf pages -> pages <> EmptyString ->
  App.split env req =
    (let* filename := Utils.random_filename env (App.filename pdf) in
     let path := Utils.os_path_join env (App.UPLOAD_DIR env) filename in
     let* _ := App.FileStorage_save pdf path in
     let* page_list := lift (App.parse_pages pages) in
     let* name := Utils.random_filename env "split.pdf" in
     let output_path := Utils.os_path_join env (App.CONVERTED_DIR env) name in
     let* _ := Utils.split_pdf path page_list output_path in
     App.send_file output_path).
Proof.
  intros (Hm & [uid Hu] & Hf & Hname & Hp) Hpages.
  unfold App.split, App.login_required, App.split_view.
  rewrite bool_decide_false by (rewrite Hu; discriminate).
  rewrite Hm, Hf, Hp. cbn [String.eqb Ascii.eqb].
  unfold App.FileStorage_bool.
  apply String.eqb_neq in Hname, Hpages. rewrite Hname, Hpages.
  reflexivity.
Qed.

(** The first statements of the route past its guards: the stored name is
    drawn and the upload saved under it. *)
Ltac store_upload :=
  unfold bind at 1; rewrite random_filename_run;
  unfold bind at 1; unfold App.FileStorage_save at 1, write_file at 1;
  unfold bind at 1.

(** C5. A pages string made of single numbers and inclusive ranges parses
    to the sequence in which every number stands for itself and every
    range [a-b] for [a, a+1, ..., b], in the order written; the route hands
    exactly that sequence to [split_pdf]. *)
Theorem split_route_expands_pages
    (req : App.request) (pdf : App.FileStorage) (first : item) (rest : list item) :
  split_post req pdf (pages_text first rest) ->
  App.parse_pages (pages_text first rest) = Ok (expansion first rest)
  /\ App.split env req =
       (let* filename := Utils.random_filename env (App.filename pdf) in
        let path := Utils.os_path_join env (App.UPLOAD_DIR env) filename in
        let* _ := App.FileStorage_save pdf path in
        let* name := Utils.random_filename env "split.pdf" in
        let output_path := Utils.os_path_join env (App.CONVERTED_DIR env) name in
        let* _ := Utils.split_pdf path (expansion first rest) output_path in
        App.send_file output_path).
Proof.
  intros Hpost. split; [apply parse_pages_text|].
  rewrite (split_post_runs req pdf _ Hpost) by apply pages_text_neq_empty.
  rewrite parse_pages_text. reflexivity.
Qed.

Lemma split_pdf_no_pages (path out_path : string) (src : list page) (w : world) :
  fs w !! path = Some (PdfFile src) ->
  Utils.split_pdf path [] out_path w
  = (Ok tt, set_fs (<[out_path := PdfFile []]> (fs w)) w).
Proof.
  intros Hsrc. unfold Utils.split_pdf, bind, Utils.PdfReader, lift, write_file.
  now rewrite Hsrc.
Qed.

(** C9. A range whose start exceeds its end adds nothing to the page
    list and raises nothing; a pages string made of such ranges only
    parses to the empty list, and the route then sends back a document
    without pages. *)
Theorem descending_ranges_give_empty_document
    (req : App.request) (pdf : App.FileStorage) (src : list page)
    (first : item) (rest : list item) (w : world) :
  split_post req pdf (pages_text first rest) ->
  App.stream pdf = PdfFile src ->
  Forall descending (first :: rest) ->
  (forall i parts page_list, descending i ->
     App.page_list_loop (item_text i :: parts) page_list
     = App.page_list_loop parts page_list)
  /\ App.parse_pages (pages_text first rest) = Ok []
  /\ (forall path out_path w0, fs w0 !! path = Some (PdfFile src) ->
        Utils.split_pdf path [] out_path w0
        = (Ok tt, set_fs (<[out_path := PdfFile []]> (fs w0)) w0))
  /\ exists output_path w',
       App.dispatch (App.split env) req w
         = (App.Responded (App.Attachment output_path (PdfFile [])), w')
       /\ fs w' !! output_path = Some (PdfFile []).
Proof.
  intros Hpost Hsrc Hdesc. split; [|split; [|split]].
  - intros i parts page_list Hi.
    now rewrite page_list_loop_item, (descending_pages i Hi), app_nil_r.
  - now rewrite parse_pages_text, descending_expansion.
  - intros path out_path w0. apply split_pdf_no_pages.
  - unfold App.dispatch.
    rewrite (split_post_runs req pdf _ Hpost) by apply pages_text_neq_empty.
    rewrite parse_pages_text, (descending_expansion _ _ Hdesc).
    store_upload. unfold lift at 1.
    unfold bind at 1. rewrite random_filename_run.
    unfold bind at 1.
    erewrite split_pdf_no_pages
      by (cbn [fs set_fs set_drawn]; rewrite lookup_insert_eq, Hsrc; reflexivity).
    unfold App.send_file. cbn [fs set_fs set_drawn].
    rewrite lookup_insert_eq.
    eexists _, _. split; [reflexivity|].
    cbn [fs set_fs]. apply lookup_insert_eq.
Qed.

(** C4, as the code has it. When the pages field parses and one of its
    numbers is outside the uploaded document, the [IndexError] of
    [split_pdf] leaves the view uncaught: the client gets a server error,
    no message is flashed, and nothing but the upload has been written. *)
Theorem split_route_out_of_range_is_server_error
    (req : App.request) (pdf : App.FileStorage) (pages : string)
    (src : list page) (page_list : list Z) (w : world) :
  split_post req pdf pages -> pages <> EmptyString ->
  App.stream pdf = PdfFile src ->
  App.parse_pages pages = Ok page_list ->
  Exists (fun p => p < 1 \/ Py.len src < p) page_list ->
  exists upload_path w',
    App.dispatch (App.split env) req w
      = (App.ServerError (IndexError "Page index out of range"), w')
    /\ flashes w' = flashes w
    /\ fs w' = <[upload_path := App.stream pdf]> (fs w).
Proof.
  intros Hpost Hpages Hsrc Hparse Hex.
  unfold App.dispatch. rewrite (split_post_runs req pdf pages Hpost Hpages).
  store_upload. rewrite Hparse. unfold lift at 1.
  unfold bind at 1. rewrite random_filename_run.
  unfold bind at 1.
  erewrite split_pdf_stops_at_bad_page;
    [ | cbn [fs set_fs set_drawn]; rewrite lookup_insert_eq, Hsrc; reflexivity
      | eapply Exists_impl; [exact Hex|]; unfold in_range; intros p ?; simpl in *; lia ].
  eexists _, _. split; [reflexivity|]. split; reflexivity.
Qed.

(** C10. A pages string with a malformed token (empty, foreign to
    integers, with two hyphens or more, or with a leading hyphen) makes the
    parse raise a [ValueError] that leaves the view uncaught: the upload
    has been stored, no output name was drawn, nothing was flashed. *)
Theorem split_route_malformed_pages
    (req : App.request) (pdf : App.FileStorage) (pages : string) (w : world) :
  split_post req pdf pages -> pages <> EmptyString ->
  Exists (fun part => malformed (Py.strip part)) (Py.split "," pages) ->
  exists e upload_path w',
    is_ValueError e = true
    /\ App.parse_pages pages = Raise e
    /\ App.dispatch (App.split env) req w = (App.ServerError e, w')
    /\ flashes w' = flashes w
    /\ drawn w' = S (drawn w)
    /\ fs w' = <[upload_path := App.stream pdf]> (fs w).
Proof.
  intros Hpost Hpages Hbad.
  destruct (page_list_loop_malformed _ [] Hbad) as (e & Hparse & He).
  fold (App.parse_pages pages) in Hparse.
  unfold App.dispatch. rewrite (split_post_runs req pdf pages Hpost Hpages).
  store_upload. rewrite Hparse. unfold lift at 1.
  eexists e, _, _. repeat split; try reflexivity; assumption.
Qed.

End SplitRoute.

(** ** The route on the demo machine *)

Lemma demo_split_post (name : string) (upload : file) (pages : string) :
  name <> EmptyString ->
  split_post (Demo.split_request name upload pages)
    {| App.filename := name; App.stream := upload |} pages.
Proof.
  intros Hname. repeat split; try reflexivity; [|exact Hname].
  exists 1. reflexivity.
Defined.

Lemma split_route_expands_pages_witness :
  let req := Demo.split_request "report.PDF" (PdfFile Demo.five_pages) "2-4,7" in
  let pdf := {| App.filename := "report.PDF"; App.stream := PdfFile Demo.five_pages |} in
  App.parse_pages "2-4,7" = Ok [2; 3; 4; 7]
  /\ App.split Demo.env req =
       (let* filename := Utils.random_filename Demo.env (App.filename pdf) in
        let path := Utils.os_path_join Demo.env (App.UPLOAD_DIR Demo.env) filename in
        let* _ := App.FileStorage_save pdf path in
        let* name := Utils.random_filename Demo.env "split.pdf" in
        let output_path := Utils.os_path_join Demo.env (App.CONVERTED_DIR Demo.env) name in
        let* _ := Utils.split_pdf path [2; 3; 4; 7] output_path in
        App.send_file output_path).
Proof.
  exact (split_route_expands_pages Demo.env _ _
           (PagesText.Span (PagesText.Numeral PagesText.D2 [])
                           (PagesText.Numeral PagesText.D4 []))
           [PagesText.Single (PagesText.Numeral PagesText.D7 [])]
           (demo_split_post "report.PDF" (PdfFile Demo.five_pages) "2-4,7"
              ltac:(discriminate))).
Defined.

(** What the client of the demo machine receives for "2-4,7". *)
Example split_route_two_to_four_and_seven :
  exists path w',
    App.dispatch (App.split Demo.env)
      (Demo.split_request "report.PDF"
         (PdfFile (Demo.five_pages ++ [PageObject 6; PageObject 7])) "2-4,7")
      Demo.world0
    = (App.Responded
         (App.Attachment path
            (PdfFile [PageObject 2; PageObject 3; PageObject 4; PageObject 7])), w').
Proof. eexists _, _. vm_compute. reflexivity. Qed.

Lemma descending_ranges_give_empty_document_witness :
  let req := Demo.split_request "a.pdf" (PdfFile Demo.five_pages) "5-3,10-02" in
  (forall i parts page_list, PagesText.descending i ->
     App.page_list_loop (PagesText.item_text i :: parts) page_list
     = App.page_list_loop parts page_list)
  /\ App.parse_pages "5-3,10-02" = Ok []
  /\ (forall path out_path w0, fs w0 !! path = Some (PdfFile Demo.five_pages) ->
        Utils.split_pdf path [] out_path w0
        = (Ok tt, set_fs (<[out_path := PdfFile []]> (fs w0)) w0))
  /\ exists output_path w',
       App.dispatch (App.split Demo.env) req Demo.world0
         = (App.Responded (App.Attachment output_path (PdfFile [])), w')
       /\ fs w' !! output_path = Some (PdfFile []).
Proof.
  apply (descending_ranges_give_empty_document Demo.env _
           {| App.filename := "a.pdf"; App.stream := PdfFile Demo.five_pages |}
           Demo.five_pages
           (PagesText.Span (PagesText.Numeral PagesText.D5 [])
                           (PagesText.Numeral PagesText.D3 []))
           [PagesText.Span (PagesText.Numeral PagesText.D1 [PagesText.D0])
                           (PagesText.Numeral PagesText.D0 [PagesText.D2])]
           Demo.world0).
  - apply (demo_split_post "a.pdf" (PdfFile Demo.five_pages) "5-3,10-02").
    discriminate.
  - reflexivity.
  - repeat constructor.
Defined.

Lemma split_route_out_of_range_is_server_error_witness :
  let upload := PdfFile [PageObject 1; PageObject 2] in
  exists upload_path w',
    App.dispatch (App.split Demo.env) (Demo.split_request "a.pdf" upload "2,9")
      Demo.world0
      = (App.ServerError (IndexError "Page index out of range"), w')
    /\ flashes w' = flashes Demo.world0
    /\ fs w' = <[upload_path := upload]> (fs Demo.world0).
Proof.
  apply (split_route_out_of_range_is_server_error Demo.env
           (Demo.split_request "a.pdf" (PdfFile [PageObject 1; PageObject 2]) "2,9")
           {| App.filename := "a.pdf";
              App.stream := PdfFile [PageObject 1; PageObject 2] |}
           "2,9" [PageObject 1; PageObject 2] [2; 9] Demo.world0).
  - apply demo_split_post. discriminate.
  - discriminate.
  - reflexivity.
  - reflexivity.
  - apply Exists_cons_tl, Exists_cons_hd. right. reflexivity.
Defined.

(** C4 as stated fails: page 9 of a two-page upload is answered by a server
    error, not by a redirect, and no message is flashed. *)
Lemma split_route_out_of_range_not_redirected :
  let req := Demo.split_request "a.pdf" (PdfFile [PageObject 1; PageObject 2]) "2,9" in
  let answer := App.dispatch (App.split Demo.env) req Demo.world0 in
  App.parse_pages "2,9" = Ok [2; 9]
  /\ fst answer = App.ServerError (IndexError "Page index out of range")
  /\ ~ (exists location, fst answer = App.Responded (App.Redirect location))
  /\ flashes (snd answer) = [].
Proof.
  cbv zeta.
  assert (H : fst (App.dispatch (App.split Demo.env)
                     (Demo.split_request "a.pdf"
                        (PdfFile [PageObject 1; PageObject 2]) "2,9") Demo.world0)
              = App.ServerError (IndexError "Page index out of range"))
    by (vm_compute; reflexivity).
  split; [reflexivity|]. split; [exact H|]. split.
  - rewrite H. intros [location Hl]. discriminate.
  - vm_compute. reflexivity.
Qed.

Lemma split_route_malformed_pages_witness :
  let upload := PdfFile Demo.five_pages in
  exists e upload_path w',
    is_ValueError e = true
    /\ App.parse_pages "1,,2" = Raise e
    /\ App.dispatch (App.split Demo.env) (Demo.split_request "a.pdf" upload "1,,2")
         Demo.world0 = (App.ServerError e, w')
    /\ flashes w' = flashes Demo.world0
    /\ drawn w' = S (drawn Demo.world0)
    /\ fs w' = <[upload_path := upload]> (fs Demo.world0).
Proof.
  apply (split_route_malformed_pages Demo.env
           (Demo.split_request "a.pdf" (PdfFile Demo.five_pages) "1,,2")
           {| App.filename := "a.pdf"; App.stream := PdfFile Demo.five_pages |}
           "1,,2" Demo.world0).
  - apply demo_split_post. discriminate.
  - discriminate.
  - apply Exists_cons_tl, Exists_cons_hd. apply PagesText.malformed_empty.
Defined.

(** The other kinds of malformed token, run through the parser. *)
Example parse_pages_rejects :
  App.parse_pages "1,abc" = Raise Py.invalid_literal
  /\ App.parse_pages "1,,2" = Raise Py.invalid_literal
  /\ App.parse_pages "-3" = Raise Py.invalid_literal
  /\ App.parse_pages "1-2-x" = Raise Py.invalid_literal
  /\ App.parse_pages "1-2-3"
     = Raise (ValueError "too many values to unpack (expected 2)")
  /\ App.parse_pages "2.5" = Raise Py.invalid_literal.
Proof. repeat split; reflexivity. Qed.

(* ===================================================================== *)
(** * [os.path.splitext] and the names of stored files *)
(* ===================================================================== *)

Section Splitext.

Import OsPath.

Lemma text_chars (s : string) : text (chars s) = s.
Proof. apply string_of_list_ascii_of_string. Qed.

Lemma chars_text (l : list ascii) : chars (text l) = l.
Proof. apply list_ascii_of_string_of_list_ascii. Qed.

Lemma chars_append (s t : string) : chars (s +:+ t) = chars s ++ chars t.
Proof. induction s as [|a s IH]; simpl; [reflexivity | now rewrite IH]. Qed.

Lemma text_app (l k : list ascii) : text (l ++ k) = text l +:+ text k.
Proof. induction l as [|a l IH]; simpl; [reflexivity | now rewrite IH]. Qed.

Lemma append_empty (s : string) : s +:+ EmptyString = s.
Proof.
  induction s as [|a s IH]; [reflexivity|].
  change (String a (s +:+ EmptyString) = String a s). now rewrite IH.
Qed.

Lemma rfind_from_bound c l i :
  rfind_from c l i = -1 \/ i <= rfind_from c l i < i + Z.of_nat (length l).
Proof.
  revert i. induction l as [|a l IH]; intros i; simpl; [now left|].
  destruct (IH (i + 1)) as [->|H].
  - simpl. destruct (Ascii.eqb a c); [right; lia | now left].
  - destruct (Z.leb_spec 0 (rfind_from c l (i + 1))); [right; lia|].
    destruct (Ascii.eqb a c); [right; lia | now left].
Qed.

Lemma rfind_from_hit c l i :
  0 <= i -> 0 <= rfind_from c l i ->
  l !! Z.to_nat (rfind_from c l i - i) = Some c.
Proof.
  revert i. induction l as [|a l IH]; intros i Hi; simpl; [lia|].
  destruct (Z.leb_spec 0 (rfind_from c l (i + 1))) as [Hk|Hk].
  - intros _. specialize (IH (i + 1) ltac:(lia) Hk).
    destruct (rfind_from_bound c l (i + 1)) as [?|?]; [lia|].
    replace (Z.to_nat (rfind_from c l (i + 1) - i))
      with (S (Z.to_nat (rfind_from c l (i + 1) - (i + 1)))) by lia.
    exact IH.
  - destruct (Ascii.eqb_spec a c) as [->|_]; [|lia].
    intros _. now replace (i - i) with 0 by lia.
Qed.

Lemma rfind_from_last c l i (j : nat) :
  0 <= i -> rfind_from c l i < i + Z.of_nat j -> l !! j <> Some c.
Proof.
  revert i j. induction l as [|a l IH]; intros i j Hi; simpl; [discriminate|].
  destruct (rfind_from_bound c l (i + 1)) as [Hk|Hk].
  - rewrite Hk. simpl. destruct (Ascii.eqb_spec a c) as [->|Hne]; intros H.
    + destruct j as [|j]; [lia|]. simpl. apply (IH (i + 1)); lia.
    + destruct j as [|j]; [simpl; congruence|]. simpl. apply (IH (i + 1)); lia.
  - destruct (Z.leb_spec 0 (rfind_from c l (i + 1))) as [_|?]; [|lia].
    intros H.
    destruct j as [|j]; [lia|]. simpl. apply (IH (i + 1)); lia.
Qed.

Lemma rfind_hit c s :
  0 <= rfind c s -> chars s !! Z.to_nat (rfind c s) = Some c.
Proof.
  intros H. unfold rfind in *.
  pose proof (rfind_from_hit c (chars s) 0 ltac:(lia) H) as Hhit.
  now rewrite Z.sub_0_r in Hhit.
Qed.

Lemma rfind_last c s (j : nat) :
  rfind c s < Z.of_nat j -> chars s !! j <> Some c.
Proof. intros H. apply (rfind_from_last c (chars s) 0); unfold rfind in H; lia. Qed.

Lemma rfind_lower c s : -1 <= rfind c s.
Proof. unfold rfind. destruct (rfind_from_bound c (chars s) 0); lia. Qed.

(** The last occurrence, when one knows where it is. *)
Lemma rfind_unique c s (k : nat) :
  chars s !! k = Some c ->
  (forall j, (k < j)%nat -> chars s !! j <> Some c) ->
  rfind c s = Z.of_nat k.
Proof.
  intros Hk Hafter.
  destruct (Z.lt_ge_cases (rfind c s) (Z.of_nat k)) as [Hlt|Hge].
  - now destruct (rfind_last c s k Hlt).
  - pose proof (rfind_hit c s ltac:(lia)) as Hhit.
    destruct (Z.eq_dec (rfind c s) (Z.of_nat k)) as [?|Hne]; [assumption|].
    destruct (Hafter (Z.to_nat (rfind c s)) ltac:(lia) Hhit).
Qed.

Lemma splitext_scan_finds l extsep (start : Z) (todo j : nat) c :
  0 <= start -> (Z.to_nat start <= j < Z.to_nat start + todo)%nat ->
  l !! j = Some c -> c <> extsep ->
  splitext_scan l extsep start todo = true.
Proof.
  revert start. induction todo as [|todo IH]; intros start Hs Hj Hc Hne; [lia|].
  simpl. destruct (l !! Z.to_nat start) as [a|] eqn:Ha; [|reflexivity].
  destruct (Ascii.eqb_spec a extsep) as [->|_]; [|reflexivity].
  apply IH; try assumption; [lia|].
  assert (j <> Z.to_nat start) by (intros ->; congruence). lia.
Qed.

Lemma sep_index_lower fl p :
  -1 <= match altsep fl with
        | Some a => Z.max (rfind (sep fl) p) (rfind a p)
        | None => rfind (sep fl) p
        end.
Proof.
  pose proof (rfind_lower (sep fl) p).
  destruct (altsep fl) as [a|]; [pose proof (rfind_lower a p)|]; lia.
Qed.

Lemma sep_index_last fl p (j : nat) c :
  match altsep fl with
  | Some a => Z.max (rfind (sep fl) p) (rfind a p)
  | None => rfind (sep fl) p
  end < Z.of_nat j ->
  chars p !! j = Some c -> is_sep fl c = false.
Proof.
  intros Hlt Hj. unfold is_sep.
  destruct (Ascii.eqb_spec c (sep fl)) as [->|_].
  - destruct (rfind_last (sep fl) p j); [|assumption].
    destruct (altsep fl); lia.
  - destruct (altsep fl) as [a|]; [|reflexivity]. simpl.
    destruct (Ascii.eqb_spec c a) as [->|_]; [|reflexivity].
    destruct (rfind_last a p j); [lia | assumption].
Qed.

(** The two halves make the path again; the second is empty, or a dot
    followed by characters that are neither dots nor separators. *)
Lemma splitext_shape fl p :
  p = fst (splitext fl p) +:+ snd (splitext fl p)
  /\ (snd (splitext fl p) = EmptyString
      \/ exists e, snd (splitext fl p) = String "." e
           /\ forall c, In c (chars e) -> c <> "."%char /\ is_sep fl c = false).
Proof.
  unfold splitext, genericpath_splitext.
  pose proof (sep_index_lower fl p) as Hlow.
  pose proof (sep_index_last fl p) as Hsep.
  set (sepIndex := match altsep fl with Some a => _ | None => _ end) in *.
  destruct (Z.ltb_spec sepIndex (rfind "." p)) as [Hlt|_];
    [|simpl; rewrite append_empty; auto].
  destruct (splitext_scan _ _ _ _); simpl; [|rewrite append_empty; auto].
  pose proof (rfind_hit "." p ltac:(lia)) as Hdot.
  unfold slice_to, slice_from.
  set (d := Z.to_nat (rfind "." p)) in *.
  split.
  - now rewrite <- text_app, take_drop, text_chars.
  - right. exists (text (drop (S d) (chars p))). split.
    + now rewrite (drop_S _ _ _ Hdot).
    + intros c Hin. rewrite chars_text in Hin.
      apply list_elem_of_In, list_elem_of_lookup in Hin as [j Hj].
      rewrite lookup_drop in Hj. split.
      * intros ->. revert Hj. apply rfind_last. lia.
      * apply (Hsep (S d + j)%nat); [lia | assumption].
Qed.

Lemma sep_not_dot fl : is_sep fl "." = false.
Proof. destruct fl; reflexivity. Qed.

(** The extension as the specification means it: what follows the last
    dot of a file name whose stem is not made of dots only. *)
Lemma splitext_extension fl (dir stem e : string) (c0 : ascii) :
  (forall c, In c (chars stem) -> is_sep fl c = false) ->
  In c0 (chars stem) -> c0 <> "."%char ->
  (forall c, In c (chars e) -> c <> "."%char /\ is_sep fl c = false) ->
  splitext fl (dir +:+ stem +:+ String "." e) = (dir +:+ stem, String "." e).
Proof.
  intros Hstem Hc0 Hnd He.
  set (p := dir +:+ stem +:+ String "." e).
  assert (Hp : chars p = (chars dir ++ chars stem) ++ "."%char :: chars e).
  { unfold p. rewrite !chars_append. simpl. now rewrite <- app_assoc. }
  set (d := length (chars dir ++ chars stem)).
  assert (Hdot : rfind "." p = Z.of_nat d).
  { apply rfind_unique.
    - rewrite Hp. now rewrite list_lookup_middle.
    - intros j Hj Habs. rewrite Hp, lookup_app_r in Habs by (fold d; lia).
      fold d in Habs. destruct (j - d)%nat as [|k] eqn:Hk; [lia|].
      simpl in Habs. apply list_elem_of_lookup_2, list_elem_of_In in Habs.
      now destruct (He _ Habs). }
  assert (Hlate : forall (j : nat) c, (length (chars dir) <= j)%nat ->
                    chars p !! j = Some c -> is_sep fl c = false).
  { intros j c Hj Hc. rewrite Hp, <- app_assoc, lookup_app_r in Hc by lia.
    apply list_elem_of_lookup_2, list_elem_of_In, in_app_or in Hc.
    destruct Hc as [Hc|[<-|Hc]];
      [now apply Hstem | apply sep_not_dot | now apply He]. }
  assert (Hrf : forall c, is_sep fl c = true ->
                  rfind c p < Z.of_nat (length (chars dir))).
  { intros c Hc. destruct (Z.lt_ge_cases (rfind c p) (Z.of_nat (length (chars dir))))
      as [?|Hge]; [assumption|].
    pose proof (rfind_hit c p ltac:(lia)) as Hhit.
    apply Hlate in Hhit; [congruence | lia]. }
  unfold splitext, genericpath_splitext. fold p.
  set (sepIndex := match altsep fl with Some a => _ | None => _ end).
  assert (Hsi : -1 <= sepIndex < Z.of_nat (length (chars dir))).
  { split; [apply sep_index_lower|]. unfold sepIndex.
    pose proof (Hrf (sep fl)) as H1.
    destruct fl; simpl in *.
    - apply H1. reflexivity.
    - pose proof (Hrf "/"%char eq_refl). specialize (H1 eq_refl). lia. }
  apply list_elem_of_In, list_elem_of_lookup in Hc0 as [i0 Hi0].
  pose proof (lookup_lt_Some _ _ _ Hi0) as Hi0lt.
  assert (Hd : d = (length (chars dir) + length (chars stem))%nat)
    by (unfold d; now rewrite length_app).
  rewrite Hdot.
  destruct (Z.ltb_spec sepIndex (Z.of_nat d)) as [_|?]; [|lia].
  rewrite (splitext_scan_finds (chars p) "." (sepIndex + 1) _
             (length (chars dir) + i0) c0); try assumption; try lia.
  - simpl. unfold slice_to, slice_from. rewrite Nat2Z.id, Hp.
    unfold d. rewrite take_app_length, drop_app_length.
    change (text ("."%char :: chars e)) with (String "." (text (chars e))).
    rewrite text_app, !text_chars. reflexivity.
  - rewrite Hp, <- app_assoc, lookup_app_r by lia.
    rewrite lookup_app_l by lia.
    now replace (length (chars dir) + i0 - length (chars dir))%nat with i0 by lia.
Qed.

End Splitext.

Section StoredNames.

Variable env : platform.

Import OsPath.

Lemma hex_char_in_alphabet (v : Z) : In (Uuid.hex_char (v mod 16)) hex_alphabet.
Proof.
  pose proof (Z.mod_pos_bound v 16 ltac:(lia)) as Hm.
  assert (H : v mod 16 = 0 \/ v mod 16 = 1 \/ v mod 16 = 2 \/ v mod 16 = 3
           \/ v mod 16 = 4 \/ v mod 16 = 5 \/ v mod 16 = 6 \/ v mod 16 = 7
           \/ v mod 16 = 8 \/ v mod 16 = 9 \/ v mod 16 = 10 \/ v mod 16 = 11
           \/ v mod 16 = 12 \/ v mod 16 = 13 \/ v mod 16 = 14 \/ v mod 16 = 15)
    by lia.
  repeat (destruct H as [->|H]; [vm_compute; tauto|]).
  rewrite H. vm_compute. tauto.
Qed.

Lemma hex_digits_shape (width : nat) (v : Z) (acc : string) :
  String.length (Uuid.hex_digits width v acc) = (width + String.length acc)%nat
  /\ ((forall c, In c (chars acc) -> In c hex_alphabet) ->
      forall c, In c (chars (Uuid.hex_digits width v acc)) -> In c hex_alphabet).
Proof.
  revert v acc. induction width as [|width IH]; intros v acc; simpl; [auto|].
  destruct (IH (v / 16) (String (Uuid.hex_char (v mod 16)) acc)) as [Hlen Hall].
  split; [rewrite Hlen; simpl; lia|].
  intros Hacc. apply Hall. intros c [<-|Hc];
    [apply hex_char_in_alphabet | now apply Hacc].
Qed.

(** A token is 32 characters long, all of them hexadecimal digits. *)
Lemma fresh_token_shape (w : world) :
  String.length (fresh_token w) = 32%nat
  /\ forall c, In c (chars (fresh_token w)) -> In c hex_alphabet.
Proof.
  unfold fresh_token, Uuid.hex.
  destruct (hex_digits_shape 32 (Uuid.set_version4
              (Z.of_N (urandom w (drawn w)) mod 2 ^ 128)) EmptyString) as [-> H].
  split; [reflexivity|]. apply H. intros c [].
Qed.

(** C6. [random_filename] answers the next token of the entropy source
    followed by the extension of the given name; the extension is the
    end of the name, letter for letter, and holds no separator; two names
    with the same extension get the same answer, so nothing else of the
    name is in it. *)
Theorem random_filename_token_and_extension (name : string) (w : world) :
  let ext := snd (Utils.os_path_splitext env name) in
  Utils.random_filename env name w
    = (Ok (fresh_token w +:+ ext), set_drawn (S (drawn w)) w)
  /\ (String.length (fresh_token w) = 32%nat
      /\ forall c, In c (chars (fresh_token w)) -> In c hex_alphabet)
  /\ (exists root, name = root +:+ ext)
  /\ (ext = EmptyString
      \/ exists e, ext = String "." e
           /\ forall c, In c (chars e) ->
                c <> "."%char /\ is_sep (kind (os_path env)) c = false)
  /\ (forall dir stem e c0,
        name = dir +:+ stem +:+ String "." e ->
        (forall c, In c (chars stem) -> is_sep (kind (os_path env)) c = false) ->
        In c0 (chars stem) -> c0 <> "."%char ->
        (forall c, In c (chars e) ->
           c <> "."%char /\ is_sep (kind (os_path env)) c = false) ->
        ext = String "." e)
  /\ (forall other, snd (Utils.os_path_splitext env other) = ext ->
        Utils.random_filename env other w = Utils.random_filename env name w).
Proof.
  intros ext. unfold ext, Utils.os_path_splitext.
  destruct (splitext_shape (kind (os_path env)) name) as [Hcat Hshape].
  split; [reflexivity|]. split; [apply fresh_token_shape|].
  split; [eexists; exact Hcat|]. split; [exact Hshape|]. split.
  - intros dir stem e c0 -> Hstem Hc0 Hnd He.
    now rewrite (splitext_extension _ dir stem e c0).
  - intros other Hother. rewrite !random_filename_run.
    unfold Utils.os_path_splitext. now rewrite Hother.
Qed.

Lemma convert_office_to_pdf_runs (input_path output_dir : string)
    (proc : CompletedProcess) (w w1 : world) :
  fs w !! output_dir = None ->
  subprocess_run env (Utils.soffice_cmd input_path output_dir)
    (set_dirs ({[output_dir]} ∪ dirs w) w) = (Ok proc, w1) ->
  Utils.convert_office_to_pdf env input_path output_dir w
  = if negb (returncode proc =? 0) then
      match bytes_decode (stderr proc) with
      | Ok err => (Raise (RuntimeError ("LibreOffice conversion failed: " +:+ err)), w1)
      | Raise e => (Raise e, w1)
      end
    else
      let base := fst (Utils.os_path_splitext env (Utils.os_path_basename env input_path)) in
      let output_file := Utils.os_path_join env output_dir (base +:+ ".pdf") in
      if bool_decide (is_Some (fs w1 !! output_file))
         || bool_decide (output_file ∈ dirs w1)
      then (Ok output_file, w1)
      else (Raise (RuntimeError "Converted PDF not found!"), w1).
Proof.
  intros Hdir Hrun.
  unfold Utils.convert_office_to_pdf, bind at 1, Utils.ensure_dir.
  rewrite Hdir. unfold bind at 1. rewrite Hrun.
  destruct (negb (returncode proc =? 0)).
  - unfold bind, lift, raise. now destruct (bytes_decode (stderr proc)).
  - unfold bind, os_path_exists, raise, ret. cbv zeta.
    now destruct (_ || _).
Qed.

(** The three outcomes of a conversion whose process ran and whose error
    output is UTF-8: failure reported with that output exactly when the
    exit status is not zero; otherwise the path of the converted file, or
    the report that it is missing. *)
Lemma convert_office_to_pdf_outcomes (input_path output_dir : string)
    (proc : CompletedProcess) (err : string) (w w1 : world) :
  fs w !! output_dir = None ->
  subprocess_run env (Utils.soffice_cmd input_path output_dir)
    (set_dirs ({[output_dir]} ∪ dirs w) w) = (Ok proc, w1) ->
  bytes_decode (stderr proc) = Ok err ->
  let failed := Raise (RuntimeError ("LibreOffice conversion failed: " +:+ err)) in
  let output_file :=
    Utils.os_path_join env output_dir
      (fst (Utils.os_path_splitext env (Utils.os_path_basename env input_path))
       +:+ ".pdf") in
  let answer := fst (Utils.convert_office_to_pdf env input_path output_dir w) in
  (answer = failed <-> returncode proc <> 0)
  /\ (returncode proc = 0 -> fs w1 !! output_file = None -> output_file ∉ dirs w1 ->
      answer = Raise (RuntimeError "Converted PDF not found!"))
  /\ (returncode proc = 0 -> is_Some (fs w1 !! output_file) ->
      answer = Ok output_file).
Proof.
  intros Hdir Hrun Herr. cbv zeta.
  rewrite (convert_office_to_pdf_runs _ _ proc w w1 Hdir Hrun), Herr. cbv zeta.
  set (output_file := Utils.os_path_join env output_dir _).
  destruct (Z.eqb_spec (returncode proc) 0) as [Hz|Hnz]; cbn [negb].
  - split; [|split].
    + split; [|contradiction].
      destruct (_ || _); cbn [fst]; discriminate.
    + intros _ Hnone Hnd. rewrite Hnone.
      rewrite (bool_decide_false (is_Some None)) by (intros [? ?]; discriminate).
      now rewrite bool_decide_false.
    + intros _ Hsome. now rewrite (bool_decide_true _ Hsome).
  - split; [|split]; try contradiction. split; [now intros _ | reflexivity].
Qed.

(** C8, as the code has it. Exactly the images of mode "RGBA" or "P" are
    converted to RGB before Pillow's PDF writer gets them: the document
    written holds the converted image, of mode "RGB". An image of any
    other mode, "LA" and "PA" among them, goes to the writer as it was
    opened: when the writer encodes that mode the document written holds
    the image itself, in its own mode, and when it does not the call
    raises the writer's [ValueError], which names the mode. *)
Theorem image_to_pdf_converts_rgba_and_p
    (input_path output_path : string) (img : image) (w : world) :
  fs w !! input_path = Some (ImageFile img) ->
  ((image_mode img = "RGBA" \/ image_mode img = "P") ->
     pdf_mode_supported env "RGB" = true ->
     Utils.image_to_pdf env input_path output_path w
     = (Ok tt,
        set_fs (<[output_path :=
                    PdfFile [ImagePage (Utils.Image_convert img "RGB") 100]]>
                  (fs w)) w)
     /\ image_mode (Utils.Image_convert img "RGB") = "RGB")
  /\ (image_mode img <> "RGBA" -> image_mode img <> "P" ->
      (pdf_mode_supported env (image_mode img) = true ->
         Utils.image_to_pdf env input_path output_path w
         = (Ok tt,
            set_fs (<[output_path := PdfFile [ImagePage img 100]]> (fs w)) w))
      /\ (pdf_mode_supported env (image_mode img) = false ->
            fst (Utils.image_to_pdf env input_path output_path w)
            = Raise (ValueError ("cannot save mode " +:+ image_mode img)))).
Proof.
  intros Hin. unfold Utils.image_to_pdf, bind, Utils.Image_open. rewrite Hin.
  split.
  - intros Hmode Hrgb.
    assert (Hguard : String.eqb (image_mode img) "RGBA"
                     || String.eqb (image_mode img) "P" = true)
      by (destruct Hmode as [-> | ->]; reflexivity).
    rewrite Hguard. unfold Utils.Image_save_pdf, Utils.Image_convert.
    cbn [image_mode]. rewrite Hrgb. split; reflexivity.
  - intros H1%String.eqb_neq H2%String.eqb_neq. rewrite H1, H2. cbn [orb].
    unfold Utils.Image_save_pdf. split; intros Hsup; rewrite Hsup; reflexivity.
Qed.

End StoredNames.

(** ** Stored names, conversions and images on the demo machine *)

Example random_filename_keeps_case :
  Utils.random_filename Demo.env "../../etc/Report.final.PDF" Demo.world0
  = (Ok "000000000000400080000000000003e8.PDF", set_drawn 1 Demo.world0).
Proof. vm_compute. reflexivity. Qed.

Example splitext_samples :
  OsPath.splitext OsPath.Posix "a.tar.gz" = ("a.tar", ".gz")
  /\ OsPath.splitext OsPath.Posix ".bashrc" = (".bashrc", "")
  /\ OsPath.splitext OsPath.Posix "a.b/c" = ("a.b/c", "")
  /\ OsPath.splitext OsPath.Posix "x/...a" = ("x/...a", "")
  /\ OsPath.splitext OsPath.Posix "foo." = ("foo", ".")
  /\ OsPath.splitext OsPath.Posix "a.b\c" = ("a", ".b\c")
  /\ OsPath.splitext OsPath.Nt "a.b\c" = ("a.b\c", "").
Proof. repeat split; reflexivity. Qed.

Lemma random_filename_token_and_extension_witness :
  Utils.random_filename Demo.env "../../etc/Report.final.PDF" Demo.world0
    = (Ok (fresh_token Demo.world0 +:+ ".PDF"), set_drawn 1 Demo.world0)
  /\ snd (Utils.os_path_splitext Demo.env "../../etc/Report.final.PDF") = ".PDF".
Proof.
  destruct (random_filename_token_and_extension Demo.env
              "../../etc/Report.final.PDF" Demo.world0)
    as (Hrun & _ & _ & _ & Hext & _).
  split; [exact Hrun|].
  apply (Hext "../../etc/" "Report.final" "PDF" "R"%char).
  - reflexivity.
  - intros c Hc. vm_compute in Hc.
    repeat (destruct Hc as [<-|Hc]; [reflexivity|]). destruct Hc.
  - left. reflexivity.
  - discriminate.
  - intros c Hc. vm_compute in Hc.
    repeat (destruct Hc as [<-|Hc]; [split; [discriminate | reflexivity]|]).
    destruct Hc.
Defined.

Example int_samples :
  Py.int " +5 " = Ok 5 /\ Py.int "1_0" = Ok 10 /\ Py.int "007" = Ok 7
  /\ Py.int "-12" = Ok (-12)
  /\ Py.int "" = Raise Py.invalid_literal
  /\ Py.int "1__0" = Raise Py.invalid_literal
  /\ Py.int "- 5" = Raise Py.invalid_literal
  /\ Py.int "0x10" = Raise Py.invalid_literal
  /\ Py.int (String (ascii_of_nat 28) "5") = Raise Py.invalid_literal
  /\ Py.strip (String (ascii_of_nat 28) "5") = "5".
Proof. repeat split; reflexivity. Qed.

Example split_samples :
  Py.split "," "2-4,7" = ["2-4"; "7"] /\ Py.split "," "" = [""]
  /\ Py.split "-" "-3" = [""; "3"] /\ Py.split "," "1,,2" = ["1"; ""; "2"]
  /\ Py.strip "  2-4 " = "2-4".
Proof. repeat split; reflexivity. Qed.

Example utf8_samples :
  utf8_valid [0xc3; 0xa4]%N = true /\ utf8_valid [0xe4]%N = false
  /\ utf8_valid [0xed; 0xa0; 0x80]%N = false
  /\ utf8_valid [0xf0; 0x9f; 0x98; 0x80]%N = true
  /\ utf8_valid [0xc0; 0x80]%N = false
  /\ utf8_valid [0xf4; 0x90; 0x80; 0x80]%N = false
  /\ utf8_valid [0xe0; 0x80; 0x80]%N = false
  /\ utf8_valid [0x41; 0xe2; 0x82; 0xac; 0x42]%N = true.
Proof. repeat split; reflexivity. Qed.

(** C7 fails on the code. The office process exits with status 1 and an
    error output in Latin-1; [convert_office_to_pdf] then raises the
    decoding error of [proc.stderr.decode()], not the conversion failure
    that carries the error output. *)
Theorem convert_office_to_pdf_undecodable_stderr :
  let env := Demo.machine Demo.latin1_office in
  let answer :=
    Utils.convert_office_to_pdf env "/srv/app/uploads/ab.docx" "/srv/app/converted"
      Demo.world0 in
  (exists proc, fst (subprocess_run env
                       (Utils.soffice_cmd "/srv/app/uploads/ab.docx" "/srv/app/converted")
                       Demo.world0) = Ok proc /\ returncode proc = 1)
  /\ fst answer = Raise UnicodeDecodeError
  /\ forall msg, fst answer <> Raise (RuntimeError msg).
Proof.
  cbv zeta. split; [eexists; split; reflexivity|].
  assert (H : fst (Utils.convert_office_to_pdf (Demo.machine Demo.latin1_office)
                     "/srv/app/uploads/ab.docx" "/srv/app/converted" Demo.world0)
              = Raise UnicodeDecodeError) by (vm_compute; reflexivity).
  split; [exact H|]. intros msg. rewrite H. discriminate.
Qed.

Lemma convert_office_to_pdf_outcomes_witness :
  let env := Demo.machine Demo.obedient_office in
  fst (Utils.convert_office_to_pdf env "/srv/app/uploads/ab.docx"
         "/srv/app/converted" Demo.world0)
  = Ok "/srv/app/converted/ab.pdf".
Proof.
  cbv zeta.
  pose (w1 := snd (Demo.obedient_office
                     (Utils.soffice_cmd "/srv/app/uploads/ab.docx" "/srv/app/converted")
                     (set_dirs ({["/srv/app/converted"]} ∪ dirs Demo.world0) Demo.world0))).
  pose proof (convert_office_to_pdf_outcomes (Demo.machine Demo.obedient_office)
                "/srv/app/uploads/ab.docx" "/srv/app/converted"
                {| returncode := 0; stdout := []; stderr := [] |} "" Demo.world0 w1
                eq_refl eq_refl eq_refl) as (_ & _ & Hok).
  apply Hok; [reflexivity|]. eexists. vm_compute. reflexivity.
Defined.

Lemma image_to_pdf_converts_rgba_and_p_witness :
  Utils.image_to_pdf Demo.env "in/logo.png" "out/logo.pdf" Demo.world0
  = (Ok tt,
     set_fs (<["out/logo.pdf" :=
                 PdfFile [ImagePage (Converted (Decoded "RGBA" 8) "RGB") 100] ]>
               (fs Demo.world0)) Demo.world0)
  /\ Utils.image_to_pdf Demo.env "in/grey.png" "out/grey.pdf" Demo.world0
     = (Ok tt,
        set_fs (<["out/grey.pdf" := PdfFile [ImagePage (Decoded "LA" 7) 100] ]>
                  (fs Demo.world0)) Demo.world0)
  /\ fst (Utils.image_to_pdf Demo.env "in/sign.png" "out/sign.pdf" Sample.signs)
     = Raise (ValueError "cannot save mode PA").
Proof.
  split; [|split].
  - apply (image_to_pdf_converts_rgba_and_p Demo.env "in/logo.png" "out/logo.pdf"
             (Decoded "RGBA" 8) Demo.world0); [reflexivity | | reflexivity].
    left. reflexivity.
  - apply (image_to_pdf_converts_rgba_and_p Demo.env "in/grey.png" "out/grey.pdf"
             (Decoded "LA" 7) Demo.world0); [reflexivity | discriminate..|reflexivity].
  - apply (image_to_pdf_converts_rgba_and_p Demo.env "in/sign.png" "out/sign.pdf"
             (Decoded "PA" 9) Sample.signs); [reflexivity | discriminate..|reflexivity].
Defined.

(** C8 as stated fails: a grey image with an alpha channel (mode "LA") is
    encoded as it was opened, not converted to RGB. *)
Lemma image_to_pdf_keeps_grey_alpha :
  let w' := snd (Utils.image_to_pdf Demo.env "in/grey.png" "out/grey.pdf" Demo.world0) in
  fs Demo.world0 !! "in/grey.png" = Some (ImageFile (Decoded "LA" 7))
  /\ Mode.has_alpha (image_mode (Decoded "LA" 7))
     || Mode.has_palette (image_mode (Decoded "LA" 7)) = true
  /\ encoded_image (fs w' !! "out/grey.pdf") = Some (Decoded "LA" 7)
  /\ encoded_image (fs w' !! "out/grey.pdf")
     <> Some (Utils.Image_convert (Decoded "LA" 7) "RGB").
Proof.
  cbv zeta. split; [reflexivity|]. split; [reflexivity|].
  assert (H : encoded_image
                (fs (snd (Utils.image_to_pdf Demo.env "in/grey.png" "out/grey.pdf"
                            Demo.world0)) !! "out/grey.pdf")
              = Some (Decoded "LA" 7)) by (vm_compute; reflexivity).
  split; [exact H|]. rewrite H. discriminate.
Qed.

(* ===================================================================== *)
(** * Further properties of utils.py *)
(* ===================================================================== *)

(** X1. [ensure_dir] raises on a path held by a regular file and then
    changes nothing; once it has succeeded the path exists, no file was
    touched, and calling it again succeeds and changes nothing more. *)
Theorem ensure_dir_settles (path : string) (w : world) :
  (forall f, fs w !! path = Some f ->
     Utils.ensure_dir path w = (Raise (FileExistsError path), w))
  /\ (forall w1, Utils.ensure_dir path w = (Ok tt, w1) ->
        fs w1 = fs w
        /\ os_path_exists path w1 = (Ok true, w1)
        /\ Utils.ensure_dir path w1 = (Ok tt, w1)).
Proof.
  unfold Utils.ensure_dir. split.
  - intros f Hf. now rewrite Hf.
  - intros w1. destruct (fs w !! path) eqn:Hnone; [discriminate|].
    intros [= <-]. split; [reflexivity|]. cbn [fs dirs set_dirs]. split.
    + unfold os_path_exists. cbn [fs dirs set_dirs].
      rewrite (bool_decide_true (path ∈ _))
        by (apply elem_of_union_l, elem_of_singleton; reflexivity).
      now rewrite orb_true_r.
    + rewrite Hnone. unfold set_dirs. cbn [fs dirs urandom drawn flashes].
      do 2 f_equal. now rewrite (assoc_L (∪)), union_idemp_L.
Qed.

Lemma ensure_dir_settles_witness :
  let w1 := set_dirs {["/srv/app/converted"]} Demo.world0 in
  fs w1 = fs Demo.world0
  /\ os_path_exists "/srv/app/converted" w1 = (Ok true, w1)
  /\ Utils.ensure_dir "/srv/app/converted" w1 = (Ok tt, w1).
Proof.
  apply (ensure_dir_settles "/srv/app/converted" Demo.world0). reflexivity.
Defined.

Section Images.

Variable env : platform.

(** X2. On an image file whose mode, after the conversion of "RGBA" and
    "P" images, Pillow's PDF writer accepts, [image_to_pdf] writes a
    document of exactly one page, that image at resolution 100; the image
    written is never of mode "RGBA" or "P", and no other file changes. *)
Theorem image_to_pdf_writes_one_page
    (input_path output_path : string) (img : image) (w : world) :
  let encoded :=
    if String.eqb (image_mode img) "RGBA" || String.eqb (image_mode img) "P"
    then Converted img "RGB" else img in
  fs w !! input_path = Some (ImageFile img) ->
  pdf_mode_supported env (image_mode encoded) = true ->
  Utils.image_to_pdf env input_path output_path w
    = (Ok tt, set_fs (<[output_path := PdfFile [ImagePage encoded 100]]> (fs w)) w)
  /\ image_mode encoded <> "RGBA" /\ image_mode encoded <> "P"
  /\ forall other, other <> output_path ->
       fs (snd (Utils.image_to_pdf env input_path output_path w)) !! other
       = fs w !! other.
Proof.
  intros encoded Hin Hok.
  assert (Hrun : Utils.image_to_pdf env input_path output_path w
                 = (Ok tt, set_fs (<[output_path := PdfFile [ImagePage encoded 100]]>
                                     (fs w)) w)).
  { unfold Utils.image_to_pdf, bind, Utils.Image_open. rewrite Hin.
    unfold Utils.Image_save_pdf, Utils.Image_convert. fold encoded.
    now rewrite Hok. }
  split; [exact Hrun|]. split; [|split].
  - unfold encoded. destruct (String.eqb (image_mode img) "RGBA") eqn:H1;
      destruct (String.eqb (image_mode img) "P") eqn:H2; cbn;
      try discriminate. now apply String.eqb_neq.
  - unfold encoded. destruct (String.eqb (image_mode img) "RGBA") eqn:H1;
      destruct (String.eqb (image_mode img) "P") eqn:H2; cbn;
      try discriminate. now apply String.eqb_neq.
  - intros other Hother. rewrite Hrun. cbn [snd fs set_fs].
    now apply lookup_insert_ne.
Qed.

(** X3. When the input is missing or is not an image, [image_to_pdf]
    raises from [Image.open] and writes nothing. *)
Theorem image_to_pdf_failure_writes_nothing
    (input_path output_path : string) (w : world) :
  (fs w !! input_path = None ->
     Utils.image_to_pdf env input_path output_path w
     = (Raise (FileNotFoundError input_path), w))
  /\ (forall f, fs w !! input_path = Some f -> (forall img, f <> ImageFile img) ->
        Utils.image_to_pdf env input_path output_path w
        = (Raise (UnidentifiedImageError input_path), w)).
Proof.
  unfold Utils.image_to_pdf, bind, Utils.Image_open. split.
  - intros Hnone. now rewrite Hnone.
  - intros f Hf Hnot. rewrite Hf. destruct f as [pages|img|data];
      [reflexivity | now destruct (Hnot img) | reflexivity].
Qed.

End Images.

Lemma image_to_pdf_writes_one_page_witness :
  Utils.image_to_pdf Demo.env "in/logo.png" "out/logo.pdf" Demo.world0
    = (Ok tt,
       set_fs (<["out/logo.pdf" :=
                   PdfFile [ImagePage (Converted (Decoded "RGBA" 8) "RGB") 100] ]>
                 (fs Demo.world0)) Demo.world0)
  /\ fs (snd (Utils.image_to_pdf Demo.env "in/logo.png" "out/logo.pdf" Demo.world0))
       !! "in/logo.png" = Some (ImageFile (Decoded "RGBA" 8)).
Proof.
  destruct (image_to_pdf_writes_one_page Demo.env "in/logo.png" "out/logo.pdf"
              (Decoded "RGBA" 8) Demo.world0 eq_refl eq_refl)
    as (Hrun & _ & _ & Hother).
  split; [exact Hrun|].
  rewrite (Hother "in/logo.png"); [reflexivity | discriminate].
Defined.

Lemma image_to_pdf_failure_writes_nothing_witness :
  Utils.image_to_pdf Demo.env "in/none.png" "out/x.pdf" Demo.world0
    = (Raise (FileNotFoundError "in/none.png"), Demo.world0)
  /\ Utils.image_to_pdf Demo.env "in/a.pdf" "out/x.pdf" Demo.world0
     = (Raise (UnidentifiedImageError "in/a.pdf"), Demo.world0).
Proof.
  split.
  - apply (image_to_pdf_failure_writes_nothing Demo.env "in/none.png" "out/x.pdf"
             Demo.world0). reflexivity.
  - apply (proj2 (image_to_pdf_failure_writes_nothing Demo.env "in/a.pdf"
                    "out/x.pdf" Demo.world0) (PdfFile Demo.five_pages));
      [reflexivity | discriminate].
Defined.

Section AssemblerMore.

(** X4. [merge_pdfs] stops at the first path it cannot read as a PDF, with
    that reader's error, and writes nothing: there is no partial output. *)
Theorem merge_pdfs_failure_writes_nothing
    (good : list string) (docs : list (list page)) (bad : string)
    (rest : list string) (out_path : string) (w : world) :
  Forall2 (fun fp d => fs w !! fp = Some (PdfFile d)) good docs ->
  (forall pages, fs w !! bad <> Some (PdfFile pages)) ->
  Utils.merge_pdfs (good ++ bad :: rest) out_path w
  = (Raise (match fs w !! bad with
            | None => FileNotFoundError bad
            | Some _ => PdfReadError bad
            end), w).
Proof.
  intros Hgood Hbad. unfold Utils.merge_pdfs, bind.
  assert (H : forall writer,
            Utils.merge_loop (good ++ bad :: rest) writer w
            = (Raise (match fs w !! bad with
                      | None => FileNotFoundError bad
                      | Some _ => PdfReadError bad
                      end), w)).
  { induction Hgood as [|fp d good docs Hfp _ IH]; intros writer.
    - cbn [app Utils.merge_loop]. unfold bind, Utils.PdfReader.
      destruct (fs w !! bad) as [[pages| |]|] eqn:Hb; try reflexivity.
      now destruct (Hbad pages).
    - cbn [app Utils.merge_loop]. unfold bind at 1, Utils.PdfReader at 1.
      rewrite Hfp. apply IH. }
  now rewrite H.
Qed.

Lemma split_loop_range (src : list page) (n k : nat) (writer : list page) :
  (k + n <= length src)%nat ->
  Utils.split_loop src (Py.range (Z.of_nat k + 1) (Z.of_nat (k + n) + 1)) writer
  = Ok (writer ++ take n (drop k src)).
Proof.
  revert k writer. induction n as [|n IH]; intros k writer Hlen.
  - unfold Py.range. rewrite Nat.add_0_r, Z.sub_diag. cbn.
    now rewrite app_nil_r.
  - unfold Py.range. rewrite seqZ_cons by lia.
    replace (Z.succ (Z.of_nat k + 1)) with (Z.of_nat (S k) + 1) by lia.
    replace (Z.pred (Z.of_nat (k + S n) + 1 - (Z.of_nat k + 1)))
      with (Z.of_nat (S k + n) + 1 - (Z.of_nat (S k) + 1)) by lia.
    cbn [Utils.split_loop].
    destruct (Z.ltb_spec (Z.of_nat k + 1 - 1) 0) as [?|_]; [lia|].
    destruct (Z.leb_spec (Py.len src) (Z.of_nat k + 1 - 1)) as [Hle|_];
      [unfold Py.len in Hle; lia|].
    cbn [orb].
    destruct (getitem_in_range src (Z.of_nat k + 1 - 1)) as (pg & Hpg & ->);
      [unfold Py.len; lia|].
    replace (Z.to_nat (Z.of_nat k + 1 - 1)) with k in Hpg by lia.
    fold (Py.range (Z.of_nat (S k) + 1) (Z.of_nat (S k + n) + 1)).
    rewrite IH by lia. unfold Utils.add_page.
    rewrite (drop_S _ _ _ Hpg). cbn [take]. now rewrite <- app_assoc.
Qed.

(** X5. Splitting a merged document at the page numbers a source document
    occupies in it gives that document back: the pages of document [i] are
    the pages [first .. first + len - 1] of the merge, [first] being one
    more than the page count of the documents before it. *)
Theorem split_of_merge_recovers
    (file_paths : list string) (docs : list (list page)) (out_path out2 : string)
    (i : nat) (d : list page) (w : world) :
  Forall2 (fun fp d => fs w !! fp = Some (PdfFile d)) file_paths docs ->
  docs !! i = Some d ->
  let w1 := snd (Utils.merge_pdfs file_paths out_path w) in
  let first := Z.of_nat (length (concat (take i docs))) + 1 in
  Utils.split_pdf out_path (Py.range first (first + Py.len d)) out2 w1
  = (Ok tt, set_fs (<[out2 := PdfFile d]> (fs w1)) w1).
Proof.
  intros Hdocs Hi w1 first.
  assert (Hw1 : w1 = set_fs (<[out_path := PdfFile (concat docs)]> (fs w)) w).
  { unfold w1, Utils.merge_pdfs, bind, write_file.
    now rewrite (merge_loop_readable _ _ _ _ Hdocs). }
  assert (Hcat : concat docs
                 = concat (take i docs) ++ d ++ concat (drop (S i) docs)).
  { rewrite <- (take_drop_middle docs i d Hi) at 1.
    now rewrite concat_app. }
  unfold Utils.split_pdf, bind, Utils.PdfReader, lift.
  replace (fs w1 !! out_path) with (Some (PdfFile (concat docs)))
    by (rewrite Hw1; cbn [fs set_fs]; now rewrite lookup_insert_eq).
  unfold first, Py.len.
  replace (Z.of_nat (length (concat (take i docs))) + 1 + Z.of_nat (length d))
    with (Z.of_nat (length (concat (take i docs)) + length d) + 1) by lia.
  rewrite split_loop_range.
  - cbn [app]. rewrite Hcat at 1. rewrite drop_app_length, take_app_length.
    reflexivity.
  - rewrite Hcat, !length_app. lia.
Qed.

End AssemblerMore.

Lemma merge_pdfs_failure_writes_nothing_witness :
  Utils.merge_pdfs (["in/a.pdf"] ++ "in/logo.png" :: ["in/b.pdf"]) "out/m.pdf"
    Demo.world0
  = (Raise (PdfReadError "in/logo.png"), Demo.world0).
Proof.
  apply (merge_pdfs_failure_writes_nothing ["in/a.pdf"] [Demo.five_pages]
           "in/logo.png" ["in/b.pdf"] "out/m.pdf" Demo.world0).
  - repeat constructor.
  - intros pages. discriminate.
Defined.

Lemma split_of_merge_recovers_witness :
  let w1 := snd (Utils.merge_pdfs ["in/a.pdf"; "in/b.pdf"] "out/m.pdf" Demo.world0) in
  Utils.split_pdf "out/m.pdf" [6; 7] "out/back.pdf" w1
  = (Ok tt, set_fs (<["out/back.pdf" := PdfFile [PageObject 6; PageObject 7] ]>
                      (fs w1)) w1).
Proof.
  apply (split_of_merge_recovers ["in/a.pdf"; "in/b.pdf"]
           [Demo.five_pages; [PageObject 6; PageObject 7]] "out/m.pdf"
           "out/back.pdf" 1 [PageObject 6; PageObject 7] Demo.world0).
  - repeat constructor.
  - reflexivity.
Defined.

Section Compression.

Variable compress : page -> result page.

Lemma compress_loop_all (src out writer : list page) :
  Forall2 (fun pg pg' => compress pg = Ok pg') src out ->
  UtilsRest.compress_loop compress src writer = Ok (writer ++ out).
Proof.
  intros H. revert writer.
  induction H as [|pg pg' src out Hpg _ IH]; intros writer; cbn.
  - now rewrite app_nil_r.
  - rewrite Hpg, IH. unfold Utils.add_page. now rewrite <- app_assoc.
Qed.

Lemma compress_loop_stops (done out : list page) (bad : page) (rest writer : list page)
    (e : exn) :
  Forall2 (fun pg pg' => compress pg = Ok pg') done out ->
  compress bad = Raise e ->
  UtilsRest.compress_loop compress (done ++ bad :: rest) writer = Raise e.
Proof.
  intros H Hbad. revert writer.
  induction H as [|pg pg' done out Hpg _ IH]; intros writer; cbn.
  - now rewrite Hbad.
  - now rewrite Hpg, IH.
Qed.

(** X6. If [compress_content_streams] succeeds on every page of the
    input, [compress_pdf] writes the pages as that call left them, in
    their order and in the same number, and changes no other file; its
    [quality] argument has no effect on the run. *)
Theorem compress_pdf_keeps_pages
    (input_path output_path quality : string) (src out : list page) (w : world) :
  fs w !! input_path = Some (PdfFile src) ->
  Forall2 (fun pg pg' => compress pg = Ok pg') src out ->
  UtilsRest.compress_pdf compress input_path output_path quality w
    = (Ok tt, set_fs (<[output_path := PdfFile out]> (fs w)) w)
  /\ length out = length src
  /\ forall other_quality,
       UtilsRest.compress_pdf compress input_path output_path other_quality w
       = UtilsRest.compress_pdf compress input_path output_path quality w.
Proof.
  intros Hin Hall. split; [|split].
  - unfold UtilsRest.compress_pdf, bind, Utils.PdfReader, lift, write_file.
    rewrite Hin. cbv zeta. now rewrite (compress_loop_all _ _ [] Hall).
  - symmetry. exact (Forall2_length _ _ _ Hall).
  - reflexivity.
Qed.

(** X7. When a page cannot be rewritten, [compress_pdf] raises that page's
    exception and writes nothing, whatever pages came before it. *)
Theorem compress_pdf_failure_writes_nothing
    (input_path output_path quality : string) (done out rest : list page)
    (bad : page) (e : exn) (w : world) :
  fs w !! input_path = Some (PdfFile (done ++ bad :: rest)) ->
  Forall2 (fun pg pg' => compress pg = Ok pg') done out ->
  compress bad = Raise e ->
  UtilsRest.compress_pdf compress input_path output_path quality w = (Raise e, w).
Proof.
  intros Hin Hdone Hbad.
  unfold UtilsRest.compress_pdf, bind, Utils.PdfReader, lift.
  rewrite Hin. cbv zeta.
  now rewrite (compress_loop_stops done out bad rest [] e Hdone Hbad).
Qed.

End Compression.

Section PageNumbers.

Lemma drop_while_sub f s c :
  In c (OsPath.chars (Py.drop_while f s)) -> In c (OsPath.chars s).
Proof.
  induction s as [|a s IH]; simpl; [tauto|].
  destruct (f a); [intros H; right; now apply IH | tauto].
Qed.

Lemma drop_while_end_sub f s c :
  In c (OsPath.chars (Py.drop_while_end f s)) -> In c (OsPath.chars s).
Proof.
  induction s as [|a s IH]; simpl; [tauto|].
  destruct (Py.drop_while_end f s) as [|b r] eqn:Hd.
  - destruct (f a); simpl; tauto.
  - simpl. intros [?|H]; [now left | right; now apply IH].
Qed.

Lemma int_digits_nonneg s acc seen n :
  0 <= acc -> Py.int_digits s acc seen = Some n -> 0 <= n.
Proof.
  revert acc seen. induction s as [|a s IH]; intros acc seen Hacc; simpl.
  - destruct seen; [now intros [= <-] | discriminate].
  - destruct (Py.isdigit a) eqn:Hd.
    + apply IH. unfold Py.isdigit in Hd. unfold Py.digit_value.
      apply andb_true_iff in Hd as [Hlo _]. apply N.leb_le in Hlo. lia.
    + destruct (Ascii.eqb a "_" && seen); [now apply IH | discriminate].
Qed.

(** Without a hyphen in the text, [int] cannot answer a negative number. *)
Lemma int_nonneg s n :
  Py.contains "-" s = false -> Py.int s = Ok n -> 0 <= n.
Proof.
  intros Hno. unfold Py.int.
  destruct (Py.drop_while_end _ _) as [|a r] eqn:Ht.
  - simpl. discriminate.
  - destruct (Ascii.eqb_spec a "-") as [->|_].
    + exfalso. assert (Hin : In "-"%char (OsPath.chars s)).
      { apply (drop_while_sub Py.c_isspace), (drop_while_end_sub Py.c_isspace).
        rewrite Ht. now left. }
      apply contains_In in Hin. congruence.
    + destruct (Ascii.eqb a "+");
        destruct (Py.int_digits _ 0 false) as [m|] eqn:Hm; try discriminate;
        intros [= <-]; exact (int_digits_nonneg _ 0 false m ltac:(lia) Hm).
Qed.

Lemma split_pieces_without c s piece :
  In piece (Py.split c s) -> Py.contains c piece = false.
Proof.
  revert piece. induction s as [|a s IH]; intros piece; simpl.
  - intros [<-|[]]. reflexivity.
  - destruct (Ascii.eqb a c) eqn:Hac.
    + intros [<-|H]; [reflexivity | now apply IH].
    + destruct (Py.split c s) as [|h t] eqn:Hs.
      * intros [<-|[]]. simpl. now rewrite Hac.
      * intros [<-|H]; [|apply IH; now right].
        simpl. rewrite Hac. apply IH. now left.
Qed.

Lemma unpack_nonneg (items : list string) a b :
  (forall piece, In piece items -> Py.contains "-" piece = false) ->
  App.unpack_two_ints items = Ok (a, b) -> 0 <= a /\ 0 <= b.
Proof.
  intros Hno. unfold App.unpack_two_ints.
  destruct items as [|x [|y [|z r]]]; try discriminate.
  - destruct (Py.int x); discriminate.
  - destruct (Py.int x) as [n|] eqn:Hx; [|discriminate].
    destruct (Py.int y) as [m|] eqn:Hy; [|discriminate].
    intros [= <- <-]. split.
    + apply (int_nonneg x); [apply Hno; now left | assumption].
    + apply (int_nonneg y); [apply Hno; right; now left | assumption].
  - destruct (Py.int x); [|discriminate]. destruct (Py.int y); [|discriminate].
    destruct (Py.int z); discriminate.
Qed.

Lemma page_list_loop_nonneg (parts : list string) (page_list result : list Z) :
  Forall (fun p => 0 <= p) page_list ->
  App.page_list_loop parts page_list = Ok result ->
  Forall (fun p => 0 <= p) result.
Proof.
  revert page_list. induction parts as [|part parts IH]; intros page_list Hacc.
  - simpl. now intros [= <-].
  - cbn [App.page_list_loop].
    destruct (Py.contains "-" (Py.strip part)) eqn:Hc.
    + destruct (App.unpack_two_ints _) as [[a b]|] eqn:Hu; [|discriminate].
      apply unpack_nonneg in Hu as [Ha _]; [|intros piece; apply split_pieces_without].
      apply IH. apply Forall_app. split; [assumption|].
      apply Forall_forall. intros p Hp. unfold Py.range in Hp.
      apply elem_of_seqZ in Hp. lia.
    + destruct (Py.int _) as [n|] eqn:Hn; [|discriminate].
      apply IH. apply Forall_app. split; [assumption|].
      constructor; [|constructor]. exact (int_nonneg _ _ Hc Hn).
Qed.

(** X8. Whatever pages string the parse of the split route accepts, no
    page number in its result is negative: a hyphen always separates the
    two ends of a range, so a minus sign cannot be written. *)
Theorem parse_pages_never_negative (pages : string) (page_list : list Z) :
  App.parse_pages pages = Ok page_list ->
  Forall (fun p => 0 <= p) page_list.
Proof.
  unfold App.parse_pages. apply page_list_loop_nonneg. constructor.
Qed.

End PageNumbers.

Lemma parse_pages_never_negative_witness :
  App.parse_pages " 3 , +1-2, 0 " = Ok [3; 1; 2; 0]
  /\ Forall (fun p => 0 <= p) [3; 1; 2; 0].
Proof.
  split; [reflexivity|].
  apply (parse_pages_never_negative " 3 , +1-2, 0 "). reflexivity.
Defined.

Section StoredNamesMore.

Variable env : platform.

Import OsPath.

Lemma hex_char_plain fl c :
  In c hex_alphabet -> is_sep fl c = false /\ c <> "."%char /\ c <> "/"%char.
Proof.
  unfold hex_alphabet. simpl. intros H.
  repeat (destruct H as [<-|H];
          [destruct fl; repeat split; (reflexivity || discriminate)|]).
  destruct H.
Qed.

Lemma length_append (s t : string) :
  String.length (s +:+ t) = (String.length s + String.length t)%nat.
Proof.
  induction s as [|a s IH]; [reflexivity|].
  change (S (String.length (s +:+ t)) = S (String.length s + String.length t)).
  now rewrite IH.
Qed.

Lemma rfind_absent c s :
  (forall a, In a (chars s) -> a <> c) -> rfind c s = -1.
Proof.
  intros Hno. pose proof (rfind_lower c s) as Hlow.
  destruct (Z.lt_ge_cases (rfind c s) 0) as [?|Hge]; [lia|].
  pose proof (rfind_hit c s Hge) as Hhit.
  apply list_elem_of_lookup_2, list_elem_of_In in Hhit.
  now destruct (Hno c Hhit).
Qed.

(** A path without a dot has no extension. *)
Lemma splitext_no_dot fl p :
  (forall c, In c (chars p) -> c <> "."%char) -> splitext fl p = (p, EmptyString).
Proof.
  intros Hno. unfold splitext, genericpath_splitext.
  rewrite (rfind_absent "." p Hno).
  pose proof (sep_index_lower fl p) as Hlow.
  destruct (Z.ltb_spec (match altsep fl with
                        | Some a => Z.max (rfind (sep fl) p) (rfind a p)
                        | None => rfind (sep fl) p
                        end) (-1)) as [?|_]; [lia | reflexivity].
Qed.

Lemma stored_name_no_sep (name : string) (w : world) (c : ascii) :
  In c (chars (fresh_token w +:+ snd (Utils.os_path_splitext env name))) ->
  is_sep (kind (os_path env)) c = false.
Proof.
  unfold Utils.os_path_splitext.
  destruct (fresh_token_shape w) as [_ Hhex].
  destruct (splitext_shape (kind (os_path env)) name) as [_ Hshape].
  intros Hc. rewrite chars_append in Hc. apply in_app_or in Hc as [Hc|Hc].
  - now apply hex_char_plain, Hhex.
  - destruct Hshape as [He|(e & He & Hall)]; rewrite He in Hc; [destruct Hc|].
    destruct Hc as [<-|Hc]; [apply sep_not_dot | now apply Hall].
Qed.

Lemma stored_name_splitext (name : string) (w : world) :
  Utils.os_path_splitext env
    (fresh_token w +:+ snd (Utils.os_path_splitext env name))
  = (fresh_token w, snd (Utils.os_path_splitext env name)).
Proof.
  unfold Utils.os_path_splitext.
  destruct (fresh_token_shape w) as [Hlen Hhex].
  destruct (splitext_shape (kind (os_path env)) name) as [_ Hshape].
  set (fl := kind (os_path env)) in *.
  destruct Hshape as [->|(e & -> & Hall)].
  - rewrite append_empty. apply splitext_no_dot.
    intros c Hc. now apply (hex_char_plain fl), Hhex.
  - destruct (fresh_token w) as [|c0 t] eqn:Htok; [discriminate|].
    change (String c0 t +:+ String "." e)
      with (EmptyString +:+ String c0 t +:+ String "." e).
    apply (splitext_extension fl EmptyString (String c0 t) e c0).
    + intros c Hc. now apply hex_char_plain, Hhex.
    + now left.
    + apply (hex_char_plain fl), Hhex. now left.
    + exact Hall.
Qed.

(** X9. The name [random_filename] answers holds no path separator,
    whatever the client's name was; its own extension is the extension it
    was given and its stem is the token, so a second [splitext] takes it
    apart again; it is 32 characters longer than the extension. *)
Theorem stored_name_is_plain (name : string) (w : world) :
  let ext := snd (Utils.os_path_splitext env name) in
  let stored := fresh_token w +:+ ext in
  Utils.random_filename env name w = (Ok stored, set_drawn (S (drawn w)) w)
  /\ (forall c, In c (chars stored) -> is_sep (kind (os_path env)) c = false)
  /\ Utils.os_path_splitext env stored = (fresh_token w, ext)
  /\ String.length stored = (32 + String.length ext)%nat.
Proof.
  intros ext stored. unfold stored, ext.
  split; [reflexivity|]. split; [apply stored_name_no_sep|].
  split; [apply stored_name_splitext|].
  destruct (fresh_token_shape w) as [Hlen _].
  now rewrite length_append, Hlen.
Qed.

Lemma posix_basename_after (pre n : string) :
  pre = EmptyString \/ last (chars pre) = Some "/"%char ->
  (forall c, In c (chars n) -> c <> "/"%char) ->
  posix_basename (pre +:+ n) = n.
Proof.
  intros Hpre Hn. unfold posix_basename, slice_from.
  destruct Hpre as [->|Hlast].
  - change (EmptyString +:+ n) with n. rewrite (rfind_absent "/" n Hn).
    cbn. apply text_chars.
  - apply last_Some in Hlast as [q Hq].
    assert (Hp : chars (pre +:+ n) = q ++ "/"%char :: chars n).
    { rewrite chars_append, Hq. now rewrite <- app_assoc. }
    rewrite (rfind_unique "/" (pre +:+ n) (length q)).
    + replace (Z.to_nat (Z.of_nat (length q) + 1)) with (S (length q)) by lia.
      rewrite Hp, cons_middle, app_assoc.
      rewrite drop_app_length' by (rewrite length_app; simpl; lia).
      apply text_chars.
    + rewrite Hp. now rewrite list_lookup_middle.
    + intros j Hj Habs. rewrite Hp in Habs.
      rewrite lookup_app_r in Habs by lia.
      destruct (j - length q)%nat as [|k] eqn:Hk; [lia|]. simpl in Habs.
      apply list_elem_of_lookup_2, list_elem_of_In in Habs. now destruct (Hn _ Habs).
Qed.

(** In a directory, [posixpath] finds a plain name again. *)
Lemma posix_basename_join (dir n : string) :
  (forall c, In c (chars n) -> c <> "/"%char) ->
  posix_basename (posix_join dir n) = n.
Proof.
  intros Hn. unfold posix_join.
  assert (Hstart : startswith "/" n = false).
  { destruct n as [|a n]; [reflexivity|]. simpl.
    destruct (Ascii.eqb_spec a "/") as [->|_]; [|reflexivity].
    now destruct (Hn "/"%char (or_introl eq_refl)). }
  rewrite Hstart.
  destruct (String.eqb_spec dir EmptyString) as [->|_]; cbn [orb].
  - now apply posix_basename_after; [left|].
  - destruct (endswith "/" dir) eqn:Hend.
    + apply posix_basename_after; [right | assumption].
      unfold endswith in Hend. destruct (last (chars dir)) as [a|]; [|discriminate].
      now apply Ascii.eqb_eq in Hend as ->.
    + change (dir +:+ "/" +:+ n) with (dir +:+ (String "/" EmptyString +:+ n)).
      replace (dir +:+ (String "/" EmptyString +:+ n))
        with ((dir +:+ String "/" EmptyString) +:+ n).
      * apply posix_basename_after; [right | assumption].
        rewrite chars_append. simpl. now rewrite last_snoc.
      * rewrite <- (text_chars ((dir +:+ String "/" EmptyString) +:+ n)).
        rewrite <- (text_chars (dir +:+ (String "/" EmptyString +:+ n))).
        f_equal. rewrite !chars_append. now rewrite <- app_assoc.
Qed.

End StoredNamesMore.

Section AllowedFiles.

Variable env : platform.

Import OsPath.

Lemma lower_char_facts fl c :
  Ascii.eqb (PyStr.lower_char c) "." = Ascii.eqb c "."
  /\ is_sep fl (PyStr.lower_char c) = is_sep fl c
  /\ PyStr.lower_char (PyStr.lower_char c) = PyStr.lower_char c.
Proof. destruct c as [[] [] [] [] [] [] [] []]; destruct fl; repeat split. Qed.

Lemma lower_chars s c :
  In c (chars (PyStr.lower s)) -> exists c', In c' (chars s) /\ c = PyStr.lower_char c'.
Proof.
  induction s as [|a s IH]; simpl; [tauto|].
  intros [<-|H]; [eauto|]. destruct (IH H) as (c' & Hc' & ->). eauto.
Qed.

Lemma lower_idempotent s : PyStr.lower (PyStr.lower s) = PyStr.lower s.
Proof.
  induction s as [|a s IH]; simpl; [reflexivity|].
  rewrite IH. f_equal. apply (lower_char_facts Posix).
Qed.

(** A name that is a dot followed by plain text is all stem. *)
Lemma splitext_hidden fl e :
  (forall c, In c (chars e) -> c <> "."%char /\ is_sep fl c = false) ->
  splitext fl (String "." e) = (String "." e, EmptyString).
Proof.
  intros He. unfold splitext, genericpath_splitext.
  assert (Hdot : rfind "." (String "." e) = 0).
  { apply (rfind_unique "." (String "." e) 0); [reflexivity|].
    intros [|j] Hj Habs; [lia|]. simpl in Habs.
    apply list_elem_of_lookup_2, list_elem_of_In in Habs. now destruct (He _ Habs). }
  assert (Hsep : forall c, is_sep fl c = true -> rfind c (String "." e) = -1).
  { intros c Hc. apply rfind_absent. intros a Ha Hac. subst a.
    destruct Ha as [<-|Ha].
    - rewrite sep_not_dot in Hc. discriminate.
    - destruct (He _ Ha). congruence. }
  rewrite Hdot.
  replace (match altsep fl with
           | Some a => Z.max (rfind (sep fl) (String "." e)) (rfind a (String "." e))
           | None => rfind (sep fl) (String "." e)
           end) with (-1).
  - reflexivity.
  - destruct fl; simpl; rewrite ?(Hsep "/"%char eq_refl), ?(Hsep "\"%char eq_refl);
      reflexivity.
Qed.

(** X10. [allowed_file] looks at the extension only and without regard to
    case: for a name with a real stem, it answers whether the lowered
    extension is one of the ten of [ALLOWED_IN], and lowering the extension
    in the name changes nothing; a name that is only a dot and an
    extension, like ".pdf", has no extension and is refused. *)
Theorem allowed_file_by_extension (dir stem e : string) (c0 : ascii) :
  (forall c, In c (chars stem) -> is_sep (kind (os_path env)) c = false) ->
  In c0 (chars stem) -> c0 <> "."%char ->
  (forall c, In c (chars e) ->
     c <> "."%char /\ is_sep (kind (os_path env)) c = false) ->
  UtilsRest.allowed_file env (dir +:+ stem +:+ String "." e)
    = bool_decide (String "." (PyStr.lower e) ∈ UtilsRest.ALLOWED_IN)
  /\ UtilsRest.allowed_file env (dir +:+ stem +:+ String "." (PyStr.lower e))
     = UtilsRest.allowed_file env (dir +:+ stem +:+ String "." e)
  /\ UtilsRest.allowed_file env (String "." e) = false.
Proof.
  intros Hstem Hc0 Hnd He.
  assert (Hone : forall e', (forall c, In c (chars e') ->
                               c <> "."%char /\ is_sep (kind (os_path env)) c = false) ->
            UtilsRest.allowed_file env (dir +:+ stem +:+ String "." e')
            = bool_decide (String "." (PyStr.lower e') ∈ UtilsRest.ALLOWED_IN)).
  { intros e' He'. unfold UtilsRest.allowed_file, Utils.os_path_splitext.
    now rewrite (splitext_extension _ dir stem e' c0). }
  split; [now apply Hone|]. split.
  - rewrite !Hone; [now rewrite lower_idempotent | exact He |].
    intros c (c' & Hc' & ->)%lower_chars. destruct (He _ Hc') as [Hdot Hsep].
    destruct (lower_char_facts (kind (os_path env)) c') as (Hd & Hs & _).
    split; [|now rewrite Hs].
    intros Heq. apply Hdot. apply Ascii.eqb_eq. rewrite <- Hd.
    now apply Ascii.eqb_eq.
  - unfold UtilsRest.allowed_file, Utils.os_path_splitext.
    now rewrite (splitext_hidden _ e He).
Qed.

End AllowedFiles.

Lemma allowed_file_by_extension_witness :
  UtilsRest.allowed_file Demo.env "../up/Report.final.PDF" = true
  /\ UtilsRest.allowed_file Demo.env "../up/Report.final.pdf"
     = UtilsRest.allowed_file Demo.env "../up/Report.final.PDF"
  /\ UtilsRest.allowed_file Demo.env ".PDF" = false.
Proof.
  apply (allowed_file_by_extension Demo.env "../up/" "Report.final" "PDF" "R"%char).
  - intros c Hc. vm_compute in Hc.
    repeat (destruct Hc as [<-|Hc]; [reflexivity|]). destruct Hc.
  - left. reflexivity.
  - discriminate.
  - intros c Hc. vm_compute in Hc.
    repeat (destruct Hc as [<-|Hc]; [split; [discriminate | reflexivity]|]).
    destruct Hc.
Defined.

Example allowed_file_samples :
  UtilsRest.allowed_file Demo.env "a.JPeG" = true
  /\ UtilsRest.allowed_file Demo.env "a.txt" = false
  /\ UtilsRest.allowed_file Demo.env "archive.tar.gz" = false
  /\ UtilsRest.allowed_file Demo.env "docx" = false
  /\ UtilsRest.allowed_file Demo.env "x.pdf/" = false.
Proof. repeat split; reflexivity. Qed.

Lemma compress_pdf_keeps_pages_witness :
  UtilsRest.compress_pdf (UtilsRest.reader_page_compress Sample.blank)
    "in/blank.pdf" "out/c.pdf" "low" Sample.sheets
    = (Ok tt, set_fs (<["out/c.pdf" := PdfFile [PageObject 20; PageObject 21] ]>
                        (fs Sample.sheets)) Sample.sheets)
  /\ length [PageObject 20; PageObject 21] = length [PageObject 20; PageObject 21]
  /\ forall other_quality,
       UtilsRest.compress_pdf (UtilsRest.reader_page_compress Sample.blank)
         "in/blank.pdf" "out/c.pdf" other_quality Sample.sheets
       = UtilsRest.compress_pdf (UtilsRest.reader_page_compress Sample.blank)
           "in/blank.pdf" "out/c.pdf" "low" Sample.sheets.
Proof.
  apply (compress_pdf_keeps_pages (UtilsRest.reader_page_compress Sample.blank)
           "in/blank.pdf" "out/c.pdf" "low"
           [PageObject 20; PageObject 21] [PageObject 20; PageObject 21]
           Sample.sheets).
  - reflexivity.
  - repeat constructor.
Defined.

Lemma compress_pdf_failure_writes_nothing_witness :
  UtilsRest.compress_pdf (UtilsRest.reader_page_compress Sample.blank)
    "in/mixed.pdf" "out/c.pdf" "high" Sample.sheets
  = (Raise (ValueError "Page must be part of a PdfWriter"), Sample.sheets).
Proof.
  apply (compress_pdf_failure_writes_nothing
           (UtilsRest.reader_page_compress Sample.blank) "in/mixed.pdf" "out/c.pdf"
           "high" [PageObject 20] [PageObject 20] [PageObject 21]
           (PageObject 1) (ValueError "Page must be part of a PdfWriter")).
  - reflexivity.
  - repeat constructor.
  - reflexivity.
Defined.

Lemma stored_name_is_plain_witness :
  Utils.os_path_splitext Demo.env "000000000000400080000000000003e8.PDF"
  = ("000000000000400080000000000003e8", ".PDF").
Proof.
  exact (proj1 (proj2 (proj2 (stored_name_is_plain Demo.env
                                "../../etc/Report.final.PDF" Demo.world0)))).
Defined.

(* ===================================================================== *)
(** * Further properties of the routes *)
(* ===================================================================== *)

Section Gate.

Variable env : platform.

(** Behind a rule, a view that the gate closes is a redirect to the login
    page for the methods of the rule, and is not called for any other. *)
Lemma closed_route (methods : list string)
    (view_func : App.request -> M App.response) (req : App.request) (w : world) :
  App.session req !! "user_id" = None ->
  Flask.route methods (App.login_required view_func) req w
  = (if bool_decide (App.method req ∈ Flask.rule_methods methods) then to_login
     else if String.eqb (App.method req) "OPTIONS" then Flask.AutomaticOptions
          else Flask.MethodNotAllowed,
     w).
Proof.
  intros Hanon. unfold Flask.route, App.dispatch, App.login_required.
  rewrite Hanon. cbn [bool_decide decide_rel]. unfold App.redirect, ret.
  destruct (bool_decide (App.method req ∈ _)); [reflexivity|].
  destruct (String.eqb _ _); reflexivity.
Qed.

Lemma page_route_closed
    (route : App.request -> world -> Flask.answer * world)
    (req : App.request) (w : world) :
  In route page_routes ->
  App.session req !! "user_id" = None ->
  route req w
  = (if bool_decide (App.method req ∈ Flask.rule_methods Flask.default_methods)
     then to_login
     else if String.eqb (App.method req) "OPTIONS" then Flask.AutomaticOptions
          else Flask.MethodNotAllowed,
     w).
Proof.
  intros Hr Hanon. simpl in Hr.
  destruct Hr as [<-|[<-|[<-|[]]]]; now apply closed_route.
Qed.

Lemma form_route_closed
    (route : App.request -> world -> Flask.answer * world)
    (req : App.request) (w : world) :
  In route (form_routes env) ->
  App.session req !! "user_id" = None ->
  route req w
  = (if bool_decide (App.method req ∈ Flask.rule_methods form_methods)
     then to_login
     else if String.eqb (App.method req) "OPTIONS" then Flask.AutomaticOptions
          else Flask.MethodNotAllowed,
     w).
Proof.
  intros Hr Hanon. unfold form_routes in Hr. simpl in Hr.
  repeat (destruct Hr as [<-|Hr];
          [unfold Routes.convert_word, Routes.convert_ppt, Routes.convert_image,
             Routes.convert_excel, Routes.merge, App.split;
           now apply closed_route|]).
  destruct Hr.
Qed.

(** The methods that reach a view: GET and HEAD under either kind of rule,
    POST under the rules of the forms only, and no fourth method. *)
Lemma listed_methods (m : string) :
  bool_decide (m ∈ Flask.rule_methods Flask.default_methods)
  = String.eqb m "GET" || String.eqb m "HEAD"
  /\ bool_decide (m ∈ Flask.rule_methods form_methods)
     = String.eqb m "GET" || String.eqb m "HEAD" || String.eqb m "POST".
Proof.
  destruct (String.eqb_spec m "GET") as [->|Hget]; [split; reflexivity|].
  destruct (String.eqb_spec m "HEAD") as [->|Hhead]; [split; reflexivity|].
  destruct (String.eqb_spec m "POST") as [->|Hpost]; [split; reflexivity|].
  split; apply bool_decide_false.
  - change (m ∉ ["GET"; "HEAD"]). rewrite !elem_of_cons, elem_of_nil. tauto.
  - change (m ∉ ["GET"; "POST"; "HEAD"]). rewrite !elem_of_cons, elem_of_nil. tauto.
Qed.

(** X11. Without a user in the session no route under [@login_required]
    serves a page or a file, whatever the request carries, and the machine
    stays as it was: nothing is stored, drawn, run or flashed. A request
    whose method the rule of the route lets through is redirected to the
    login page: GET and HEAD on all nine routes, POST on the six forms.
    Any other is answered by flask before the gate is reached, with its
    own answer to OPTIONS or else with status 405; so a POST to [/],
    [/unlock] or [/ocr] gets status 405. *)
Theorem login_gate_redirects
    (route : App.request -> world -> Flask.answer * world)
    (req : App.request) (w : world) :
  In route (gated_routes env) ->
  App.session req !! "user_id" = None ->
  snd (route req w) = w
  /\ (fst (route req w) = to_login
      \/ fst (route req w) = Flask.AutomaticOptions
      \/ fst (route req w) = Flask.MethodNotAllowed)
  /\ (App.method req = "GET" \/ App.method req = "HEAD" ->
      fst (route req w) = to_login)
  /\ (App.method req = "POST" ->
      (In route (form_routes env) -> fst (route req w) = to_login)
      /\ (In route page_routes -> fst (route req w) = Flask.MethodNotAllowed))
  /\ (App.method req <> "GET" -> App.method req <> "HEAD" ->
      App.method req <> "POST" ->
      fst (route req w)
      = if String.eqb (App.method req) "OPTIONS"
        then Flask.AutomaticOptions else Flask.MethodNotAllowed).
Proof.
  intros Hroute Hanon.
  destruct (listed_methods (App.method req)) as [Hpage Hform].
  assert (Hpost : App.method req = "POST" ->
            (In route (form_routes env) -> fst (route req w) = to_login)
            /\ (In route page_routes -> fst (route req w) = Flask.MethodNotAllowed)).
  { intros Hm. split; intros Hr.
    - rewrite (form_route_closed route req w Hr Hanon), Hm. reflexivity.
    - rewrite (page_route_closed route req w Hr Hanon), Hm. reflexivity. }
  assert (Hrun : exists listed : bool,
            (listed = String.eqb (App.method req) "GET"
                      || String.eqb (App.method req) "HEAD"
             \/ listed = String.eqb (App.method req) "GET"
                         || String.eqb (App.method req) "HEAD"
                         || String.eqb (App.method req) "POST")
            /\ route req w
               = (if listed then to_login
                  else if String.eqb (App.method req) "OPTIONS"
                       then Flask.AutomaticOptions
                       else Flask.MethodNotAllowed,
                  w)).
  { unfold gated_routes in Hroute. apply in_app_or in Hroute.
    destruct Hroute as [Hr|Hr]; eexists; (split; [|rewrite <- ?Hpage, <- ?Hform]).
    - left. reflexivity.
    - rewrite <- Hpage. exact (page_route_closed route req w Hr Hanon).
    - right. reflexivity.
    - rewrite <- Hform. exact (form_route_closed route req w Hr Hanon). }
  destruct Hrun as (listed & Hlisted & Hrun). rewrite Hrun in *. cbn [fst snd] in *.
  split; [reflexivity|]. split; [|split; [|split; [exact Hpost|]]].
  - destruct listed; [left; reflexivity|].
    destruct (String.eqb _ "OPTIONS"); [right; left | right; right]; reflexivity.
  - intros Hm. destruct Hlisted as [-> | ->], Hm as [-> | ->]; reflexivity.
  - intros Hget%String.eqb_neq Hhead%String.eqb_neq Hpost'%String.eqb_neq.
    destruct Hlisted as [-> | ->]; now rewrite Hget, Hhead, ?Hpost'.
Qed.

(** X12. A logged-in POST to the split route that lacks the upload, has an
    upload without a file name, or lacks the pages field or has it empty,
    is answered by a redirect to the split page with the message "Upload
    PDF and enter pages!"; nothing is stored and no name is drawn. *)
Theorem split_route_asks_again (req : App.request) (w : world) :
  App.method req = "POST" -> logged_in req -> split_fields_missing req ->
  App.split env req w
  = (Ok (App.Redirect "/split"),
     set_flashes (flashes w ++ [("Upload PDF and enter pages!", "danger")]) w).
Proof.
  intros Hm [uid Hu] Hmiss.
  unfold App.split, App.login_required, App.split_view.
  rewrite bool_decide_false by (rewrite Hu; discriminate).
  rewrite Hm, String.eqb_refl.
  unfold split_fields_missing in Hmiss.
  destruct (App.multidict_get (App.files req) "file") as [pdf|];
    [|reflexivity].
  destruct (App.multidict_get (App.form req) "pages") as [pages|];
    [|reflexivity].
  unfold App.FileStorage_bool.
  destruct Hmiss as [->| ->]; [reflexivity|].
  now rewrite orb_true_r.
Qed.

(** X13. A logged-in POST to the split route with a PDF upload and a pages
    field that parses to numbers all in range is answered by the download
    of a document whose n-th page is the page of the upload the n-th
    number names; two names are drawn and nothing is flashed. *)
Theorem split_route_sends_selection
    (req : App.request) (pdf : App.FileStorage) (pages : string)
    (src : list page) (page_list : list Z) (w : world) :
  split_post req pdf pages -> pages <> EmptyString ->
  App.stream pdf = PdfFile src ->
  App.parse_pages pages = Ok page_list ->
  Forall (in_range src) page_list ->
  exists output_path picked w',
    App.dispatch (App.split env) req w
      = (App.Responded (App.Attachment output_path (PdfFile picked)), w')
    /\ Forall2 (fun p pg => src !! Z.to_nat (p - 1) = Some pg) page_list picked
    /\ flashes w' = flashes w
    /\ drawn w' = S (S (drawn w)).
Proof.
  intros Hpost Hpages Hsrc Hparse Hall.
  destruct (split_loop_in_range src page_list [] Hall) as (picked & Hloop & Hpick).
  unfold App.dispatch. rewrite (split_post_runs env req pdf pages Hpost Hpages).
  unfold bind at 1. rewrite random_filename_run.
  unfold bind at 1. unfold App.FileStorage_save at 1, write_file at 1.
  unfold bind at 1. rewrite Hparse. unfold lift at 1.
  unfold bind at 1. rewrite random_filename_run.
  unfold bind at 1. unfold Utils.split_pdf, bind, Utils.PdfReader, lift, write_file.
  cbn [fs set_fs set_drawn]. rewrite lookup_insert_eq, Hsrc, Hloop.
  unfold App.send_file. cbn [fs set_fs set_drawn]. rewrite lookup_insert_eq.
  eexists _, picked, _. split; [reflexivity|]. split; [exact Hpick|].
  split; reflexivity.
Qed.

End Gate.

Section MergeRoute.

Variable env : platform.

Lemma stored_paths_length files rnd n :
  length (stored_paths env files rnd n) = length files.
Proof.
  revert n. induction files as [|f files IH]; intros n; simpl; [reflexivity|].
  now rewrite IH.
Qed.

(** The loop stores every upload and hands back the paths, in order. *)
Lemma merge_save_loop_run (files : list App.FileStorage) (file_paths : list string)
    (w : world) :
  Routes.merge_save_loop env files file_paths w
  = (Ok (file_paths ++ stored_paths env files (urandom w) (drawn w)),
     set_fs (save_all (stored_paths env files (urandom w) (drawn w)) files (fs w))
       (set_drawn (drawn w + length files) w)).
Proof.
  revert file_paths w. induction files as [|f files IH]; intros file_paths w.
  - cbn. unfold ret, set_fs, set_drawn. rewrite app_nil_r, Nat.add_0_r.
    now destruct w.
  - cbn [Routes.merge_save_loop]. unfold bind at 1. rewrite random_filename_run.
    unfold bind at 1, App.FileStorage_save at 1, write_file at 1.
    cbv beta iota zeta. etransitivity; [apply IH|].
    cbn [stored_paths save_all fs urandom drawn set_fs set_drawn length].
    rewrite <- app_assoc. f_equal.
    unfold set_fs, set_drawn. cbn [fs dirs urandom drawn flashes].
    f_equal. lia.
Qed.

Lemma save_all_other (paths : list string) (files : list App.FileStorage)
    (m : gmap string file) (p : string) :
  ~ In p paths -> save_all paths files m !! p = m !! p.
Proof.
  revert files m. induction paths as [|q paths IH]; intros files m Hp; [reflexivity|].
  destruct files as [|f files]; [reflexivity|]. cbn [save_all].
  rewrite IH by (intros H; apply Hp; now right).
  apply lookup_insert_ne. intros ->. apply Hp. now left.
Qed.

Lemma saved_uploads_readable (paths : list string) (files : list App.FileStorage)
    (docs : list (list page)) (m : gmap string file) :
  List.NoDup paths -> length paths = length files ->
  Forall2 (fun f d => App.stream f = PdfFile d) files docs ->
  Forall2 (fun p d => save_all paths files m !! p = Some (PdfFile d)) paths docs.
Proof.
  intros Hnd. revert files docs m.
  induction Hnd as [|p paths Hp _ IH]; intros files docs m Hlen Hdocs.
  - destruct files; [|discriminate]. inversion Hdocs. constructor.
  - destruct files as [|f files]; [discriminate|].
    inversion Hdocs as [|? d ? docs' Hf Hrest]; subst.
    constructor.
    + cbn [save_all]. rewrite (save_all_other _ _ _ _ Hp), lookup_insert_eq.
      now rewrite Hf.
    + cbn [save_all]. apply IH; [now injection Hlen | assumption].
Qed.

(** X14. A logged-in POST to the merge route with fewer than two uploads
    under "files" is turned away with the message "Upload at least 2
    PDFs" and a redirect to the merge page before anything is stored. *)
Theorem merge_route_needs_two (req : App.request) (w : world) :
  App.method req = "POST" -> logged_in req ->
  (length (Routes.multidict_getlist (App.files req) "files") < 2)%nat ->
  Routes.merge env req w
  = (Ok (App.Redirect "/merge"),
     set_flashes (flashes w ++ [("Upload at least 2 PDFs", "danger")]) w).
Proof.
  intros Hm [uid Hu] Hfew.
  unfold Routes.merge, App.login_required, Routes.merge_view.
  rewrite bool_decide_false by (rewrite Hu; discriminate).
  rewrite Hm, String.eqb_refl. cbv zeta.
  destruct (Z.ltb_spec (Py.len (Routes.multidict_getlist (App.files req) "files")) 2)
    as [_|Hge]; [reflexivity|].
  unfold Py.len in Hge. lia.
Qed.

(** X15. A logged-in POST to the merge route with two or more PDF uploads
    is answered by the download of their concatenation in the order of
    upload, provided the paths the uploads are stored under differ from
    one another; one name per upload and one for the output are drawn. *)
Theorem merge_route_sends_concatenation
    (req : App.request) (uploads : list App.FileStorage)
    (docs : list (list page)) (w : world) :
  App.method req = "POST" -> logged_in req ->
  Routes.multidict_getlist (App.files req) "files" = uploads ->
  (2 <= length uploads)%nat ->
  Forall2 (fun f d => App.stream f = PdfFile d) uploads docs ->
  List.NoDup (stored_paths env uploads (urandom w) (drawn w)) ->
  exists output_path w',
    App.dispatch (Routes.merge env) req w
      = (App.Responded (App.Attachment output_path (PdfFile (concat docs))), w')
    /\ drawn w' = S (drawn w + length uploads)
    /\ flashes w' = flashes w.
Proof.
  intros Hm [uid Hu] Hfiles Hmany Hdocs Hnd.
  unfold App.dispatch, Routes.merge, App.login_required, Routes.merge_view.
  rewrite bool_decide_false by (rewrite Hu; discriminate).
  rewrite Hm, Hfiles, String.eqb_refl. cbv zeta.
  destruct (Z.ltb_spec (Py.len uploads) 2) as [Hlt|_];
    [unfold Py.len in Hlt; lia|].
  unfold bind at 1. rewrite merge_save_loop_run. cbn [app].
  unfold bind at 1. rewrite random_filename_run.
  unfold bind at 1. unfold Utils.merge_pdfs, bind at 1.
  erewrite merge_loop_readable;
    [|cbn [fs set_fs set_drawn];
      apply saved_uploads_readable;
      [exact Hnd | apply stored_paths_length | exact Hdocs]].
  unfold write_file, App.send_file. cbn [fs set_fs set_drawn app].
  rewrite lookup_insert_eq.
  eexists _, _. split; [reflexivity|]. split; reflexivity.
Qed.

End MergeRoute.

Section OfficeRoutes.

Variable env : platform.

(** Past the gate and the suffix test, an office route stores the upload
    and converts the stored file. *)
Lemma office_route_runs (r : office_route) (req : App.request)
    (f : App.FileStorage) (w : world) :
  In r (office_routes env) ->
  App.method req = "POST" -> logged_in req -> accepted (office_suffixes r) req f ->
  office_view r req w
  = (let* output_file :=
       Utils.convert_office_to_pdf env (upload_path env f w) (App.CONVERTED_DIR env) in
     App.send_file output_file) (after_upload env f w).
Proof.
  intros Hin Hm [uid Hu] (Hf & Hname%String.eqb_neq & Hsuf).
  unfold PyStr.endswith_any in Hsuf.
  simpl in Hin. destruct Hin as [<-|[<-|[<-|[]]]];
    cbn [office_view office_suffixes existsb] in *;
    rewrite ?orb_false_r in Hsuf;
    unfold Routes.convert_word, Routes.convert_word_view, Routes.convert_ppt,
      Routes.convert_ppt_view, Routes.convert_excel, Routes.convert_excel_view,
      App.login_required, PyStr.endswith_any;
    rewrite bool_decide_false by (rewrite Hu; discriminate);
    rewrite Hm, String.eqb_refl, Hf; unfold App.FileStorage_bool;
    cbn [existsb]; rewrite ?orb_false_r; rewrite Hname, Hsuf; cbn [negb andb];
    unfold bind at 1; rewrite random_filename_run;
    unfold bind at 1, App.FileStorage_save at 1, write_file at 1;
    reflexivity.
Qed.

(** X16. A logged-in POST to the Word, PowerPoint or Excel route without
    an upload, or with one whose lowered name does not end in a suffix of
    the route, gets the form of the route again with the route's message
    flashed; nothing is stored and the office binary is not started. *)
Theorem office_route_rejects (r : office_route) (req : App.request) (w : world) :
  In r (office_routes env) ->
  App.method req = "POST" -> logged_in req -> rejected (office_suffixes r) req ->
  office_view r req w
  = (Ok (App.Template (office_template r)),
     set_flashes (flashes w ++ [(office_message r, "danger")]) w).
Proof.
  intros Hin Hm [uid Hu] Hrej. unfold rejected, PyStr.endswith_any in Hrej.
  simpl in Hin. destruct Hin as [<-|[<-|[<-|[]]]];
    cbn [office_view office_suffixes office_message office_template existsb] in *;
    rewrite ?orb_false_r in Hrej;
    unfold Routes.convert_word, Routes.convert_word_view, Routes.convert_ppt,
      Routes.convert_ppt_view, Routes.convert_excel, Routes.convert_excel_view,
      App.login_required, PyStr.endswith_any;
    rewrite bool_decide_false by (rewrite Hu; discriminate);
    rewrite Hm, String.eqb_refl;
    (destruct (App.multidict_get (App.files req) "file") as [f|]; [|reflexivity]);
    cbn [existsb] in Hrej; rewrite ?orb_false_r in Hrej;
    unfold App.FileStorage_bool; cbn [existsb]; rewrite ?orb_false_r;
    (destruct Hrej as [->|Hsuf]; [reflexivity|]);
    rewrite Hsuf; now rewrite andb_false_r.
Qed.

(** X17. When the office binary exits with a status other than zero and
    UTF-8 error output, or exits with zero without leaving the converted
    file, the office routes catch nothing: the client gets a server error
    carrying the [RuntimeError] of [convert_office_to_pdf]. The routes
    clean nothing up either: the machine is left as the binary left it, so
    the upload, stored before the binary was started, is still there with
    its content whenever the binary did not touch it. *)
Theorem office_route_failure_is_server_error
    (r : office_route) (req : App.request) (f : App.FileStorage)
    (proc : CompletedProcess) (w w2 : world) :
  In r (office_routes env) ->
  App.method req = "POST" -> logged_in req -> accepted (office_suffixes r) req f ->
  fs (after_upload env f w) !! App.CONVERTED_DIR env = None ->
  subprocess_run env
    (Utils.soffice_cmd (upload_path env f w) (App.CONVERTED_DIR env))
    (set_dirs ({[App.CONVERTED_DIR env]} ∪ dirs (after_upload env f w))
       (after_upload env f w)) = (Ok proc, w2) ->
  let output_file :=
    Utils.os_path_join env (App.CONVERTED_DIR env)
      (fst (Utils.os_path_splitext env
              (Utils.os_path_basename env (upload_path env f w))) +:+ ".pdf") in
  (forall err, returncode proc <> 0 -> bytes_decode (stderr proc) = Ok err ->
     App.dispatch (office_view r) req w
     = (App.ServerError (RuntimeError ("LibreOffice conversion failed: " +:+ err)),
        w2))
  /\ (returncode proc = 0 -> fs w2 !! output_file = None -> output_file ∉ dirs w2 ->
      App.dispatch (office_view r) req w
      = (App.ServerError (RuntimeError "Converted PDF not found!"), w2))
  /\ (untouched (upload_path env f w) (after_upload env f w) w2 ->
      fs w2 !! upload_path env f w = Some (App.stream f)).
Proof.
  intros Hin Hm Hlog Hacc Hdir Hrun output_file.
  pose proof (office_route_runs r req f w Hin Hm Hlog Hacc) as Hview.
  unfold bind at 1 in Hview.
  rewrite (convert_office_to_pdf_runs env _ _ proc _ w2 Hdir Hrun) in Hview.
  cbv zeta in Hview. fold output_file in Hview.
  unfold App.dispatch. rewrite Hview. split; [|split].
  - intros err Hnz Herr. apply Z.eqb_neq in Hnz. rewrite Hnz, Herr. reflexivity.
  - intros Hz Hnone Hnd. rewrite Hz, Hnone. cbn [Z.eqb negb].
    rewrite (bool_decide_false (is_Some None)) by (intros [? ?]; discriminate).
    now rewrite bool_decide_false.
  - unfold untouched. intros ->. unfold after_upload. cbn [fs set_fs].
    apply lookup_insert_eq.
Qed.

(** X18. When the office binary exits with zero and the converted file is
    there, the office routes send that file; on [posixpath] it is the file
    named by the token of the stored upload with ".pdf", directly in the
    directory of converted files. *)
Theorem office_route_sends_converted
    (r : office_route) (req : App.request) (f : App.FileStorage)
    (proc : CompletedProcess) (body : file) (w w2 : world) :
  In r (office_routes env) ->
  App.method req = "POST" -> logged_in req -> accepted (office_suffixes r) req f ->
  fs (after_upload env f w) !! App.CONVERTED_DIR env = None ->
  subprocess_run env
    (Utils.soffice_cmd (upload_path env f w) (App.CONVERTED_DIR env))
    (set_dirs ({[App.CONVERTED_DIR env]} ∪ dirs (after_upload env f w))
       (after_upload env f w)) = (Ok proc, w2) ->
  returncode proc = 0 ->
  let output_file :=
    Utils.os_path_join env (App.CONVERTED_DIR env)
      (fst (Utils.os_path_splitext env
              (Utils.os_path_basename env (upload_path env f w))) +:+ ".pdf") in
  fs w2 !! output_file = Some body ->
  App.dispatch (office_view r) req w
    = (App.Responded (App.Attachment output_file body), w2)
  /\ (os_path env = OsPath.posixpath ->
      output_file
      = OsPath.posix_join (App.CONVERTED_DIR env) (fresh_token w +:+ ".pdf")).
Proof.
  intros Hin Hm Hlog Hacc Hdir Hrun Hz output_file Hbody. split.
  - unfold App.dispatch.
    rewrite (office_route_runs r req f w Hin Hm Hlog Hacc).
    unfold bind at 1.
    rewrite (convert_office_to_pdf_runs env _ _ proc _ w2 Hdir Hrun).
    cbv zeta. fold output_file. rewrite Hz, Hbody. cbn [Z.eqb negb].
    rewrite (bool_decide_true (is_Some (Some body))) by eauto.
    cbn [orb]. unfold App.send_file. now rewrite Hbody.
  - intros Hposix. unfold output_file, upload_path.
    pose proof (stored_name_no_sep env (App.filename f) w) as Hplain.
    pose proof (stored_name_splitext env (App.filename f) w) as Hsplit.
    unfold Utils.os_path_join, Utils.os_path_basename.
    rewrite Hposix in *. cbn [OsPath.join OsPath.basename OsPath.posixpath] in *.
    rewrite posix_basename_join.
    + now rewrite Hsplit.
    + intros c Hc ->. specialize (Hplain _ Hc). discriminate.
Qed.

End OfficeRoutes.

Section ImageRoute.

Variable env : platform.

Lemma convert_image_runs (req : App.request) (f : App.FileStorage) (w : world) :
  App.method req = "POST" -> logged_in req ->
  accepted [".jpg"; ".jpeg"; ".png"] req f ->
  Routes.convert_image env req w
  = (let* name := Utils.random_filename env "image.pdf" in
     let output_path := Utils.os_path_join env (App.CONVERTED_DIR env) name in
     let* _ := Utils.image_to_pdf env (upload_path env f w) output_path in
     App.send_file output_path) (after_upload env f w).
Proof.
  intros Hm [uid Hu] (Hf & Hname%String.eqb_neq & Hsuf).
  unfold Routes.convert_image, Routes.convert_image_view, App.login_required.
  rewrite bool_decide_false by (rewrite Hu; discriminate).
  rewrite Hm, String.eqb_refl, Hf. unfold App.FileStorage_bool.
  rewrite Hname, Hsuf. cbn [negb andb].
  unfold bind at 1. rewrite random_filename_run.
  unfold bind at 1, App.FileStorage_save at 1, write_file at 1.
  reflexivity.
Qed.

(** X19. A logged-in POST to the image route with an upload named
    [.jpg], [.jpeg] or [.png] (in any case) that holds an image the PDF
    writer accepts after the conversion of "RGBA" and "P" is answered by
    the download of a one-page document of that image at resolution 100.
    The suffix test does not look inside the upload: one that is not an
    image is stored and then ends in a server error, without output. *)
Theorem convert_image_sends_page
    (req : App.request) (f : App.FileStorage) (w : world) :
  App.method req = "POST" -> logged_in req ->
  accepted [".jpg"; ".jpeg"; ".png"] req f ->
  (forall img,
     App.stream f = ImageFile img ->
     let encoded :=
       if String.eqb (image_mode img) "RGBA" || String.eqb (image_mode img) "P"
       then Converted img "RGB" else img in
     pdf_mode_supported env (image_mode encoded) = true ->
     exists output_path w',
       App.dispatch (Routes.convert_image env) req w
       = (App.Responded
            (App.Attachment output_path (PdfFile [ImagePage encoded 100])), w'))
  /\ ((forall img, App.stream f <> ImageFile img) ->
      exists w',
        App.dispatch (Routes.convert_image env) req w
        = (App.ServerError (UnidentifiedImageError (upload_path env f w)), w')
        /\ fs w' = fs (after_upload env f w)).
Proof.
  intros Hm Hlog Hacc.
  pose proof (convert_image_runs req f w Hm Hlog Hacc) as Hview.
  unfold bind at 1 in Hview. rewrite random_filename_run in Hview.
  unfold bind at 1 in Hview.
  unfold App.dispatch. rewrite Hview. clear Hview.
  assert (Hup : fs (set_drawn (S (drawn (after_upload env f w))) (after_upload env f w))
                  !! upload_path env f w = Some (App.stream f)).
  { unfold after_upload. cbn [fs set_fs set_drawn]. apply lookup_insert_eq. }
  split.
  - intros img Himg Hok. rewrite Himg in Hup.
    unfold Utils.image_to_pdf, bind, Utils.Image_open. rewrite Hup.
    unfold Utils.Image_save_pdf, Utils.Image_convert. rewrite Hok.
    unfold write_file, App.send_file. cbn [fs set_fs set_drawn].
    rewrite lookup_insert_eq. eauto.
  - intros Hnot. unfold Utils.image_to_pdf, bind, Utils.Image_open. rewrite Hup.
    destruct (App.stream f) as [pages|img|data] eqn:Hs;
      [|now destruct (Hnot img)|]; eexists; split; reflexivity.
Qed.

End ImageRoute.

(** ** The routes on the demo machine *)

Lemma demo_logged_in (key : string) (uploads : list App.FileStorage) :
  logged_in (Sample.post key uploads).
Proof. exists 1. reflexivity. Defined.

Lemma login_gate_redirects_witness :
  Flask.route form_methods (Routes.merge Demo.env) Sample.anonymous Demo.world0
    = (to_login, Demo.world0)
  /\ Routes.dashboard Sample.anonymous Demo.world0
     = (Flask.MethodNotAllowed, Demo.world0).
Proof.
  pose proof (login_gate_redirects Demo.env
                (Flask.route form_methods (Routes.merge Demo.env))
                Sample.anonymous Demo.world0) as Hmerge.
  pose proof (login_gate_redirects Demo.env Routes.dashboard
                Sample.anonymous Demo.world0) as Hdash.
  destruct Hmerge as (Hw & _ & _ & Hpost & _);
    [right; right; right; do 4 right; left; reflexivity | reflexivity |].
  destruct Hdash as (Hw' & _ & _ & Hpost' & _); [left; reflexivity | reflexivity |].
  split; apply injective_projections; cbn [fst snd]; try assumption.
  - apply Hpost; [reflexivity|]. do 4 right. left. reflexivity.
  - apply Hpost'; [reflexivity|]. left. reflexivity.
Defined.

Lemma split_route_asks_again_witness :
  App.split Demo.env (Demo.split_request "a.pdf" (PdfFile Demo.five_pages) "")
    Demo.world0
  = (Ok (App.Redirect "/split"),
     set_flashes [("Upload PDF and enter pages!", "danger")] Demo.world0).
Proof.
  apply (split_route_asks_again Demo.env
           (Demo.split_request "a.pdf" (PdfFile Demo.five_pages) "") Demo.world0).
  - reflexivity.
  - exists 1. reflexivity.
  - right. reflexivity.
Defined.

Lemma split_route_sends_selection_witness :
  exists output_path picked w',
    App.dispatch (App.split Demo.env)
      (Demo.split_request "a.pdf" (PdfFile Demo.five_pages) "4-5,1") Demo.world0
      = (App.Responded (App.Attachment output_path (PdfFile picked)), w')
    /\ Forall2 (fun p pg => Demo.five_pages !! Z.to_nat (p - 1) = Some pg)
         [4; 5; 1] picked
    /\ flashes w' = flashes Demo.world0
    /\ drawn w' = S (S (drawn Demo.world0)).
Proof.
  apply (split_route_sends_selection Demo.env
           (Demo.split_request "a.pdf" (PdfFile Demo.five_pages) "4-5,1")
           {| App.filename := "a.pdf"; App.stream := PdfFile Demo.five_pages |}
           "4-5,1" Demo.five_pages [4; 5; 1] Demo.world0).
  - apply demo_split_post. discriminate.
  - discriminate.
  - reflexivity.
  - reflexivity.
  - repeat constructor; vm_compute; discriminate.
Defined.

Lemma merge_route_needs_two_witness :
  Routes.merge Demo.env
    (Sample.post "files" [Sample.upload "a.pdf" (PdfFile Demo.five_pages)])
    Demo.world0
  = (Ok (App.Redirect "/merge"),
     set_flashes [("Upload at least 2 PDFs", "danger")] Demo.world0).
Proof.
  apply (merge_route_needs_two Demo.env
           (Sample.post "files" [Sample.upload "a.pdf" (PdfFile Demo.five_pages)])
           Demo.world0).
  - reflexivity.
  - apply demo_logged_in.
  - cbn. lia.
Defined.

Lemma merge_route_sends_concatenation_witness :
  exists output_path w',
    App.dispatch (Routes.merge Demo.env)
      (Sample.post "files"
         [Sample.upload "b.pdf" (PdfFile [PageObject 6; PageObject 7]);
          Sample.upload "a.PDF" (PdfFile Demo.five_pages)])
      Demo.world0
    = (App.Responded
         (App.Attachment output_path
            (PdfFile (concat [[PageObject 6; PageObject 7]; Demo.five_pages]))), w')
    /\ drawn w' = S (drawn Demo.world0 + 2)
    /\ flashes w' = flashes Demo.world0.
Proof.
  apply (merge_route_sends_concatenation Demo.env _
           [Sample.upload "b.pdf" (PdfFile [PageObject 6; PageObject 7]);
            Sample.upload "a.PDF" (PdfFile Demo.five_pages)]
           [[PageObject 6; PageObject 7]; Demo.five_pages] Demo.world0).
  - reflexivity.
  - apply demo_logged_in.
  - reflexivity.
  - cbn. lia.
  - repeat constructor.
  - vm_compute. repeat constructor; simpl; intuition discriminate.
Defined.

Lemma demo_accepted_docx :
  accepted [".docx"]
    (Sample.post "file" [Sample.upload "Report.DOCX" (BlobFile [])])
    (Sample.upload "Report.DOCX" (BlobFile [])).
Proof. repeat split. discriminate. Defined.

Lemma office_route_rejects_witness :
  Routes.convert_excel Demo.env
    (Sample.post "file" [Sample.upload "Report.DOCX" (BlobFile [])]) Demo.world0
  = (Ok (App.Template "excel_to_pdf.html"),
     set_flashes [("Upload a valid XLS or XLSX file!", "danger")] Demo.world0).
Proof.
  apply (office_route_rejects Demo.env
           {| office_view := Routes.convert_excel Demo.env;
              office_suffixes := [".xls"; ".xlsx"];
              office_message := "Upload a valid XLS or XLSX file!";
              office_template := "excel_to_pdf.html" |}
           (Sample.post "file" [Sample.upload "Report.DOCX" (BlobFile [])])
           Demo.world0).
  - do 2 right. left. reflexivity.
  - reflexivity.
  - apply demo_logged_in.
  - right. reflexivity.
Defined.

Lemma office_route_failure_is_server_error_witness :
  let env := Demo.machine Sample.failing_office in
  let req := Sample.post "file" [Sample.upload "Report.DOCX" (BlobFile [])] in
  exists w2,
    App.dispatch (Routes.convert_word env) req Demo.world0
    = (App.ServerError (RuntimeError "LibreOffice conversion failed: bad"), w2)
    /\ fs w2 !! upload_path env (Sample.upload "Report.DOCX" (BlobFile [])) Demo.world0
       = Some (BlobFile [])
    /\ upload_path env (Sample.upload "Report.DOCX" (BlobFile [])) Demo.world0
       = "/srv/app/uploads/000000000000400080000000000003e8.DOCX".
Proof.
  cbv zeta.
  pose proof (office_route_failure_is_server_error
                (Demo.machine Sample.failing_office)
                {| office_view := Routes.convert_word (Demo.machine Sample.failing_office);
                   office_suffixes := [".docx"];
                   office_message := "Upload a valid .docx file!";
                   office_template := "word_to_pdf.html" |}
                (Sample.post "file" [Sample.upload "Report.DOCX" (BlobFile [])])
                (Sample.upload "Report.DOCX" (BlobFile []))
                {| returncode := 77; stdout := [];
                   stderr := [Byte.x62; Byte.x61; Byte.x64] |}
                Demo.world0 _
                (or_introl eq_refl) eq_refl (demo_logged_in _ _) demo_accepted_docx
                eq_refl eq_refl) as (Hfail & _ & Hkept).
  eexists. split; [|split].
  - apply (Hfail "bad"); [discriminate | reflexivity].
  - apply Hkept. reflexivity.
  - vm_compute. reflexivity.
Defined.

Lemma office_route_sends_converted_witness :
  let env := Demo.machine Demo.obedient_office in
  let req := Sample.post "file" [Sample.upload "Report.DOCX" (BlobFile [])] in
  exists w2,
    App.dispatch (Routes.convert_word env) req Demo.world0
    = (App.Responded
         (App.Attachment "/srv/app/converted/000000000000400080000000000003e8.pdf"
            (PdfFile [PageObject 0])), w2).
Proof.
  cbv zeta. eexists.
  refine (proj1 (office_route_sends_converted
                   (Demo.machine Demo.obedient_office)
                   {| office_view := Routes.convert_word (Demo.machine Demo.obedient_office);
                      office_suffixes := [".docx"];
                      office_message := "Upload a valid .docx file!";
                      office_template := "word_to_pdf.html" |}
                   (Sample.post "file" [Sample.upload "Report.DOCX" (BlobFile [])])
                   (Sample.upload "Report.DOCX" (BlobFile []))
                   {| returncode := 0; stdout := []; stderr := [] |}
                   (PdfFile [PageObject 0])
                   Demo.world0 _ _ _ _ _ _ _ _ _)).
  - left. reflexivity.
  - reflexivity.
  - apply demo_logged_in.
  - exact demo_accepted_docx.
  - reflexivity.
  - reflexivity.
  - reflexivity.
  - vm_compute. reflexivity.
Defined.

Lemma convert_image_sends_page_witness :
  exists output_path w',
    App.dispatch (Routes.convert_image Demo.env)
      (Sample.post "file" [Sample.upload "Logo.PNG" (ImageFile (Decoded "P" 4))])
      Demo.world0
    = (App.Responded
         (App.Attachment output_path
            (PdfFile [ImagePage (Converted (Decoded "P" 4) "RGB") 100])), w').
Proof.
  refine (proj1 (convert_image_sends_page Demo.env
                   (Sample.post "file"
                      [Sample.upload "Logo.PNG" (ImageFile (Decoded "P" 4))])
                   (Sample.upload "Logo.PNG" (ImageFile (Decoded "P" 4)))
                   Demo.world0 _ _ _) (Decoded "P" 4) _ _).
  - reflexivity.
  - apply demo_logged_in.
  - repeat split. discriminate.
  - reflexivity.
  - reflexivity.
Defined.

Example convert_image_stores_any_content :
  exists w',
    App.dispatch (Routes.convert_image Demo.env)
      (Sample.post "file" [Sample.upload "notes.jpg" (BlobFile [Byte.x68; Byte.x69])])
      Demo.world0
    = (App.ServerError
         (UnidentifiedImageError
            "/srv/app/uploads/000000000000400080000000000003e8.jpg"), w')
    /\ fs w' !! "/srv/app/uploads/000000000000400080000000000003e8.jpg"
       = Some (BlobFile [Byte.x68; Byte.x69]).
Proof. eexists. split; vm_compute; reflexivity. Qed.

(* ===================================================================== *)
(** * When two stored names are the same *)
(* ===================================================================== *)

Section Collisions.

Variable env : platform.

Import OsPath.

Lemma set_version4_range (i : Z) :
  0 <= i < 2 ^ 128 -> 0 <= Uuid.set_version4 i < 2 ^ 128.
Proof.
  intros [Hlo Hhi]. unfold Uuid.set_version4.
  assert (Hnn : 0 <= Z.lor (Z.land (Z.lor (Z.land i (Z.lnot (Z.shiftl 0xc000 48)))
                                      (Z.shiftl 0x8000 48))
                              (Z.lnot (Z.shiftl 0xf000 64))) (Z.shiftl 4 76)).
  { apply Z.lor_nonneg. split; [|vm_compute; discriminate].
    apply Z.land_nonneg. left. apply Z.lor_nonneg.
    split; [|vm_compute; discriminate]. apply Z.land_nonneg. now left. }
  split; [exact Hnn|].
  apply (Z.bounded_iff_bits_nonneg 128); [lia | exact Hnn|].
  intros l Hl.
  assert (Hi : Z.testbit i l = false)
    by (apply (Z.bounded_iff_bits_nonneg 128 i); lia).
  assert (Hc1 : Z.testbit (Z.shiftl 0x8000 48) l = false).
  { apply (Z.bounded_iff_bits_nonneg 128); [lia | vm_compute; discriminate
                                            | reflexivity | exact Hl]. }
  assert (Hc2 : Z.testbit (Z.shiftl 4 76) l = false).
  { apply (Z.bounded_iff_bits_nonneg 128); [lia | vm_compute; discriminate
                                            | reflexivity | exact Hl]. }
  rewrite Z.lor_spec, Z.land_spec, Z.lor_spec, Z.land_spec, Hi, Hc1, Hc2.
  reflexivity.
Qed.

Lemma hex_char_inj (a b : Z) :
  0 <= a < 16 -> 0 <= b < 16 -> Uuid.hex_char a = Uuid.hex_char b -> a = b.
Proof.
  intros Ha Hb Heq. apply (f_equal N_of_ascii) in Heq. unfold Uuid.hex_char in Heq.
  destruct (Z.ltb_spec a 10), (Z.ltb_spec b 10);
    rewrite !N_ascii_embedding in Heq by lia; lia.
Qed.

Lemma hex_digits_chars (width : nat) (v : Z) (acc : string) :
  chars (Uuid.hex_digits width v acc)
  = chars (Uuid.hex_digits width v EmptyString) ++ chars acc.
Proof.
  revert v acc. induction width as [|width IH]; intros v acc; [reflexivity|].
  cbn [Uuid.hex_digits].
  rewrite (IH _ (String _ acc)), (IH _ (String _ EmptyString)).
  cbn [chars list_ascii_of_string]. now rewrite <- app_assoc.
Qed.

Lemma chars_inj (s t : string) : chars s = chars t -> s = t.
Proof. intros H. now rewrite <- (text_chars s), <- (text_chars t), H. Qed.

Lemma hex_digits_inj (width : nat) (v v' : Z) :
  0 <= v < 16 ^ Z.of_nat width -> 0 <= v' < 16 ^ Z.of_nat width ->
  Uuid.hex_digits width v EmptyString = Uuid.hex_digits width v' EmptyString ->
  v = v'.
Proof.
  revert v v'. induction width as [|width IH]; intros v v' Hv Hv' Heq.
  - change (16 ^ Z.of_nat 0) with 1 in *. lia.
  - rewrite Nat2Z.inj_succ, Z.pow_succ_r in Hv, Hv' by lia.
    apply (f_equal chars) in Heq. cbn [Uuid.hex_digits] in Heq.
    rewrite (hex_digits_chars _ _ (String _ _)) in Heq.
    rewrite (hex_digits_chars _ (v' / 16) (String _ _)) in Heq.
    apply app_inj_2 in Heq as [Hhigh Hlow]; [|reflexivity].
    apply chars_inj, IH in Hhigh;
      [|split; [apply Z.div_pos | apply Z.div_lt_upper_bound]; lia..].
    injection Hlow as Hlow.
    apply hex_char_inj in Hlow; [|apply Z.mod_pos_bound; lia..].
    rewrite (Z.div_mod v 16), (Z.div_mod v' 16) by lia. now rewrite Hhigh, Hlow.
Qed.

Lemma chars_length (s : string) : length (chars s) = String.length s.
Proof. induction s as [|a s IH]; simpl; [reflexivity | now rewrite IH]. Qed.

(** X20. Two calls of [random_filename] in a row answer the same name
    exactly when their two identifiers are equal and the two extensions
    agree: the token determines the identifier. *)
Theorem stored_names_collide_only_on_equal_uuids (name1 name2 : string) (w : world) :
  let uuid1 := Uuid.set_version4 (Z.of_N (urandom w (drawn w)) mod 2 ^ 128) in
  let uuid2 := Uuid.set_version4 (Z.of_N (urandom w (S (drawn w))) mod 2 ^ 128) in
  exists stored1 stored2 w1 w2,
    Utils.random_filename env name1 w = (Ok stored1, w1)
    /\ Utils.random_filename env name2 w1 = (Ok stored2, w2)
    /\ (stored1 = stored2
        <-> uuid1 = uuid2
            /\ snd (Utils.os_path_splitext env name1)
               = snd (Utils.os_path_splitext env name2)).
Proof.
  intros uuid1 uuid2. eexists _, _, _, _.
  split; [apply random_filename_run|]. split; [apply random_filename_run|].
  unfold fresh_token. cbn [urandom drawn set_drawn]. fold uuid1 uuid2.
  assert (Hr : forall d, 0 <= Uuid.set_version4 (Z.of_N d mod 2 ^ 128)
                         < 16 ^ Z.of_nat 32).
  { intros d. change (16 ^ Z.of_nat 32) with (2 ^ 128).
    apply set_version4_range, Z.mod_pos_bound. lia. }
  split.
  - intros Heq. apply (f_equal chars) in Heq. rewrite !chars_append in Heq.
    apply app_inj_1 in Heq as [Htok Hext].
    + split; [|now apply chars_inj].
      apply chars_inj in Htok. exact (hex_digits_inj 32 _ _ (Hr _) (Hr _) Htok).
    + rewrite !chars_length. unfold Uuid.hex.
      now rewrite !(proj1 (hex_digits_shape _ _ _)).
  - intros [-> ->]. reflexivity.
Qed.

End Collisions.

Example stored_names_differ_on_the_demo_machine :
  fst (Utils.random_filename Demo.env "a.pdf" Demo.world0)
  <> fst (Utils.random_filename Demo.env "b.pdf" (set_drawn 1 Demo.world0)).
Proof. vm_compute. discriminate. Qed.
